(** * Image supported sample counts tests (vktImageSampleCountsTests)

    A shallow embedding of the sample-count rule evaluator, the six check
    variants and the case enumerator of the Vulkan conformance tests, with the
    properties of the design document stated and settled against it. *)

From Stdlib Require Import ZArith List Bool String Ascii Lia DecimalString.
From Stdlib Require Import Permutation.
Import ListNotations.

Local Open Scope string_scope.
Local Open Scope list_scope.
Local Open Scope Z_scope.

(** ** Vulkan API types and constants *)

(** The C++ code manipulates [VkFlags] values, which are 32-bit unsigned
    integers, only with [&], [|], [>>], [==] and [!=]; none of these can leave
    the range, so a flag word is a [Z] with the bit operations of [Z]. *)
Definition VkFlags := Z.
Definition VkSampleCountFlags := VkFlags.
Definition VkImageUsageFlags := VkFlags.
Definition VkImageCreateFlags := VkFlags.
Definition VkFormatFeatureFlags := VkFlags.

(** [VkFormat] is a C enumeration; the enumerator walks it with [format + 1]. *)
Definition VkFormat := Z.

(** [VkResult] is a C enumeration of status codes. *)
Definition VkResult := Z.

Module Vk.

(** Modelled from the spec: the Vulkan API header that declares these
    enumerators is not among the sources.  The design document fixes the
    single-sample set [{1}] as the lowest bit of a sample-count mask and the
    four usage intents and two attachment features as separate flag bits; the
    numeric values are the ones of the Vulkan API. *)
Definition VK_SAMPLE_COUNT_1_BIT : VkSampleCountFlags := 1.

Definition VK_IMAGE_USAGE_SAMPLED_BIT : VkImageUsageFlags := 4.
Definition VK_IMAGE_USAGE_STORAGE_BIT : VkImageUsageFlags := 8.
Definition VK_IMAGE_USAGE_COLOR_ATTACHMENT_BIT : VkImageUsageFlags := 16.
Definition VK_IMAGE_USAGE_DEPTH_STENCIL_ATTACHMENT_BIT : VkImageUsageFlags := 32.

Definition VK_FORMAT_FEATURE_COLOR_ATTACHMENT_BIT : VkFormatFeatureFlags := 128.
Definition VK_FORMAT_FEATURE_DEPTH_STENCIL_ATTACHMENT_BIT : VkFormatFeatureFlags := 512.

Definition VK_IMAGE_CREATE_CUBE_COMPATIBLE_BIT : VkImageCreateFlags := 16.

Definition VK_SUCCESS : VkResult := 0.
Definition VK_ERROR_FORMAT_NOT_SUPPORTED : VkResult := -11.

(** Modelled from the spec: the bounds of the six format-id-contiguous ranges
    of the format universe (core formats, 3-plane YCbCr, 2-plane YCbCr, 4-bit
    alpha packed, floating-point ASTC, PVRTC) are enumerators of the absent
    Vulkan API header; the values are the ones of the Vulkan API. *)
Definition VK_FORMAT_R4G4_UNORM_PACK8 : VkFormat := 1.
Definition VK_FORMAT_ASTC_12x12_SRGB_BLOCK : VkFormat := 184.
Definition VK_FORMAT_G8B8G8R8_422_UNORM : VkFormat := 1000156000.
Definition VK_FORMAT_G16_B16_R16_3PLANE_444_UNORM : VkFormat := 1000156033.
Definition VK_FORMAT_G8_B8R8_2PLANE_444_UNORM : VkFormat := 1000330000.
Definition VK_FORMAT_G16_B16R16_2PLANE_444_UNORM : VkFormat := 1000330003.
Definition VK_FORMAT_A4R4G4B4_UNORM_PACK16 : VkFormat := 1000340000.
Definition VK_FORMAT_A4B4G4R4_UNORM_PACK16 : VkFormat := 1000340001.
Definition VK_FORMAT_ASTC_4x4_SFLOAT_BLOCK : VkFormat := 1000066000.
Definition VK_FORMAT_ASTC_12x12_SFLOAT_BLOCK : VkFormat := 1000066013.
Definition VK_FORMAT_PVRTC1_2BPP_UNORM_BLOCK_IMG : VkFormat := 1000054000.
Definition VK_FORMAT_PVRTC2_4BPP_SRGB_BLOCK_IMG : VkFormat := 1000054007.

(** A few more format ids, used as concrete inputs. *)
Definition VK_FORMAT_R8_UINT : VkFormat := 13.
Definition VK_FORMAT_R8G8B8A8_UNORM : VkFormat := 37.
Definition VK_FORMAT_D16_UNORM : VkFormat := 124.
Definition VK_FORMAT_S8_UINT : VkFormat := 127.
Definition VK_FORMAT_D24_UNORM_S8_UINT : VkFormat := 129.
Definition VK_FORMAT_BC1_RGB_UNORM_BLOCK : VkFormat := 131.

End Vk.
Export Vk.

Inductive VkImageType := VK_IMAGE_TYPE_1D | VK_IMAGE_TYPE_2D | VK_IMAGE_TYPE_3D.
Inductive VkImageTiling := VK_IMAGE_TILING_OPTIMAL | VK_IMAGE_TILING_LINEAR.

Definition VkImageType_eqb (a b : VkImageType) : bool :=
  match a, b with
  | VK_IMAGE_TYPE_1D, VK_IMAGE_TYPE_1D
  | VK_IMAGE_TYPE_2D, VK_IMAGE_TYPE_2D
  | VK_IMAGE_TYPE_3D, VK_IMAGE_TYPE_3D => true
  | _, _ => false
  end.

Definition VkImageTiling_eqb (a b : VkImageTiling) : bool :=
  match a, b with
  | VK_IMAGE_TILING_OPTIMAL, VK_IMAGE_TILING_OPTIMAL
  | VK_IMAGE_TILING_LINEAR, VK_IMAGE_TILING_LINEAR => true
  | _, _ => false
  end.

(** The test framework's own image type (the enumerator iterates over three
    of its values and maps them to [VkImageType]). *)
Inductive ImageType := IMAGE_TYPE_1D | IMAGE_TYPE_2D | IMAGE_TYPE_3D.

(** [tcu::TextureFormat]: the framework's description of a format; the rule
    evaluator reads its channel order only. *)
Module TextureFormat.

Inductive ChannelOrder :=
  | R | A | I | L | LA | RG | RA | RGB | RGBA | ARGB | ABGR | BGR | BGRA
  | sR | sRG | sRGB | sRGBA | sBGR | sBGRA
  | D | S | DS.

Definition eqb (a b : ChannelOrder) : bool :=
  match a, b with
  | R, R | A, A | I, I | L, L | LA, LA | RG, RG | RA, RA | RGB, RGB
  | RGBA, RGBA | ARGB, ARGB | ABGR, ABGR | BGR, BGR | BGRA, BGRA
  | sR, sR | sRG, sRG | sRGB, sRGB | sRGBA, sRGBA | sBGR, sBGR
  | sBGRA, sBGRA | D, D | S, S | DS, DS => true
  | _, _ => false
  end.

Record t := { order : ChannelOrder }.

End TextureFormat.

(** ** Capability snapshot *)

Record VkPhysicalDeviceLimits := {
  framebufferColorSampleCounts : VkSampleCountFlags;
  framebufferDepthSampleCounts : VkSampleCountFlags;
  framebufferStencilSampleCounts : VkSampleCountFlags;
  sampledImageColorSampleCounts : VkSampleCountFlags;
  sampledImageIntegerSampleCounts : VkSampleCountFlags;
  sampledImageDepthSampleCounts : VkSampleCountFlags;
  storageImageSampleCounts : VkSampleCountFlags
}.

Record VkPhysicalDeviceProperties := { limits : VkPhysicalDeviceLimits }.
Record VkPhysicalDeviceProperties2 := { properties : VkPhysicalDeviceProperties }.
Record VkPhysicalDeviceVulkan12Properties := {
  framebufferIntegerColorSampleCounts : VkSampleCountFlags
}.

Record VkFormatProperties := { optimalTilingFeatures : VkFormatFeatureFlags }.
Record VkImageFormatProperties := { sampleCounts : VkSampleCountFlags }.

(** The instance interface of the test context, a read-only oracle.  The
    property query fills the 1.2 properties through the [pNext] chain, so it
    yields both structures; the image-format query yields its status and the
    output structure (which the checks read only after a success). *)
Record Context := {
  getPhysicalDeviceFormatProperties : VkFormat -> VkFormatProperties;
  getPhysicalDeviceProperties2 :
    VkPhysicalDeviceProperties2 * VkPhysicalDeviceVulkan12Properties;
  getPhysicalDeviceImageFormatProperties :
    VkFormat -> VkImageType -> VkImageTiling -> VkImageUsageFlags ->
    VkImageCreateFlags -> VkResult * VkImageFormatProperties
}.

(** ** Case description (vktImageSampleCountsTests.hpp) *)

Record CaseDef := {
  format : VkFormat;
  imageType : VkImageType;
  imageTiling : VkImageTiling;
  usageFlags : VkImageUsageFlags
}.

Inductive SampleCountsSubtests :=
  | LINEAR_TILING_AND_NOT_2D_IMAGE_TYPE
  | CUBE_COMPATIBLE_SUBTEST
  | OPTIMAL_TILING_FEATURES_SUBTEST
  | YCBCR_CONVERSION_SUBTEST
  | USAGE_FLAGS_SUBTEST
  | ONE_SAMPLE_COUNT_PRESENT_SUBTEST.

(** ** Format utilities of the framework

    The classification of formats ([vkImageUtil]) and the naming helpers
    ([vktImageTestsUtil]) are functions of other translation units; the code
    under study only calls them, so they are an interface here. *)
Class FormatUtil := {
  isCompressedFormat : VkFormat -> bool;
  isYCbCrFormat : VkFormat -> bool;
  isFloatFormat : VkFormat -> bool;
  isSnormFormat : VkFormat -> bool;
  isUnormFormat : VkFormat -> bool;
  isIntFormat : VkFormat -> bool;
  isUintFormat : VkFormat -> bool;
  mapVkFormat : VkFormat -> TextureFormat.t;
  getFormatShortString : VkFormat -> string;
  getImageTypeName : ImageType -> string;
  getImageTilingName : VkImageTiling -> string
}.

(** Modelled from the spec: [mapImageType] of the image test utilities is not
    among the sources; the design document identifies the three image types of
    the grid (1D, 2D, 3D) with the image type of the case description. *)
Definition mapImageType (imageType : ImageType) : VkImageType :=
  match imageType with
  | IMAGE_TYPE_1D => VK_IMAGE_TYPE_1D
  | IMAGE_TYPE_2D => VK_IMAGE_TYPE_2D
  | IMAGE_TYPE_3D => VK_IMAGE_TYPE_3D
  end.

(** C truth value of an integer expression used as a condition. *)
Definition nonzero (x : Z) : bool := negb (x =? 0).

(** ** Rule evaluator and check variants *)

(** Returns true if "a" is superset of "b" *)
Definition isSuperset (a b : VkSampleCountFlags) : bool := Z.land a b =? b.

(** [tcu::TestStatus], as far as [iterate] builds it. *)
Inductive TestStatus := pass (description : string) | fail (description : string).

Module SampleCountTestInstance.

Record t := {
  m_context : Context;
  m_caseDef : CaseDef;
  m_subtest : SampleCountsSubtests
}.

Section Methods.

Context {U : FormatUtil}.
Variable self : t.

Definition getColorSampleCounts
    (physicalDeviceProperties : VkPhysicalDeviceProperties2)
    (physicalDeviceProperties12 : VkPhysicalDeviceVulkan12Properties)
    : VkSampleCountFlags :=
  if negb (isCompressedFormat (format (m_caseDef self))) then
    if isFloatFormat (format (m_caseDef self))
       || isSnormFormat (format (m_caseDef self))
       || isUnormFormat (format (m_caseDef self))
    then framebufferColorSampleCounts (limits (properties physicalDeviceProperties))
    else if isIntFormat (format (m_caseDef self))
            || isUintFormat (format (m_caseDef self))
    then framebufferIntegerColorSampleCounts physicalDeviceProperties12
    else 0
  else 0.

Definition getDepthStencilSampleCounts
    (physicalDeviceProperties : VkPhysicalDeviceProperties2)
    : VkSampleCountFlags :=
  if negb (isCompressedFormat (format (m_caseDef self))) then
    let format := mapVkFormat (format (m_caseDef self)) in
    if TextureFormat.eqb (TextureFormat.order format) TextureFormat.D
    then framebufferDepthSampleCounts (limits (properties physicalDeviceProperties))
    else if TextureFormat.eqb (TextureFormat.order format) TextureFormat.S
    then framebufferStencilSampleCounts (limits (properties physicalDeviceProperties))
    else 0
  else 0.

(** The first two branches return at once, so the integer test below them is
    reached only by a format whose channel order is [S]. *)
Definition getSampledSampleCounts
    (physicalDeviceProperties : VkPhysicalDeviceProperties2)
    : VkSampleCountFlags :=
  if negb (isCompressedFormat (format (m_caseDef self)))
     && negb (isYCbCrFormat (format (m_caseDef self))) then
    let format' := mapVkFormat (format (m_caseDef self)) in
    if negb (TextureFormat.eqb (TextureFormat.order format') TextureFormat.D)
       && negb (TextureFormat.eqb (TextureFormat.order format') TextureFormat.DS)
       && negb (TextureFormat.eqb (TextureFormat.order format') TextureFormat.S)
    then sampledImageColorSampleCounts (limits (properties physicalDeviceProperties))
    else if TextureFormat.eqb (TextureFormat.order format') TextureFormat.D
            || TextureFormat.eqb (TextureFormat.order format') TextureFormat.DS
    then sampledImageDepthSampleCounts (limits (properties physicalDeviceProperties))
    else if isIntFormat (format (m_caseDef self))
            || isUintFormat (format (m_caseDef self))
    then sampledImageIntegerSampleCounts (limits (properties physicalDeviceProperties))
    else 0
  else 0.

Definition getStorageSampleCounts
    (physicalDeviceProperties : VkPhysicalDeviceProperties2)
    : VkSampleCountFlags :=
  storageImageSampleCounts (limits (properties physicalDeviceProperties)).

(** The vector [expectedSupersets] of [checkUsageFlags] after its four
    conditional [push_back]s. *)
Definition expectedSupersets
    (physicalDeviceProperties : VkPhysicalDeviceProperties2)
    (physicalDeviceProperties12 : VkPhysicalDeviceVulkan12Properties)
    : list VkSampleCountFlags :=
  let v := [] in
  let v :=
    if nonzero (Z.land (usageFlags (m_caseDef self)) VK_IMAGE_USAGE_COLOR_ATTACHMENT_BIT)
    then v ++ [getColorSampleCounts physicalDeviceProperties physicalDeviceProperties12]
    else v in
  let v :=
    if nonzero (Z.land (usageFlags (m_caseDef self)) VK_IMAGE_USAGE_DEPTH_STENCIL_ATTACHMENT_BIT)
    then v ++ [getDepthStencilSampleCounts physicalDeviceProperties]
    else v in
  let v :=
    if nonzero (Z.land (usageFlags (m_caseDef self)) VK_IMAGE_USAGE_SAMPLED_BIT)
    then v ++ [getSampledSampleCounts physicalDeviceProperties]
    else v in
  let v :=
    if nonzero (Z.land (usageFlags (m_caseDef self)) VK_IMAGE_USAGE_STORAGE_BIT)
    then v ++ [getStorageSampleCounts physicalDeviceProperties]
    else v in
  v.

(** The loop [for (setFlags : expectedSupersets) expectedFlags &= setFlags],
    started from [expectedSupersets[0]]. *)
Definition intersectAll (expectedSupersets : list VkSampleCountFlags)
    (first : VkSampleCountFlags) : VkSampleCountFlags :=
  fold_left (fun expectedFlags setFlags => Z.land expectedFlags setFlags)
            expectedSupersets first.

Definition checkUsageFlags : bool :=
  let formatProperties :=
    getPhysicalDeviceFormatProperties (m_context self) (format (m_caseDef self)) in
  let physicalDeviceProperties := fst (getPhysicalDeviceProperties2 (m_context self)) in
  let physicalDeviceProperties12 := snd (getPhysicalDeviceProperties2 (m_context self)) in
  let query :=
    getPhysicalDeviceImageFormatProperties (m_context self)
      (format (m_caseDef self)) (imageType (m_caseDef self))
      (imageTiling (m_caseDef self)) (usageFlags (m_caseDef self)) 0 in
  let imageFormatResult := fst query in
  let imageFormatProperties := snd query in
  if negb (imageFormatResult =? VK_SUCCESS) then false
  else if negb (nonzero (Z.land (optimalTilingFeatures formatProperties)
                  (Z.lor VK_FORMAT_FEATURE_COLOR_ATTACHMENT_BIT
                         VK_FORMAT_FEATURE_DEPTH_STENCIL_ATTACHMENT_BIT)))
  then sampleCounts imageFormatProperties =? VK_SAMPLE_COUNT_1_BIT
  else
    let expectedSupersets :=
      expectedSupersets physicalDeviceProperties physicalDeviceProperties12 in
    match expectedSupersets with
    | [] => isSuperset (sampleCounts imageFormatProperties) VK_SAMPLE_COUNT_1_BIT
    | first :: _ =>
        let expectedFlags := intersectAll expectedSupersets first in
        isSuperset (sampleCounts imageFormatProperties) expectedFlags
    end.

Definition checkYCBCRConversion : bool :=
  let query :=
    getPhysicalDeviceImageFormatProperties (m_context self)
      (format (m_caseDef self)) (imageType (m_caseDef self))
      (imageTiling (m_caseDef self)) 0 0 in
  if negb (fst query =? VK_SUCCESS)
     || negb (sampleCounts (snd query) =? VK_SAMPLE_COUNT_1_BIT)
  then false else true.

Definition checkLinearTilingAndNot2DImageType : bool :=
  let query :=
    getPhysicalDeviceImageFormatProperties (m_context self)
      (format (m_caseDef self)) (imageType (m_caseDef self))
      (imageTiling (m_caseDef self)) 0 0 in
  if negb (fst query =? VK_SUCCESS) then false
  else if (sampleCounts (snd query) =? VK_SAMPLE_COUNT_1_BIT)
          && (VkImageTiling_eqb (imageTiling (m_caseDef self)) VK_IMAGE_TILING_LINEAR
              || negb (VkImageType_eqb (imageType (m_caseDef self)) VK_IMAGE_TYPE_2D))
  then true else false.

Definition checkCubeCompatible : bool :=
  let query :=
    getPhysicalDeviceImageFormatProperties (m_context self)
      (format (m_caseDef self)) (imageType (m_caseDef self))
      (imageTiling (m_caseDef self)) 0 VK_IMAGE_CREATE_CUBE_COMPATIBLE_BIT in
  if negb (fst query =? VK_SUCCESS)
     || negb (sampleCounts (snd query) =? VK_SAMPLE_COUNT_1_BIT)
  then false else true.

Definition checkOptimalTilingFeatures : bool :=
  let formatProperties :=
    getPhysicalDeviceFormatProperties (m_context self) (format (m_caseDef self)) in
  let query :=
    getPhysicalDeviceImageFormatProperties (m_context self)
      (format (m_caseDef self)) (imageType (m_caseDef self))
      (imageTiling (m_caseDef self)) 0 0 in
  if negb (fst query =? VK_SUCCESS) then false
  else if negb (nonzero (Z.land (optimalTilingFeatures formatProperties)
                                VK_FORMAT_FEATURE_COLOR_ATTACHMENT_BIT))
          && negb (nonzero (Z.land (optimalTilingFeatures formatProperties)
                                   VK_FORMAT_FEATURE_DEPTH_STENCIL_ATTACHMENT_BIT))
          && negb (sampleCounts (snd query) =? VK_SAMPLE_COUNT_1_BIT)
  then false else true.

Definition checkOneSampleCountPresent : bool :=
  let query :=
    getPhysicalDeviceImageFormatProperties (m_context self)
      (format (m_caseDef self)) (imageType (m_caseDef self))
      (imageTiling (m_caseDef self)) 0 0 in
  if negb (fst query =? VK_SUCCESS) then false
  else if negb (nonzero (Z.land (sampleCounts (snd query)) VK_SAMPLE_COUNT_1_BIT))
  then false else true.

Definition iterate : TestStatus :=
  let success :=
    match m_subtest self with
    | LINEAR_TILING_AND_NOT_2D_IMAGE_TYPE => checkLinearTilingAndNot2DImageType
    | CUBE_COMPATIBLE_SUBTEST => checkCubeCompatible
    | OPTIMAL_TILING_FEATURES_SUBTEST => checkOptimalTilingFeatures
    | YCBCR_CONVERSION_SUBTEST => checkYCBCRConversion
    | USAGE_FLAGS_SUBTEST => checkUsageFlags
    | ONE_SAMPLE_COUNT_PRESENT_SUBTEST => checkOneSampleCountPresent
    end in
  if success then pass "OK" else fail "FAILED".

(** The expected sample-count set that [checkUsageFlags] compares the
    reported set with, once the attachment-feature gate has let it through:
    [{1}] for an empty vector, the running intersection otherwise. *)
Definition expectedFlags
    (physicalDeviceProperties : VkPhysicalDeviceProperties2)
    (physicalDeviceProperties12 : VkPhysicalDeviceVulkan12Properties)
    : VkSampleCountFlags :=
  match expectedSupersets physicalDeviceProperties physicalDeviceProperties12 with
  | [] => VK_SAMPLE_COUNT_1_BIT
  | first :: rest => intersectAll (first :: rest) first
  end.

End Methods.

End SampleCountTestInstance.

(** ** Test case and support probe *)

(** What a call can raise: [TCU_THROW(NotSupportedError, ...)]. *)
Inductive Exception := NotSupportedError (message : string).

Inductive Except (A : Type) :=
  | Return (a : A)
  | Throw (e : Exception).
Arguments Return {A} a.
Arguments Throw {A} e.

Module SampleCountTest.

Record t := {
  name : string;
  description : string;
  m_caseDef : CaseDef;
  m_subtest : SampleCountsSubtests
}.

Definition checkSupport (self : t) (ctx : Context) : Except unit :=
  let query :=
    getPhysicalDeviceImageFormatProperties ctx
      (format (m_caseDef self)) (imageType (m_caseDef self))
      (imageTiling (m_caseDef self)) (usageFlags (m_caseDef self)) 0 in
  let imageFormatResult := fst query in
  if imageFormatResult =? VK_ERROR_FORMAT_NOT_SUPPORTED
  then Throw (NotSupportedError "Format is not supported")
  else Return tt.

Definition createInstance (self : t) (context : Context) : SampleCountTestInstance.t :=
  {| SampleCountTestInstance.m_context := context;
     SampleCountTestInstance.m_caseDef := m_caseDef self;
     SampleCountTestInstance.m_subtest := m_subtest self |}.

End SampleCountTest.

(** Outcome of one case as the runner reports it. *)
Inductive CaseOutcome := Skip | Pass | Fail.

(** Modelled from the spec: the case runner is an external collaborator that
    is not among the sources.  It probes support first; a case whose probe
    raises the not-supported error is not applicable, and only otherwise is an
    instance created and its check evaluated, once. *)
Definition runCase {U : FormatUtil} (ctx : Context) (test : SampleCountTest.t)
    : CaseOutcome :=
  match SampleCountTest.checkSupport test ctx with
  | Throw (NotSupportedError _) => Skip
  | Return _ =>
      match SampleCountTestInstance.iterate (SampleCountTest.createInstance test ctx) with
      | pass _ => Pass
      | fail _ => Fail
      end
  end.

(** ** Case enumerator *)

(** [tcu::TestNode]: a group with its children, or one of our test cases. *)
#[local] Set Warnings "-register-all".
Inductive TestNode :=
  | TestCaseGroup (name description : string) (children : list TestNode)
  | TestCase (test : SampleCountTest.t).

Definition newSampleCountTest (name description : string) (caseDef : CaseDef)
    (subtest : SampleCountsSubtests) : TestNode :=
  TestCase {| SampleCountTest.name := name;
              SampleCountTest.description := description;
              SampleCountTest.m_caseDef := caseDef;
              SampleCountTest.m_subtest := subtest |}.

(** [group->addChild(node)] on the child vector of a group under
    construction. *)
Definition addChild (children : list TestNode) (node : TestNode) : list TestNode :=
  children ++ [node].

(** Counting loop [for (unsigned i = 0; i < n; i++)]. *)
Definition upto (n : nat) : list Z := map Z.of_nat (seq 0 n).

Definition usageFlagsArray : list VkImageUsageFlags :=
  [ VK_IMAGE_USAGE_COLOR_ATTACHMENT_BIT;
    VK_IMAGE_USAGE_DEPTH_STENCIL_ATTACHMENT_BIT;
    VK_IMAGE_USAGE_SAMPLED_BIT;
    VK_IMAGE_USAGE_STORAGE_BIT ].

(** Inner loop of [addUsageFlagsSubtests]: the usage word of a combination. *)
Definition usageOfCombination (flagsCombination : Z) : VkImageUsageFlags :=
  fold_left
    (fun usage flagIdx =>
       if nonzero (Z.land (Z.shiftr flagsCombination flagIdx) 1)
       then Z.lor usage (nth (Z.to_nat flagIdx) usageFlagsArray 0)
       else usage)
    (upto (List.length usageFlagsArray)) 0.

Definition usageCaseName (samplesCaseName : string) (usage : VkImageUsageFlags)
    : string :=
  let caseName := (samplesCaseName ++ "_USAGE_FLAGS")%string in
  let caseName :=
    if nonzero (Z.land usage VK_IMAGE_USAGE_COLOR_ATTACHMENT_BIT)
    then (caseName ++ "_COLOR")%string else caseName in
  let caseName :=
    if nonzero (Z.land usage VK_IMAGE_USAGE_DEPTH_STENCIL_ATTACHMENT_BIT)
    then (caseName ++ "_DEPTH")%string else caseName in
  let caseName :=
    if nonzero (Z.land usage VK_IMAGE_USAGE_SAMPLED_BIT)
    then (caseName ++ "_SAMPLED")%string else caseName in
  let caseName :=
    if nonzero (Z.land usage VK_IMAGE_USAGE_STORAGE_BIT)
    then (caseName ++ "_STORAGE")%string else caseName in
  caseName.

Definition addUsageFlagsSubtests (samplesCaseName : string) (caseDef : CaseDef)
    (group : list TestNode) : list TestNode :=
  fold_left
    (fun group flagsCombination =>
       let usage := usageOfCombination flagsCombination in
       let caseName := usageCaseName samplesCaseName usage in
       let newCaseDef :=
         {| format := format caseDef; imageType := imageType caseDef;
            imageTiling := imageTiling caseDef; usageFlags := usage |} in
       addChild group (newSampleCountTest caseName "" newCaseDef USAGE_FLAGS_SUBTEST))
    (upto (Z.to_nat (Z.shiftl 1 (Z.of_nat (List.length usageFlagsArray)))))
    group.

Definition allFormatsRanges : list (VkFormat * VkFormat) :=
  [ (VK_FORMAT_R4G4_UNORM_PACK8, VK_FORMAT_ASTC_12x12_SRGB_BLOCK);
    (VK_FORMAT_G8B8G8R8_422_UNORM, VK_FORMAT_G16_B16_R16_3PLANE_444_UNORM);
    (VK_FORMAT_G8_B8R8_2PLANE_444_UNORM, VK_FORMAT_G16_B16R16_2PLANE_444_UNORM);
    (VK_FORMAT_A4R4G4B4_UNORM_PACK16, VK_FORMAT_A4B4G4R4_UNORM_PACK16);
    (VK_FORMAT_ASTC_4x4_SFLOAT_BLOCK, VK_FORMAT_ASTC_12x12_SFLOAT_BLOCK);
    (VK_FORMAT_PVRTC1_2BPP_UNORM_BLOCK_IMG, VK_FORMAT_PVRTC2_4BPP_SRGB_BLOCK_IMG) ].

(** [for (format = first; format <= second; format = format + 1)
    formats.push_back(format)], with the number of remaining iterations as
    fuel. *)
Fixpoint pushRange (fuel : nat) (format second : VkFormat) (formats : list VkFormat)
    : list VkFormat :=
  match fuel with
  | O => formats
  | S fuel' =>
      if format <=? second
      then pushRange fuel' (format + 1) second (formats ++ [format])
      else formats
  end.

Definition enumerateAllFormatsToTest : list VkFormat :=
  fold_left
    (fun formats range =>
       pushRange (Z.to_nat (snd range - fst range + 1)) (fst range) (snd range) formats)
    allFormatsRanges [].

Definition imageTilings : list VkImageTiling :=
  [ VK_IMAGE_TILING_OPTIMAL; VK_IMAGE_TILING_LINEAR ].

Definition imageTypes : list ImageType :=
  [ IMAGE_TYPE_1D; IMAGE_TYPE_2D; IMAGE_TYPE_3D ].

(** The condition [caseDef.imageType == VK_IMAGE_TYPE_2D &&
    caseDef.imageTiling == VK_IMAGE_TILING_OPTIMAL] of the enumerator. *)
Definition is2DOptimal (caseDef : CaseDef) : bool :=
  VkImageType_eqb (imageType caseDef) VK_IMAGE_TYPE_2D
  && VkImageTiling_eqb (imageTiling caseDef) VK_IMAGE_TILING_OPTIMAL.

Section Enumerator.

Context {U : FormatUtil}.

(** Body of the format loop of [createImageSampleCountsTests], on the child
    vector of the tiling group. *)
Definition addFormatCases (imageType : ImageType) (imageTiling : VkImageTiling)
    (tilingGroup : list TestNode) (imageFormat : VkFormat) : list TestNode :=
  let formatStr := getFormatShortString imageFormat in
  let caseDef :=
    {| format := imageFormat; imageType := mapImageType imageType;
       imageTiling := imageTiling; usageFlags := 0 |} in
  if is2DOptimal caseDef
  then
    let g :=
      addChild tilingGroup
        (newSampleCountTest (formatStr ++ "_CUBE_COMPATIBLE_SUBTEST") "" caseDef
           CUBE_COMPATIBLE_SUBTEST) in
    let g :=
      addChild g
        (newSampleCountTest (formatStr ++ "_OPTIMAL_TILING_FEATURES_SUBTEST") ""
           caseDef OPTIMAL_TILING_FEATURES_SUBTEST) in
    let g :=
      if isYCbCrFormat (format caseDef)
      then addChild g
             (newSampleCountTest (formatStr ++ "_YCBCR_CONVERSION_SUBTEST") ""
                caseDef YCBCR_CONVERSION_SUBTEST)
      else g in
    let g := addUsageFlagsSubtests formatStr caseDef g in
    addChild g
      (newSampleCountTest (formatStr ++ "_ONE_SAMPLE_COUNT_PRESENT_SUBTEST") ""
         caseDef ONE_SAMPLE_COUNT_PRESENT_SUBTEST)
  else
    addChild tilingGroup
      (newSampleCountTest
         (formatStr ++ "_LINEAR_TILING_AND_NOT_2D_IMAGE_TYPE_SUBTEST") "" caseDef
         LINEAR_TILING_AND_NOT_2D_IMAGE_TYPE).

Definition createTilingGroup (imageType : ImageType) (imageTiling : VkImageTiling)
    : TestNode :=
  let tilingGroupName := getImageTilingName imageTiling in
  TestCaseGroup tilingGroupName ""
    (fold_left (addFormatCases imageType imageTiling) enumerateAllFormatsToTest []).

Definition createImageViewGroup (imageType : ImageType) : TestNode :=
  let typeGroupName := getImageTypeName imageType in
  TestCaseGroup typeGroupName ""
    (fold_left
       (fun imageViewGroup imageTiling =>
          addChild imageViewGroup (createTilingGroup imageType imageTiling))
       imageTilings []).

Definition createImageSampleCountsTests : TestNode :=
  TestCaseGroup "sample_counts" "Image sample counts"
    (fold_left
       (fun testGroup imageType => addChild testGroup (createImageViewGroup imageType))
       imageTypes []).

End Enumerator.

(** Every test case of a tree with its path: the names of the groups above it
    and its own name last. *)
Fixpoint testPaths (node : TestNode) : list (list string * SampleCountTest.t) :=
  match node with
  | TestCase test => [([SampleCountTest.name test], test)]
  | TestCaseGroup name _ children =>
      map (fun pt => (name :: fst pt, snd pt)) (flat_map testPaths children)
  end.

(** The test cases of a tree, in order. *)
Definition testCases (node : TestNode) : list SampleCountTest.t :=
  map snd (testPaths node).

(** ** The combinator in the words of the design document *)

Section Combine.

Context {U : FormatUtil}.
Variable self : SampleCountTestInstance.t.
Variable physicalDeviceProperties : VkPhysicalDeviceProperties2.
Variable physicalDeviceProperties12 : VkPhysicalDeviceVulkan12Properties.

(** The four usage bits, each with its per-usage derivation, in the order
    COLOR_ATTACHMENT, DEPTH_STENCIL_ATTACHMENT, SAMPLED, STORAGE. *)
Definition perBitResults : list (VkImageUsageFlags * VkSampleCountFlags) :=
  [ (VK_IMAGE_USAGE_COLOR_ATTACHMENT_BIT,
     SampleCountTestInstance.getColorSampleCounts self
       physicalDeviceProperties physicalDeviceProperties12);
    (VK_IMAGE_USAGE_DEPTH_STENCIL_ATTACHMENT_BIT,
     SampleCountTestInstance.getDepthStencilSampleCounts self physicalDeviceProperties);
    (VK_IMAGE_USAGE_SAMPLED_BIT,
     SampleCountTestInstance.getSampledSampleCounts self physicalDeviceProperties);
    (VK_IMAGE_USAGE_STORAGE_BIT,
     SampleCountTestInstance.getStorageSampleCounts physicalDeviceProperties) ].

(** The results of the usage bits that are set in the case's usage flags. *)
Definition contributing : list VkSampleCountFlags :=
  map snd
    (filter
       (fun bitResult =>
          nonzero (Z.land (usageFlags (SampleCountTestInstance.m_caseDef self))
                          (fst bitResult)))
       perBitResults).

End Combine.

(** Bitwise AND across all the masks of a list (all ones for none). *)
Definition andAll (masks : list VkSampleCountFlags) : VkSampleCountFlags :=
  fold_right Z.land (-1) masks.

(** [combine]: [{1}] when no bit contributes, the result itself when exactly
    one does, the bitwise AND of all of them when several do. *)
Definition combine (results : list VkSampleCountFlags) : VkSampleCountFlags :=
  match results with
  | [] => VK_SAMPLE_COUNT_1_BIT
  | [result] => result
  | _ => andAll results
  end.

(** ** What a USAGE_FLAGS check reads from the capability snapshot *)

Section Snapshot.

Variable self : SampleCountTestInstance.t.

Definition deviceProperties : VkPhysicalDeviceProperties2 :=
  fst (getPhysicalDeviceProperties2 (SampleCountTestInstance.m_context self)).

Definition deviceProperties12 : VkPhysicalDeviceVulkan12Properties :=
  snd (getPhysicalDeviceProperties2 (SampleCountTestInstance.m_context self)).

(** The image-format query of [checkUsageFlags] and of [checkSupport]: the
    case's own usage flags, no create flags. *)
Definition usageQuery : VkResult * VkImageFormatProperties :=
  getPhysicalDeviceImageFormatProperties (SampleCountTestInstance.m_context self)
    (format (SampleCountTestInstance.m_caseDef self))
    (imageType (SampleCountTestInstance.m_caseDef self))
    (imageTiling (SampleCountTestInstance.m_caseDef self))
    (usageFlags (SampleCountTestInstance.m_caseDef self)) 0.

(** The device-reported sample-count set of that query. *)
Definition reportedSampleCounts : VkSampleCountFlags := sampleCounts (snd usageQuery).

(** The optimal-tiling features of the case's format hold the
    colour-attachment or the depth/stencil-attachment bit. *)
Definition hasAttachmentFeature : bool :=
  nonzero
    (Z.land
       (optimalTilingFeatures
          (getPhysicalDeviceFormatProperties (SampleCountTestInstance.m_context self)
             (format (SampleCountTestInstance.m_caseDef self))))
       (Z.lor VK_FORMAT_FEATURE_COLOR_ATTACHMENT_BIT
              VK_FORMAT_FEATURE_DEPTH_STENCIL_ATTACHMENT_BIT)).

(** The case's usage flags hold the given usage bit. *)
Definition usageHas (bit : VkImageUsageFlags) : bool :=
  nonzero (Z.land (usageFlags (SampleCountTestInstance.m_caseDef self)) bit).

End Snapshot.

(** A case description with other usage flags. *)
Definition withUsage (self : SampleCountTestInstance.t) (usage : VkImageUsageFlags)
    : SampleCountTestInstance.t :=
  {| SampleCountTestInstance.m_context := SampleCountTestInstance.m_context self;
     SampleCountTestInstance.m_caseDef :=
       {| format := format (SampleCountTestInstance.m_caseDef self);
          imageType := imageType (SampleCountTestInstance.m_caseDef self);
          imageTiling := imageTiling (SampleCountTestInstance.m_caseDef self);
          usageFlags := usage |};
     SampleCountTestInstance.m_subtest := SampleCountTestInstance.m_subtest self |}.

(** ** Concrete inputs *)

Module Sample.

(** A format utility for concrete runs.  Its classification gives a handful
    of formats the rows they have in the framework (an unsigned-integer colour
    format, an unsigned-normalized colour format, the depth, stencil and
    combined depth/stencil formats, a block-compressed and a chroma-subsampled
    format) and treats the rest as plain unsigned-normalized colour; formats
    are named by their number. *)
Definition classOf (f : VkFormat) : TextureFormat.ChannelOrder :=
  if f =? VK_FORMAT_R8_UINT then TextureFormat.R
  else if f =? VK_FORMAT_D16_UNORM then TextureFormat.D
  else if f =? VK_FORMAT_S8_UINT then TextureFormat.S
  else if f =? VK_FORMAT_D24_UNORM_S8_UINT then TextureFormat.DS
  else TextureFormat.RGBA.

Definition decimal (z : Z) : string :=
  DecimalString.NilZero.string_of_int (Z.to_int z).

#[local] Instance util : FormatUtil := {|
  isCompressedFormat f := f =? VK_FORMAT_BC1_RGB_UNORM_BLOCK;
  isYCbCrFormat f := f =? VK_FORMAT_G8B8G8R8_422_UNORM;
  isFloatFormat f := false;
  isSnormFormat f := false;
  isUnormFormat f :=
    negb ((f =? VK_FORMAT_R8_UINT) || (f =? VK_FORMAT_S8_UINT)
          || (f =? VK_FORMAT_D24_UNORM_S8_UINT) || (f =? VK_FORMAT_BC1_RGB_UNORM_BLOCK));
  isIntFormat f := false;
  isUintFormat f := (f =? VK_FORMAT_R8_UINT) || (f =? VK_FORMAT_S8_UINT);
  mapVkFormat f := {| TextureFormat.order := classOf f |};
  getFormatShortString f := ("format_" ++ decimal f)%string;
  getImageTypeName ty :=
    match ty with
    | IMAGE_TYPE_1D => "1d" | IMAGE_TYPE_2D => "2d" | IMAGE_TYPE_3D => "3d"
    end;
  getImageTilingName tl :=
    match tl with
    | VK_IMAGE_TILING_OPTIMAL => "optimal" | VK_IMAGE_TILING_LINEAR => "linear"
    end
|}.

(** Device limits in which every field has a value of its own. *)
Definition deviceLimits : VkPhysicalDeviceLimits := {|
  framebufferColorSampleCounts := 15;
  framebufferDepthSampleCounts := 7;
  framebufferStencilSampleCounts := 3;
  sampledImageColorSampleCounts := 7;
  sampledImageIntegerSampleCounts := 1;
  sampledImageDepthSampleCounts := 5;
  storageImageSampleCounts := 1
|}.

Definition properties2 : VkPhysicalDeviceProperties2 :=
  {| properties := {| limits := deviceLimits |} |}.

Definition properties12 : VkPhysicalDeviceVulkan12Properties :=
  {| framebufferIntegerColorSampleCounts := 3 |}.

(** A device that supports every configuration, reports [reported] as the
    sample counts of each and [features] as the optimal-tiling features of
    each format. *)
Definition device (features : VkFormatFeatureFlags) (reported : VkSampleCountFlags)
    : Context := {|
  getPhysicalDeviceFormatProperties _ := {| optimalTilingFeatures := features |};
  getPhysicalDeviceProperties2 := (properties2, properties12);
  getPhysicalDeviceImageFormatProperties _ _ _ _ _ :=
    (VK_SUCCESS, {| sampleCounts := reported |})
|}.

(** A device that supports every configuration except cube-compatible
    images, for which the query answers that the format is not supported. *)
Definition deviceWithoutCube : Context := {|
  getPhysicalDeviceFormatProperties _ :=
    {| optimalTilingFeatures := VK_FORMAT_FEATURE_COLOR_ATTACHMENT_BIT |};
  getPhysicalDeviceProperties2 := (properties2, properties12);
  getPhysicalDeviceImageFormatProperties _ _ _ _ createFlags :=
    if nonzero (Z.land createFlags VK_IMAGE_CREATE_CUBE_COMPATIBLE_BIT)
    then (VK_ERROR_FORMAT_NOT_SUPPORTED, {| sampleCounts := 0 |})
    else (VK_SUCCESS, {| sampleCounts := 1 |})
|}.

Definition instance (ctx : Context) (f : VkFormat) (usage : VkImageUsageFlags)
    : SampleCountTestInstance.t :=
  {| SampleCountTestInstance.m_context := ctx;
     SampleCountTestInstance.m_caseDef :=
       {| format := f; imageType := VK_IMAGE_TYPE_2D;
          imageTiling := VK_IMAGE_TILING_OPTIMAL; usageFlags := usage |};
     SampleCountTestInstance.m_subtest := USAGE_FLAGS_SUBTEST |}.

(** The cube-compatible case the enumerator builds for a format. *)
Definition cubeCase (f : VkFormat) : SampleCountTest.t :=
  {| SampleCountTest.name := (getFormatShortString f ++ "_CUBE_COMPATIBLE_SUBTEST")%string;
     SampleCountTest.description := "";
     SampleCountTest.m_caseDef :=
       {| format := f; imageType := VK_IMAGE_TYPE_2D;
          imageTiling := VK_IMAGE_TILING_OPTIMAL; usageFlags := 0 |};
     SampleCountTest.m_subtest := CUBE_COMPATIBLE_SUBTEST |}.

End Sample.

(** ** The query each variant issues *)

(** The usage flags and create flags of the image-format query of each check
    variant: the USAGE_FLAGS check asks with the case's usage flags, the
    cube-compatible check with the cube-compatible create flag, the others
    with neither. *)
Definition subtestQuery (ctx : Context) (caseDef : CaseDef)
    (subtest : SampleCountsSubtests) : VkResult * VkImageFormatProperties :=
  match subtest with
  | USAGE_FLAGS_SUBTEST =>
      getPhysicalDeviceImageFormatProperties ctx (format caseDef) (imageType caseDef)
        (imageTiling caseDef) (usageFlags caseDef) 0
  | CUBE_COMPATIBLE_SUBTEST =>
      getPhysicalDeviceImageFormatProperties ctx (format caseDef) (imageType caseDef)
        (imageTiling caseDef) 0 VK_IMAGE_CREATE_CUBE_COMPATIBLE_BIT
  | _ =>
      getPhysicalDeviceImageFormatProperties ctx (format caseDef) (imageType caseDef)
        (imageTiling caseDef) 0 0
  end.

(** The query of the support probe. *)
Definition probeQuery (ctx : Context) (caseDef : CaseDef)
    : VkResult * VkImageFormatProperties :=
  getPhysicalDeviceImageFormatProperties ctx (format caseDef) (imageType caseDef)
    (imageTiling caseDef) (usageFlags caseDef) 0.

(** ** The enumerated cases in the words of the design document *)

(** A subset of the four usage bits. *)
Record UsageSubset := {
  withColor : bool;
  withDepth : bool;
  withSampled : bool;
  withStorage : bool
}.

Definition booleans : list bool := [false; true].

(** The powerset of the four usage bits. *)
Definition allSubsets : list UsageSubset :=
  flat_map (fun st =>
    flat_map (fun sa =>
      flat_map (fun d =>
        map (fun c =>
               {| withColor := c; withDepth := d; withSampled := sa; withStorage := st |})
            booleans)
        booleans)
      booleans)
    booleans.

Definition usageOfSubset (b : UsageSubset) : VkImageUsageFlags :=
  Z.lor (if withColor b then VK_IMAGE_USAGE_COLOR_ATTACHMENT_BIT else 0)
    (Z.lor (if withDepth b then VK_IMAGE_USAGE_DEPTH_STENCIL_ATTACHMENT_BIT else 0)
       (Z.lor (if withSampled b then VK_IMAGE_USAGE_SAMPLED_BIT else 0)
              (if withStorage b then VK_IMAGE_USAGE_STORAGE_BIT else 0))).

(** The mnemonics of the active flags in the fixed order COLOR, DEPTH,
    SAMPLED, STORAGE. *)
Definition mnemonics (b : UsageSubset) : string :=
  ((if withColor b then "_COLOR" else "")
   ++ (if withDepth b then "_DEPTH" else "")
   ++ (if withSampled b then "_SAMPLED" else "")
   ++ (if withStorage b then "_STORAGE" else ""))%string.

Definition sampleCountTest (name : string) (caseDef : CaseDef)
    (subtest : SampleCountsSubtests) : SampleCountTest.t :=
  {| SampleCountTest.name := name;
     SampleCountTest.description := "";
     SampleCountTest.m_caseDef := caseDef;
     SampleCountTest.m_subtest := subtest |}.

(** The variant tags with the usage flags and the variant they stand for. *)
Definition variantTags : list (string * (VkImageUsageFlags * SampleCountsSubtests)) :=
  [ ("_CUBE_COMPATIBLE_SUBTEST", (0, CUBE_COMPATIBLE_SUBTEST));
    ("_OPTIMAL_TILING_FEATURES_SUBTEST", (0, OPTIMAL_TILING_FEATURES_SUBTEST));
    ("_YCBCR_CONVERSION_SUBTEST", (0, YCBCR_CONVERSION_SUBTEST));
    ("_ONE_SAMPLE_COUNT_PRESENT_SUBTEST", (0, ONE_SAMPLE_COUNT_PRESENT_SUBTEST));
    ("_LINEAR_TILING_AND_NOT_2D_IMAGE_TYPE_SUBTEST",
     (0, LINEAR_TILING_AND_NOT_2D_IMAGE_TYPE)) ]
  ++ map (fun b => (("_USAGE_FLAGS" ++ mnemonics b)%string,
                    (usageOfSubset b, USAGE_FLAGS_SUBTEST)))
         allSubsets.

Section EnumeratedCases.

Context {U : FormatUtil}.

Definition caseDefOf (ty : ImageType) (tl : VkImageTiling) (f : VkFormat)
    (usage : VkImageUsageFlags) : CaseDef :=
  {| format := f; imageType := mapImageType ty; imageTiling := tl;
     usageFlags := usage |}.

(** The cases of a 2D, optimally tiled triple: CUBE_COMPATIBLE,
    OPTIMAL_TILING_FEATURES, YCBCR_CONVERSION for a chroma-subsampled format
    only, one USAGE_FLAGS case per subset of the usage bits, and
    ONE_SAMPLE_COUNT_PRESENT. *)
Definition optimal2DCases (ty : ImageType) (tl : VkImageTiling) (f : VkFormat)
    : list SampleCountTest.t :=
  [ sampleCountTest (getFormatShortString f ++ "_CUBE_COMPATIBLE_SUBTEST")
      (caseDefOf ty tl f 0) CUBE_COMPATIBLE_SUBTEST;
    sampleCountTest (getFormatShortString f ++ "_OPTIMAL_TILING_FEATURES_SUBTEST")
      (caseDefOf ty tl f 0) OPTIMAL_TILING_FEATURES_SUBTEST ]
  ++ (if isYCbCrFormat f
      then [ sampleCountTest (getFormatShortString f ++ "_YCBCR_CONVERSION_SUBTEST")
               (caseDefOf ty tl f 0) YCBCR_CONVERSION_SUBTEST ]
      else [])
  ++ map (fun b =>
            sampleCountTest
              (getFormatShortString f ++ "_USAGE_FLAGS" ++ mnemonics b)
              (caseDefOf ty tl f (usageOfSubset b)) USAGE_FLAGS_SUBTEST)
         allSubsets
  ++ [ sampleCountTest (getFormatShortString f ++ "_ONE_SAMPLE_COUNT_PRESENT_SUBTEST")
         (caseDefOf ty tl f 0) ONE_SAMPLE_COUNT_PRESENT_SUBTEST ].

(** The single case of every other triple. *)
Definition linearOrNon2DCases (ty : ImageType) (tl : VkImageTiling) (f : VkFormat)
    : list SampleCountTest.t :=
  [ sampleCountTest
      (getFormatShortString f ++ "_LINEAR_TILING_AND_NOT_2D_IMAGE_TYPE_SUBTEST")
      (caseDefOf ty tl f 0) LINEAR_TILING_AND_NOT_2D_IMAGE_TYPE ].

(** The test cases the enumerator adds for one triple of the grid. *)
Definition emittedCases (ty : ImageType) (tl : VkImageTiling) (f : VkFormat)
    : list SampleCountTest.t :=
  flat_map testCases (addFormatCases ty tl [] f).

(** The path of a case of the grid: root group, image-type group, tiling
    group, case name. *)
Definition casePath (ty : ImageType) (tl : VkImageTiling) (test : SampleCountTest.t)
    : list string :=
  [ "sample_counts"; getImageTypeName ty; getImageTilingName tl;
    SampleCountTest.name test ].

End EnumeratedCases.

(** ** Decision procedures on names *)

Definition SampleCountsSubtests_eqb (a b : SampleCountsSubtests) : bool :=
  match a, b with
  | LINEAR_TILING_AND_NOT_2D_IMAGE_TYPE, LINEAR_TILING_AND_NOT_2D_IMAGE_TYPE
  | CUBE_COMPATIBLE_SUBTEST, CUBE_COMPATIBLE_SUBTEST
  | OPTIMAL_TILING_FEATURES_SUBTEST, OPTIMAL_TILING_FEATURES_SUBTEST
  | YCBCR_CONVERSION_SUBTEST, YCBCR_CONVERSION_SUBTEST
  | USAGE_FLAGS_SUBTEST, USAGE_FLAGS_SUBTEST
  | ONE_SAMPLE_COUNT_PRESENT_SUBTEST, ONE_SAMPLE_COUNT_PRESENT_SUBTEST => true
  | _, _ => false
  end.

Fixpoint prefixb (x y : list ascii) : bool :=
  match x, y with
  | [], _ => true
  | a :: x', b :: y' => Ascii.eqb a b && prefixb x' y'
  | _ :: _, [] => false
  end.

(** [isSuffixOf t s]: the string [s] ends with [t]. *)
Definition isSuffixOf (t s : string) : bool :=
  prefixb (rev (list_ascii_of_string t)) (rev (list_ascii_of_string s)).

Definition tag_eqb (a b : string * (VkImageUsageFlags * SampleCountsSubtests)) : bool :=
  String.eqb (fst a) (fst b) && (fst (snd a) =? fst (snd b))
  && SampleCountsSubtests_eqb (snd (snd a)) (snd (snd b)).

(** No tag of the table ends with another entry's tag. *)
Definition suffixFree (tags : list (string * (VkImageUsageFlags * SampleCountsSubtests)))
    : bool :=
  forallb (fun a => forallb (fun b => implb (isSuffixOf (fst a) (fst b)) (tag_eqb a b)) tags)
          tags.

Fixpoint distinctNames (names : list string) : bool :=
  match names with
  | [] => true
  | n :: rest => negb (existsb (String.eqb n) rest) && distinctNames rest
  end.

(** How many cases of a list run the given variant. *)
Definition countSubtest (subtest : SampleCountsSubtests)
    (cases : list SampleCountTest.t) : nat :=
  List.length
    (filter (fun t => SampleCountsSubtests_eqb (SampleCountTest.m_subtest t) subtest)
            cases).

(** The image-format query that the checks other than USAGE_FLAGS and
    CUBE_COMPATIBLE issue: no usage flags, no create flags. *)
Definition plainQuery (self : SampleCountTestInstance.t)
    : VkResult * VkImageFormatProperties :=
  getPhysicalDeviceImageFormatProperties (SampleCountTestInstance.m_context self)
    (format (SampleCountTestInstance.m_caseDef self))
    (imageType (SampleCountTestInstance.m_caseDef self))
    (imageTiling (SampleCountTestInstance.m_caseDef self)) 0 0.

(** The four usage bits together. *)
Definition usageMask : VkImageUsageFlags :=
  Z.lor VK_IMAGE_USAGE_COLOR_ATTACHMENT_BIT
    (Z.lor VK_IMAGE_USAGE_DEPTH_STENCIL_ATTACHMENT_BIT
       (Z.lor VK_IMAGE_USAGE_SAMPLED_BIT VK_IMAGE_USAGE_STORAGE_BIT)).

(** The usage subset a usage word selects. *)
Definition subsetOfUsage (usage : VkImageUsageFlags) : UsageSubset :=
  {| withColor := nonzero (Z.land usage VK_IMAGE_USAGE_COLOR_ATTACHMENT_BIT);
     withDepth := nonzero (Z.land usage VK_IMAGE_USAGE_DEPTH_STENCIL_ATTACHMENT_BIT);
     withSampled := nonzero (Z.land usage VK_IMAGE_USAGE_SAMPLED_BIT);
     withStorage := nonzero (Z.land usage VK_IMAGE_USAGE_STORAGE_BIT) |}.

(** The case the enumerator builds for the first format of the universe in
    the 3D group's linear-tiling group, with the sample format utility. *)
Definition sampleLinearCase : SampleCountTest.t :=
  sampleCountTest
    (getFormatShortString (FormatUtil := Sample.util) VK_FORMAT_R4G4_UNORM_PACK8
     ++ "_LINEAR_TILING_AND_NOT_2D_IMAGE_TYPE_SUBTEST")
    {| format := VK_FORMAT_R4G4_UNORM_PACK8; imageType := VK_IMAGE_TYPE_3D;
       imageTiling := VK_IMAGE_TILING_LINEAR; usageFlags := 0 |}
    LINEAR_TILING_AND_NOT_2D_IMAGE_TYPE.

(** The variant tags of the cases of one triple, in the order the enumerator
    emits them: those of a 2D, optimally tiled triple (with the YCbCr tag for
    a chroma-subsampled format), or the single tag of any other triple. *)
Definition tagsOf (optimal2D ycbcr : bool) : list string :=
  if optimal2D
  then [ "_CUBE_COMPATIBLE_SUBTEST"; "_OPTIMAL_TILING_FEATURES_SUBTEST" ]
       ++ (if ycbcr then [ "_YCBCR_CONVERSION_SUBTEST" ] else [])
       ++ map (fun b => ("_USAGE_FLAGS" ++ mnemonics b)%string) allSubsets
       ++ [ "_ONE_SAMPLE_COUNT_PRESENT_SUBTEST" ]
  else [ "_LINEAR_TILING_AND_NOT_2D_IMAGE_TYPE_SUBTEST" ].

(** ** Extension entry points (the generated loader fragment)

    The fragment is the body of the routine that binds the entry points of
    the extensions a context advertises.  Its free variables are the function
    table [gl], the [loader] and the set [extSet] of advertised extension
    names. *)

Module InitExtensions.

(** A function pointer, as an address. *)
Definition GenericFuncType := Z.

(** The function table, member name to pointer. *)
Definition Functions := string -> GenericFuncType.

(** [loader->get(name)]. *)
Definition FunctionLoader := string -> GenericFuncType.

(** [de::contains(extSet, name)]. *)
Definition contains (extSet : list string) (name : string) : bool :=
  existsb (String.eqb name) extSet.

(** [gl->member = f]. *)
Definition assign (gl : Functions) (member : string) (f : GenericFuncType)
    : Functions :=
  fun m => if String.eqb m member then f else gl m.

Definition initExtensions (gl : Functions) (loader : FunctionLoader)
    (extSet : list string) : Functions :=
  let gl :=
    if contains extSet "GL_KHR_blend_equation_advanced" then
      assign gl "blendBarrierKHR" (loader "glBlendBarrierKHR")
    else gl in
  let gl :=
    if contains extSet "GL_KHR_debug" then
      let gl := assign gl "debugMessageCallback" (loader "glDebugMessageCallbackKHR") in
      let gl := assign gl "debugMessageControl" (loader "glDebugMessageControlKHR") in
      let gl := assign gl "debugMessageInsert" (loader "glDebugMessageInsertKHR") in
      let gl := assign gl "getDebugMessageLog" (loader "glGetDebugMessageLogKHR") in
      let gl := assign gl "getObjectLabel" (loader "glGetObjectLabelKHR") in
      let gl := assign gl "getObjectPtrLabel" (loader "glGetObjectPtrLabelKHR") in
      let gl := assign gl "getPointerv" (loader "glGetPointervKHR") in
      let gl := assign gl "objectLabel" (loader "glObjectLabelKHR") in
      let gl := assign gl "objectPtrLabel" (loader "glObjectPtrLabelKHR") in
      let gl := assign gl "popDebugGroup" (loader "glPopDebugGroupKHR") in
      assign gl "pushDebugGroup" (loader "glPushDebugGroupKHR")
    else gl in
  let gl :=
    if contains extSet "GL_EXT_tessellation_shader" then
      assign gl "patchParameteri" (loader "glPatchParameteriEXT")
    else gl in
  let gl :=
    if contains extSet "GL_EXT_geometry_shader" then
      assign gl "framebufferTexture" (loader "glFramebufferTextureEXT")
    else gl in
  let gl :=
    if contains extSet "GL_EXT_texture_buffer" then
      let gl := assign gl "texBuffer" (loader "glTexBufferEXT") in
      assign gl "texBufferRange" (loader "glTexBufferRangeEXT")
    else gl in
  let gl :=
    if contains extSet "GL_EXT_primitive_bounding_box" then
      assign gl "primitiveBoundingBoxEXT" (loader "glPrimitiveBoundingBoxEXT")
    else gl in
  let gl :=
    if contains extSet "GL_OES_EGL_image" then
      let gl := assign gl "eglImageTargetRenderbufferStorageOES"
                  (loader "glEGLImageTargetRenderbufferStorageOES") in
      assign gl "eglImageTargetTexture2DOES" (loader "glEGLImageTargetTexture2DOES")
    else gl in
  let gl :=
    if contains extSet "GL_OES_texture_storage_multisample_2d_array" then
      assign gl "texStorage3DMultisample" (loader "glTexStorage3DMultisampleOES")
    else gl in
  let gl :=
    if contains extSet "GL_OES_sample_shading" then
      assign gl "minSampleShading" (loader "glMinSampleShadingOES")
    else gl in
  let gl :=
    if contains extSet "GL_EXT_copy_image" then
      assign gl "copyImageSubData" (loader "glCopyImageSubDataEXT")
    else gl in
  gl.

(** The same fragment as data: each extension with the members it binds and
    the entry-point names it asks the loader for, in the order of the code. *)
Definition extensions : list (string * list (string * string)) :=
  [ ("GL_KHR_blend_equation_advanced",
     [ ("blendBarrierKHR", "glBlendBarrierKHR") ]);
    ("GL_KHR_debug",
     [ ("debugMessageCallback", "glDebugMessageCallbackKHR");
       ("debugMessageControl", "glDebugMessageControlKHR");
       ("debugMessageInsert", "glDebugMessageInsertKHR");
       ("getDebugMessageLog", "glGetDebugMessageLogKHR");
       ("getObjectLabel", "glGetObjectLabelKHR");
       ("getObjectPtrLabel", "glGetObjectPtrLabelKHR");
       ("getPointerv", "glGetPointervKHR");
       ("objectLabel", "glObjectLabelKHR");
       ("objectPtrLabel", "glObjectPtrLabelKHR");
       ("popDebugGroup", "glPopDebugGroupKHR");
       ("pushDebugGroup", "glPushDebugGroupKHR") ]);
    ("GL_EXT_tessellation_shader",
     [ ("patchParameteri", "glPatchParameteriEXT") ]);
    ("GL_EXT_geometry_shader",
     [ ("framebufferTexture", "glFramebufferTextureEXT") ]);
    ("GL_EXT_texture_buffer",
     [ ("texBuffer", "glTexBufferEXT");
       ("texBufferRange", "glTexBufferRangeEXT") ]);
    ("GL_EXT_primitive_bounding_box",
     [ ("primitiveBoundingBoxEXT", "glPrimitiveBoundingBoxEXT") ]);
    ("GL_OES_EGL_image",
     [ ("eglImageTargetRenderbufferStorageOES", "glEGLImageTargetRenderbufferStorageOES");
       ("eglImageTargetTexture2DOES", "glEGLImageTargetTexture2DOES") ]);
    ("GL_OES_texture_storage_multisample_2d_array",
     [ ("texStorage3DMultisample", "glTexStorage3DMultisampleOES") ]);
    ("GL_OES_sample_shading",
     [ ("minSampleShading", "glMinSampleShadingOES") ]);
    ("GL_EXT_copy_image",
     [ ("copyImageSubData", "glCopyImageSubDataEXT") ]) ].

Definition bindEntries (loader : FunctionLoader) (gl : Functions)
    (entries : list (string * string)) : Functions :=
  fold_left (fun gl entry => assign gl (fst entry) (loader (snd entry))) entries gl.

Definition bindExtensions (loader : FunctionLoader) (extSet : list string)
    (gl : Functions) (table : list (string * list (string * string))) : Functions :=
  fold_left
    (fun gl extension =>
       if contains extSet (fst extension) then bindEntries loader gl (snd extension)
       else gl)
    table gl.

(** The members an extension set makes the fragment bind. *)
Definition boundMembers (extSet : list string)
    (table : list (string * list (string * string))) : list (string * string) :=
  flat_map (fun extension =>
              if contains extSet (fst extension) then snd extension else [])
           table.

End InitExtensions.

(** * Properties *)

(** ** Flag words *)

Lemma nonzero_true (x : Z) : nonzero x = true <-> x <> 0.
Proof.
  unfold nonzero. rewrite negb_true_iff, Z.eqb_neq. tauto.
Qed.

Lemma nonzero_false (x : Z) : nonzero x = false <-> x = 0.
Proof.
  unfold nonzero. rewrite negb_false_iff, Z.eqb_eq. tauto.
Qed.

Lemma TextureFormat_eqb_eq (a b : TextureFormat.ChannelOrder) :
  TextureFormat.eqb a b = true <-> a = b.
Proof.
  split.
  - destruct a, b; simpl; congruence.
  - intros ->. destruct b; reflexivity.
Qed.

(** [isSuperset a b] holds exactly when every sample count of [b] is one of
    [a]. *)
Lemma isSuperset_bits (a b : VkSampleCountFlags) :
  isSuperset a b = true <->
  forall n, 0 <= n -> Z.testbit b n = true -> Z.testbit a n = true.
Proof.
  unfold isSuperset. rewrite Z.eqb_eq. split.
  - intros H n Hn Hb. rewrite <- H in Hb.
    rewrite Z.land_spec in Hb. apply andb_true_iff in Hb. tauto.
  - intros H. apply Z.bits_inj'. intros n Hn.
    rewrite Z.land_spec. specialize (H n Hn).
    destruct (Z.testbit b n); [rewrite H by reflexivity; reflexivity|].
    apply andb_false_r.
Qed.

Lemma isSuperset_zero (a : VkSampleCountFlags) : isSuperset a 0 = true.
Proof. unfold isSuperset. rewrite Z.land_0_r. reflexivity. Qed.

Lemma andAll_bits (masks : list VkSampleCountFlags) (n : Z) :
  0 <= n ->
  Z.testbit (andAll masks) n = forallb (fun m => Z.testbit m n) masks.
Proof.
  intros Hn. induction masks as [|m masks IH]; simpl.
  - apply Z.bits_m1. exact Hn.
  - rewrite Z.land_spec, IH. reflexivity.
Qed.

Lemma andAll_zero (masks : list VkSampleCountFlags) :
  In 0 masks -> andAll masks = 0.
Proof.
  induction masks as [|m masks IH]; simpl; [tauto|].
  intros [->|H]; [reflexivity|].
  rewrite IH by exact H. apply Z.land_0_r.
Qed.

(** The intersection loop computes [first & m1 & ... & mk]. *)
Lemma intersectAll_andAll (masks : list VkSampleCountFlags) (first : VkSampleCountFlags) :
  SampleCountTestInstance.intersectAll masks first = Z.land first (andAll masks).
Proof.
  unfold SampleCountTestInstance.intersectAll.
  revert first. induction masks as [|m masks IH]; intros first; simpl.
  - symmetry. apply Z.land_m1_r.
  - rewrite IH. symmetry. apply Z.land_assoc.
Qed.

(** Starting the loop from the first element adds nothing to the
    intersection. *)
Lemma intersectAll_head (first : VkSampleCountFlags) (rest : list VkSampleCountFlags) :
  SampleCountTestInstance.intersectAll (first :: rest) first = andAll (first :: rest).
Proof.
  rewrite intersectAll_andAll. simpl.
  rewrite Z.land_assoc, Z.land_diag. reflexivity.
Qed.

Lemma combine_nonempty (first : VkSampleCountFlags) (rest : list VkSampleCountFlags) :
  combine (first :: rest) = andAll (first :: rest).
Proof.
  destruct rest as [|second rest]; [|reflexivity].
  simpl. symmetry. apply Z.land_m1_r.
Qed.

Section UsageFlags.

Context {U : FormatUtil}.
Variable self : SampleCountTestInstance.t.

(** The vector the code fills holds the results of the set usage bits, and
    those only. *)
Lemma expectedSupersets_contributing p p12 :
  SampleCountTestInstance.expectedSupersets self p p12 = contributing self p p12.
Proof.
  unfold SampleCountTestInstance.expectedSupersets, contributing, perBitResults.
  simpl.
  destruct (nonzero (Z.land _ VK_IMAGE_USAGE_COLOR_ATTACHMENT_BIT));
  destruct (nonzero (Z.land _ VK_IMAGE_USAGE_DEPTH_STENCIL_ATTACHMENT_BIT));
  destruct (nonzero (Z.land _ VK_IMAGE_USAGE_SAMPLED_BIT));
  destruct (nonzero (Z.land _ VK_IMAGE_USAGE_STORAGE_BIT)); reflexivity.
Qed.

Lemma expectedFlags_combine p p12 :
  SampleCountTestInstance.expectedFlags self p p12 = combine (contributing self p p12).
Proof.
  unfold SampleCountTestInstance.expectedFlags.
  rewrite expectedSupersets_contributing.
  destruct (contributing self p p12) as [|first rest]; [reflexivity|].
  rewrite intersectAll_head, combine_nonempty. reflexivity.
Qed.

(** Past the two early returns, the check is the superset test against
    [expectedFlags]. *)
Lemma checkUsageFlags_expected :
  fst (usageQuery self) = VK_SUCCESS ->
  hasAttachmentFeature self = true ->
  SampleCountTestInstance.checkUsageFlags self =
  isSuperset (reportedSampleCounts self)
    (SampleCountTestInstance.expectedFlags self
       (deviceProperties self) (deviceProperties12 self)).
Proof.
  intros Hok Hgate.
  unfold SampleCountTestInstance.checkUsageFlags, SampleCountTestInstance.expectedFlags.
  fold (usageQuery self). fold (hasAttachmentFeature self).
  fold (deviceProperties self) (deviceProperties12 self).
  rewrite Hok, Hgate. simpl. unfold reportedSampleCounts.
  destruct (SampleCountTestInstance.expectedSupersets self _ _); reflexivity.
Qed.

(** The gate on the attachment features comes right after the status test. *)
Lemma checkUsageFlags_gate :
  hasAttachmentFeature self = false ->
  SampleCountTestInstance.checkUsageFlags self =
  (fst (usageQuery self) =? VK_SUCCESS)
  && (reportedSampleCounts self =? VK_SAMPLE_COUNT_1_BIT).
Proof.
  intros Hgate.
  unfold SampleCountTestInstance.checkUsageFlags.
  fold (usageQuery self). fold (hasAttachmentFeature self).
  rewrite Hgate. simpl. unfold reportedSampleCounts.
  destruct (fst (usageQuery self) =? VK_SUCCESS); reflexivity.
Qed.

End UsageFlags.

(** ** Per-usage derivations *)

Section Derivations.

Context {U : FormatUtil}.
Variable self : SampleCountTestInstance.t.
Variable p : VkPhysicalDeviceProperties2.
Variable p12 : VkPhysicalDeviceVulkan12Properties.

(** What [getDepthStencilSampleCounts] returns, by channel order: the depth
    limit for [D], the stencil limit for [S], and 0 for every other order,
    [DS] among them. *)
Lemma getDepthStencilSampleCounts_cases :
  SampleCountTestInstance.getDepthStencilSampleCounts self p =
  if isCompressedFormat (format (SampleCountTestInstance.m_caseDef self)) then 0
  else
    match TextureFormat.order (mapVkFormat (format (SampleCountTestInstance.m_caseDef self))) with
    | TextureFormat.D => framebufferDepthSampleCounts (limits (properties p))
    | TextureFormat.S => framebufferStencilSampleCounts (limits (properties p))
    | _ => 0
    end.
Proof.
  unfold SampleCountTestInstance.getDepthStencilSampleCounts.
  destruct (isCompressedFormat _); [reflexivity|]. simpl.
  destruct (TextureFormat.order _); reflexivity.
Qed.

(** What [getSampledSampleCounts] returns, by channel order: the integer
    limit is reached by stencil-only formats alone. *)
Lemma getSampledSampleCounts_cases :
  SampleCountTestInstance.getSampledSampleCounts self p =
  if isCompressedFormat (format (SampleCountTestInstance.m_caseDef self))
     || isYCbCrFormat (format (SampleCountTestInstance.m_caseDef self)) then 0
  else
    match TextureFormat.order (mapVkFormat (format (SampleCountTestInstance.m_caseDef self))) with
    | TextureFormat.D | TextureFormat.DS =>
        sampledImageDepthSampleCounts (limits (properties p))
    | TextureFormat.S =>
        if isIntFormat (format (SampleCountTestInstance.m_caseDef self))
           || isUintFormat (format (SampleCountTestInstance.m_caseDef self))
        then sampledImageIntegerSampleCounts (limits (properties p))
        else 0
    | _ => sampledImageColorSampleCounts (limits (properties p))
    end.
Proof.
  unfold SampleCountTestInstance.getSampledSampleCounts.
  destruct (isCompressedFormat _); [reflexivity|].
  destruct (isYCbCrFormat _); [reflexivity|]. simpl.
  destruct (TextureFormat.order _); reflexivity.
Qed.

(** C4.  [getColorSampleCounts] returns 0 for a compressed format; for any
    other format it returns the framebuffer colour limit when the format is
    floating-point, signed-normalized or unsigned-normalized, else the
    framebuffer integer colour limit of the 1.2 properties when the format is
    a signed or unsigned integer format, and 0 otherwise. *)
Theorem getColorSampleCounts_spec :
  let f := format (SampleCountTestInstance.m_caseDef self) in
  let result := SampleCountTestInstance.getColorSampleCounts self p p12 in
  (isCompressedFormat f = true -> result = 0) /\
  (isCompressedFormat f = false ->
   isFloatFormat f || isSnormFormat f || isUnormFormat f = true ->
   result = framebufferColorSampleCounts (limits (properties p))) /\
  (isCompressedFormat f = false ->
   isFloatFormat f || isSnormFormat f || isUnormFormat f = false ->
   isIntFormat f || isUintFormat f = true ->
   result = framebufferIntegerColorSampleCounts p12) /\
  (isCompressedFormat f = false ->
   isFloatFormat f || isSnormFormat f || isUnormFormat f = false ->
   isIntFormat f || isUintFormat f = false ->
   result = 0).
Proof.
  cbv zeta. unfold SampleCountTestInstance.getColorSampleCounts.
  repeat split.
  - intros ->. reflexivity.
  - intros -> ->. reflexivity.
  - intros -> -> ->. reflexivity.
  - intros -> -> ->. reflexivity.
Qed.

End Derivations.

Lemma getColorSampleCounts_spec_witness :
  SampleCountTestInstance.getColorSampleCounts (U := Sample.util)
    (Sample.instance (Sample.device 128 15) VK_FORMAT_BC1_RGB_UNORM_BLOCK 16)
    Sample.properties2 Sample.properties12 = 0
  /\ SampleCountTestInstance.getColorSampleCounts (U := Sample.util)
       (Sample.instance (Sample.device 128 15) VK_FORMAT_R8G8B8A8_UNORM 16)
       Sample.properties2 Sample.properties12 = 15
  /\ SampleCountTestInstance.getColorSampleCounts (U := Sample.util)
       (Sample.instance (Sample.device 128 15) VK_FORMAT_R8_UINT 16)
       Sample.properties2 Sample.properties12 = 3
  /\ SampleCountTestInstance.getColorSampleCounts (U := Sample.util)
       (Sample.instance (Sample.device 128 15) VK_FORMAT_D24_UNORM_S8_UINT 16)
       Sample.properties2 Sample.properties12 = 0.
Proof.
  split; [|split; [|split]].
  - apply (proj1 (getColorSampleCounts_spec (U := Sample.util)
             (Sample.instance (Sample.device 128 15) VK_FORMAT_BC1_RGB_UNORM_BLOCK 16)
             Sample.properties2 Sample.properties12)).
    reflexivity.
  - apply (proj1 (proj2 (getColorSampleCounts_spec (U := Sample.util)
             (Sample.instance (Sample.device 128 15) VK_FORMAT_R8G8B8A8_UNORM 16)
             Sample.properties2 Sample.properties12))); reflexivity.
  - apply (proj1 (proj2 (proj2 (getColorSampleCounts_spec (U := Sample.util)
             (Sample.instance (Sample.device 128 15) VK_FORMAT_R8_UINT 16)
             Sample.properties2 Sample.properties12)))); reflexivity.
  - apply (proj2 (proj2 (proj2 (getColorSampleCounts_spec (U := Sample.util)
             (Sample.instance (Sample.device 128 15) VK_FORMAT_D24_UNORM_S8_UINT 16)
             Sample.properties2 Sample.properties12)))); reflexivity.
Defined.

(** C1.  The integer overwrite does not happen for colour formats: for the
    unsigned-integer colour format R8_UINT (not compressed, not
    chroma-subsampled, channel order R) [getSampledSampleCounts] returns the
    sampled-image colour limit, here [{1,2,4}], and not the sampled-image
    integer limit, here [{1}]. *)
Theorem getSampledSampleCounts_integer_color :
  isCompressedFormat (FormatUtil := Sample.util) VK_FORMAT_R8_UINT = false /\
  isYCbCrFormat (FormatUtil := Sample.util) VK_FORMAT_R8_UINT = false /\
  isUintFormat (FormatUtil := Sample.util) VK_FORMAT_R8_UINT = true /\
  TextureFormat.order (mapVkFormat (FormatUtil := Sample.util) VK_FORMAT_R8_UINT)
    = TextureFormat.R /\
  SampleCountTestInstance.getSampledSampleCounts (U := Sample.util)
    (Sample.instance (Sample.device 128 7) VK_FORMAT_R8_UINT VK_IMAGE_USAGE_SAMPLED_BIT)
    Sample.properties2
    = sampledImageColorSampleCounts Sample.deviceLimits /\
  sampledImageColorSampleCounts Sample.deviceLimits = 7 /\
  sampledImageIntegerSampleCounts Sample.deviceLimits = 1 /\
  SampleCountTestInstance.getSampledSampleCounts (U := Sample.util)
    (Sample.instance (Sample.device 128 7) VK_FORMAT_R8_UINT VK_IMAGE_USAGE_SAMPLED_BIT)
    Sample.properties2
    <> sampledImageIntegerSampleCounts Sample.deviceLimits.
Proof. repeat split. discriminate. Qed.

(** C2.  A combined depth/stencil format gets no depth limit: for
    D24_UNORM_S8_UINT (not compressed, channel order DS)
    [getDepthStencilSampleCounts] returns 0, while the framebuffer depth
    limit is [{1,2,4}]. *)
Theorem getDepthStencilSampleCounts_combined :
  isCompressedFormat (FormatUtil := Sample.util) VK_FORMAT_D24_UNORM_S8_UINT = false /\
  TextureFormat.order (mapVkFormat (FormatUtil := Sample.util) VK_FORMAT_D24_UNORM_S8_UINT)
    = TextureFormat.DS /\
  SampleCountTestInstance.getDepthStencilSampleCounts (U := Sample.util)
    (Sample.instance (Sample.device 512 7) VK_FORMAT_D24_UNORM_S8_UINT
       VK_IMAGE_USAGE_DEPTH_STENCIL_ATTACHMENT_BIT)
    Sample.properties2 = 0 /\
  framebufferDepthSampleCounts Sample.deviceLimits = 7 /\
  SampleCountTestInstance.getDepthStencilSampleCounts (U := Sample.util)
    (Sample.instance (Sample.device 512 7) VK_FORMAT_D24_UNORM_S8_UINT
       VK_IMAGE_USAGE_DEPTH_STENCIL_ATTACHMENT_BIT)
    Sample.properties2
    <> framebufferDepthSampleCounts Sample.deviceLimits.
Proof. repeat split. discriminate. Qed.

(** ** The USAGE_FLAGS check *)

(** With no usage bit set nothing contributes; with one usage bit set alone
    its result contributes alone. *)
Lemma contributing_none {U : FormatUtil} (self : SampleCountTestInstance.t) p p12 :
  (forall bit, In bit usageFlagsArray -> usageHas self bit = false) ->
  contributing self p p12 = [].
Proof.
  intros Hnone. unfold contributing, perBitResults. unfold usageHas in Hnone.
  cbn [filter fst].
  rewrite !Hnone by (simpl; tauto). reflexivity.
Qed.

Lemma contributing_single {U : FormatUtil} (self : SampleCountTestInstance.t) p p12
    (bitResult : VkImageUsageFlags * VkSampleCountFlags) :
  In bitResult (perBitResults self p p12) ->
  usageHas self (fst bitResult) = true ->
  (forall other, In other (perBitResults self p p12) ->
                 fst other <> fst bitResult -> usageHas self (fst other) = false) ->
  contributing self p p12 = [snd bitResult].
Proof.
  intros Hin Hset Hothers. unfold contributing.
  unfold usageHas in Hset, Hothers. unfold perBitResults in *.
  destruct Hin as [<-|[<-|[<-|[<-|[]]]]]; cbn [fst snd] in *;
    cbn [filter fst]; rewrite Hset;
    repeat match goal with
           | |- context [nonzero (Z.land ?u ?bit)] =>
               rewrite (Hothers (bit, _)) by (simpl; first [tauto | discriminate])
           end; reflexivity.
Qed.

(** C3.  Once the query has succeeded and the attachment-feature gate has let
    the case through, the vector the check fills holds exactly the results of
    the usage bits that are set; the expected set is [combine] of them: [{1}]
    when no usage bit is set, the unmodified result of the bit when one bit
    contributes alone, and in general the mask whose bits are the bits common
    to all contributing results; and the check passes exactly when the
    reported set is a superset of that expected set. *)
Theorem checkUsageFlags_combine {U : FormatUtil} (self : SampleCountTestInstance.t) :
  fst (usageQuery self) = VK_SUCCESS ->
  hasAttachmentFeature self = true ->
  let perBit := perBitResults self (deviceProperties self) (deviceProperties12 self) in
  let results := contributing self (deviceProperties self) (deviceProperties12 self) in
  let expected :=
    SampleCountTestInstance.expectedFlags self
      (deviceProperties self) (deviceProperties12 self) in
  SampleCountTestInstance.expectedSupersets self
    (deviceProperties self) (deviceProperties12 self) = results /\
  expected = combine results /\
  ((forall bit, In bit usageFlagsArray -> usageHas self bit = false) ->
   expected = VK_SAMPLE_COUNT_1_BIT) /\
  (forall bitResult,
     In bitResult perBit ->
     usageHas self (fst bitResult) = true ->
     (forall other, In other perBit -> fst other <> fst bitResult ->
                    usageHas self (fst other) = false) ->
     expected = snd bitResult) /\
  (results <> [] ->
   forall n, 0 <= n ->
     Z.testbit expected n = forallb (fun result => Z.testbit result n) results) /\
  SampleCountTestInstance.checkUsageFlags self
    = isSuperset (reportedSampleCounts self) expected.
Proof.
  intros Hok Hgate perBit results expected.
  assert (Hexp : expected = combine results) by apply expectedFlags_combine.
  split; [apply expectedSupersets_contributing|].
  split; [exact Hexp|].
  split.
  { intros Hnone. rewrite Hexp. unfold results.
    rewrite contributing_none by exact Hnone. reflexivity. }
  split.
  { intros bitResult Hin Hset Hothers. rewrite Hexp. unfold results.
    rewrite (contributing_single self _ _ bitResult Hin Hset Hothers). reflexivity. }
  split.
  - intros Hne n Hn. rewrite Hexp.
    destruct results as [|first rest]; [congruence|].
    rewrite combine_nonempty. apply andAll_bits. exact Hn.
  - apply checkUsageFlags_expected; assumption.
Qed.

Lemma checkUsageFlags_combine_witness :
  SampleCountTestInstance.checkUsageFlags (U := Sample.util)
    (Sample.instance (Sample.device 128 3) VK_FORMAT_R8G8B8A8_UNORM 20)
  = isSuperset 3 (combine [15; 7]).
Proof.
  exact (proj2 (proj2 (proj2 (proj2 (proj2
    (checkUsageFlags_combine (U := Sample.util)
       (Sample.instance (Sample.device 128 3) VK_FORMAT_R8G8B8A8_UNORM 20)
       eq_refl eq_refl)))))).
Defined.

(** C5.  When the optimal-tiling features of the format hold neither the
    colour-attachment nor the depth/stencil-attachment bit, the USAGE_FLAGS
    check passes exactly when the query succeeded and reported the set [{1}],
    whatever the usage flags; no per-usage derivation takes part, so the
    verdict is the same under every classification of formats. *)
Theorem checkUsageFlags_without_attachment_features
    {U : FormatUtil} (self : SampleCountTestInstance.t) :
  hasAttachmentFeature self = false ->
  (SampleCountTestInstance.checkUsageFlags self = true <->
   fst (usageQuery self) = VK_SUCCESS /\
   reportedSampleCounts self = VK_SAMPLE_COUNT_1_BIT) /\
  (forall U' : FormatUtil,
     SampleCountTestInstance.checkUsageFlags (U := U') self
     = SampleCountTestInstance.checkUsageFlags (U := U) self).
Proof.
  intros Hgate. split.
  - rewrite checkUsageFlags_gate by exact Hgate.
    rewrite andb_true_iff, !Z.eqb_eq. tauto.
  - intros U'. rewrite !checkUsageFlags_gate by exact Hgate. reflexivity.
Qed.

Lemma checkUsageFlags_without_attachment_features_witness :
  SampleCountTestInstance.checkUsageFlags (U := Sample.util)
    (Sample.instance (Sample.device 0 1) VK_FORMAT_R8G8B8A8_UNORM 60) = true.
Proof.
  apply (proj1 (checkUsageFlags_without_attachment_features (U := Sample.util)
                  (Sample.instance (Sample.device 0 1) VK_FORMAT_R8G8B8A8_UNORM 60)
                  eq_refl)).
  split; reflexivity.
Defined.

(** The results that contribute do not depend on the usage flags except
    through the selection of the bits. *)
Lemma contributing_withUsage {U : FormatUtil} (self : SampleCountTestInstance.t)
    (usage : VkImageUsageFlags) p p12 :
  contributing (withUsage self usage) p p12 =
  map snd (filter (fun bitResult => nonzero (Z.land usage (fst bitResult)))
                  (perBitResults self p p12)).
Proof. reflexivity. Qed.

Lemma subset_bit (u v bit : Z) :
  Z.land u v = u -> nonzero (Z.land u bit) = true -> nonzero (Z.land v bit) = true.
Proof.
  intros Huv. rewrite !nonzero_true. intros Hu Hv. apply Hu.
  rewrite <- Huv, <- Z.land_assoc, Hv. apply Z.land_0_r.
Qed.

Lemma contributing_subset {U : FormatUtil} (self : SampleCountTestInstance.t)
    (u v : VkImageUsageFlags) p p12 :
  Z.land u v = u ->
  incl (contributing (withUsage self u) p p12) (contributing (withUsage self v) p p12).
Proof.
  intros Huv x. rewrite !contributing_withUsage, !in_map_iff.
  intros [bitResult [Hx Hin]]. exists bitResult. split; [exact Hx|].
  apply filter_In in Hin. apply filter_In. split; [tauto|].
  apply (subset_bit u v); tauto.
Qed.

Lemma contributing_has_bit {U : FormatUtil} (self : SampleCountTestInstance.t)
    (u : VkImageUsageFlags) p p12 :
  (exists bit, In bit usageFlagsArray /\ nonzero (Z.land u bit) = true) ->
  contributing (withUsage self u) p p12 <> [].
Proof.
  intros [bit [Hin Hbit]]. rewrite contributing_withUsage.
  unfold perBitResults. simpl in Hin |- *.
  destruct Hin as [<-|[<-|[<-|[<-|[]]]]]; rewrite ?Hbit;
    repeat match goal with
           | |- context [if ?c then _ else _] => destruct c
           end; simpl; congruence.
Qed.

(** C9 (as amended).  For usage-flag sets [u] and [v] with [u] contained in
    [v], where [u] holds at least one of the four usage bits, the expected set
    for [v] is a subset of the expected set for [u]. *)
Theorem expectedFlags_antitone {U : FormatUtil} (self : SampleCountTestInstance.t)
    (u v : VkImageUsageFlags) p p12 :
  Z.land u v = u ->
  (exists bit, In bit usageFlagsArray /\ nonzero (Z.land u bit) = true) ->
  isSuperset (SampleCountTestInstance.expectedFlags (withUsage self u) p p12)
             (SampleCountTestInstance.expectedFlags (withUsage self v) p p12) = true.
Proof.
  intros Huv Hbit.
  pose proof (contributing_has_bit self u p p12 Hbit) as Hu.
  pose proof (contributing_subset self u v p p12 Huv) as Hincl.
  rewrite !expectedFlags_combine.
  destruct (contributing (withUsage self u) p p12) as [|u1 us] eqn:Eu; [congruence|].
  destruct (contributing (withUsage self v) p p12) as [|v1 vs] eqn:Ev.
  - exfalso. apply (Hincl u1). left. reflexivity.
  - rewrite !combine_nonempty. apply isSuperset_bits. intros n Hn.
    rewrite !andAll_bits by exact Hn. rewrite !forallb_forall.
    intros Hall x Hx. apply Hall. apply Hincl. exact Hx.
Qed.

Lemma expectedFlags_antitone_witness :
  isSuperset
    (SampleCountTestInstance.expectedFlags (U := Sample.util)
       (withUsage (Sample.instance (Sample.device 128 1) VK_FORMAT_R8G8B8A8_UNORM 0) 16)
       Sample.properties2 Sample.properties12)
    (SampleCountTestInstance.expectedFlags (U := Sample.util)
       (withUsage (Sample.instance (Sample.device 128 1) VK_FORMAT_R8G8B8A8_UNORM 0) 20)
       Sample.properties2 Sample.properties12) = true.
Proof.
  apply (expectedFlags_antitone (U := Sample.util)
           (Sample.instance (Sample.device 128 1) VK_FORMAT_R8G8B8A8_UNORM 0) 16 20).
  - reflexivity.
  - exists 16. split; [left; reflexivity | reflexivity].
Defined.

(** C9 (as stated) fails at the empty usage set: with no usage bit the
    expected set is [{1}], and adding the colour-attachment bit makes it the
    framebuffer colour limit [{1,2,4,8}], which is not a subset of [{1}]. *)
Lemma expectedFlags_antitone_counterexample :
  ~ (forall (U : FormatUtil) (self : SampleCountTestInstance.t)
            (u v : VkImageUsageFlags) p p12,
       Z.land u v = u ->
       isSuperset (SampleCountTestInstance.expectedFlags (withUsage self u) p p12)
                  (SampleCountTestInstance.expectedFlags (withUsage self v) p p12) = true).
Proof.
  intros H.
  specialize (H Sample.util
                (Sample.instance (Sample.device 128 1) VK_FORMAT_R8G8B8A8_UNORM 0)
                0 VK_IMAGE_USAGE_COLOR_ATTACHMENT_BIT
                Sample.properties2 Sample.properties12 eq_refl).
  vm_compute in H. discriminate H.
Qed.

(** C10.  A derivation that yields 0 stays in the intersection: when the
    query succeeded, the features hold an attachment bit and some usage bit
    that is set has the result 0, the expected mask is 0 and the check
    passes, whatever set the device reported. *)
Theorem checkUsageFlags_zero_result {U : FormatUtil} (self : SampleCountTestInstance.t) :
  fst (usageQuery self) = VK_SUCCESS ->
  hasAttachmentFeature self = true ->
  (exists bitResult,
     In bitResult (perBitResults self (deviceProperties self) (deviceProperties12 self))
     /\ usageHas self (fst bitResult) = true /\ snd bitResult = 0) ->
  SampleCountTestInstance.expectedFlags self
    (deviceProperties self) (deviceProperties12 self) = 0
  /\ SampleCountTestInstance.checkUsageFlags self = true.
Proof.
  intros Hok Hgate [bitResult [Hin [Hset Hzero]]].
  assert (Hmem : In 0 (contributing self (deviceProperties self) (deviceProperties12 self))).
  { unfold contributing. apply in_map_iff. exists bitResult.
    split; [exact Hzero|]. apply filter_In. split; [exact Hin | exact Hset]. }
  assert (Hexp : SampleCountTestInstance.expectedFlags self
                   (deviceProperties self) (deviceProperties12 self) = 0).
  { rewrite expectedFlags_combine.
    destruct (contributing self _ _) as [|first rest]; [destruct Hmem|].
    rewrite combine_nonempty. apply andAll_zero. exact Hmem. }
  split; [exact Hexp|].
  rewrite checkUsageFlags_expected by assumption.
  rewrite Hexp. apply isSuperset_zero.
Qed.

Lemma checkUsageFlags_zero_result_witness :
  SampleCountTestInstance.expectedFlags (U := Sample.util)
    (Sample.instance (Sample.device 128 64) VK_FORMAT_BC1_RGB_UNORM_BLOCK 20)
    Sample.properties2 Sample.properties12 = 0
  /\ SampleCountTestInstance.checkUsageFlags (U := Sample.util)
       (Sample.instance (Sample.device 128 64) VK_FORMAT_BC1_RGB_UNORM_BLOCK 20) = true.
Proof.
  apply (checkUsageFlags_zero_result (U := Sample.util)
           (Sample.instance (Sample.device 128 64) VK_FORMAT_BC1_RGB_UNORM_BLOCK 20)
           eq_refl eq_refl).
  exists (VK_IMAGE_USAGE_COLOR_ATTACHMENT_BIT, 0).
  split; [left; reflexivity | split; reflexivity].
Defined.

(** ** Support probe and query failures *)

Section Runner.

Context {U : FormatUtil}.
Variable ctx : Context.
Variable test : SampleCountTest.t.

(** The case is skipped exactly when the probe answers that the format is
    not supported. *)
Lemma runCase_skip :
  runCase ctx test = Skip <->
  fst (probeQuery ctx (SampleCountTest.m_caseDef test)) = VK_ERROR_FORMAT_NOT_SUPPORTED.
Proof.
  unfold runCase, SampleCountTest.checkSupport.
  fold (probeQuery ctx (SampleCountTest.m_caseDef test)).
  rewrite <- Z.eqb_eq.
  destruct (fst (probeQuery ctx (SampleCountTest.m_caseDef test))
            =? VK_ERROR_FORMAT_NOT_SUPPORTED).
  - tauto.
  - destruct (SampleCountTestInstance.iterate _); split; discriminate.
Qed.

(** Every check fails when its own query does not succeed. *)
Lemma iterate_query_failure :
  fst (subtestQuery ctx (SampleCountTest.m_caseDef test) (SampleCountTest.m_subtest test))
    <> VK_SUCCESS ->
  SampleCountTestInstance.iterate (SampleCountTest.createInstance test ctx) = fail "FAILED".
Proof.
  intros Hq. apply Z.eqb_neq in Hq.
  unfold SampleCountTestInstance.iterate, SampleCountTest.createInstance. simpl.
  destruct (SampleCountTest.m_subtest test); simpl in Hq |- *;
    [ unfold SampleCountTestInstance.checkLinearTilingAndNot2DImageType
    | unfold SampleCountTestInstance.checkCubeCompatible
    | unfold SampleCountTestInstance.checkOptimalTilingFeatures
    | unfold SampleCountTestInstance.checkYCBCRConversion
    | unfold SampleCountTestInstance.checkUsageFlags
    | unfold SampleCountTestInstance.checkOneSampleCountPresent ];
    simpl; rewrite Hq; reflexivity.
Qed.

(** A case that is not skipped and whose own query does not succeed is
    reported as a failure. *)
Lemma runCase_query_failure :
  fst (probeQuery ctx (SampleCountTest.m_caseDef test)) <> VK_ERROR_FORMAT_NOT_SUPPORTED ->
  fst (subtestQuery ctx (SampleCountTest.m_caseDef test) (SampleCountTest.m_subtest test))
    <> VK_SUCCESS ->
  runCase ctx test = Fail.
Proof.
  intros Hp Hq. unfold runCase, SampleCountTest.checkSupport.
  fold (probeQuery ctx (SampleCountTest.m_caseDef test)).
  apply Z.eqb_neq in Hp. rewrite Hp.
  rewrite iterate_query_failure by exact Hq. reflexivity.
Qed.

(** For every variant but the cube-compatible one, on a case built as the
    enumerator builds it (no usage flags unless the variant is USAGE_FLAGS),
    the probe and the check issue the same query, so an unsupported
    configuration is skipped. *)
Lemma runCase_unsupported_skip :
  SampleCountTest.m_subtest test <> CUBE_COMPATIBLE_SUBTEST ->
  (SampleCountTest.m_subtest test = USAGE_FLAGS_SUBTEST
   \/ usageFlags (SampleCountTest.m_caseDef test) = 0) ->
  fst (subtestQuery ctx (SampleCountTest.m_caseDef test) (SampleCountTest.m_subtest test))
    = VK_ERROR_FORMAT_NOT_SUPPORTED ->
  runCase ctx test = Skip.
Proof.
  intros Hcube Hshape Hq. apply runCase_skip. unfold probeQuery.
  destruct Hshape as [Hu|H0].
  - rewrite Hu in Hq. exact Hq.
  - rewrite H0. destruct (SampleCountTest.m_subtest test); simpl in Hq;
      rewrite ?H0 in Hq; solve [exact Hq | congruence].
Qed.

End Runner.

(** ** Strings *)

Lemma append_assoc (a b c : string) : ((a ++ b) ++ c = a ++ (b ++ c))%string.
Proof. induction a as [|ch a IH]; simpl; [reflexivity | rewrite IH; reflexivity]. Qed.

Lemma append_empty_r (a : string) : (a ++ "")%string = a.
Proof. induction a as [|ch a IH]; simpl; [reflexivity | rewrite IH; reflexivity]. Qed.

Lemma list_ascii_of_string_append (a b : string) :
  list_ascii_of_string (a ++ b) = list_ascii_of_string a ++ list_ascii_of_string b.
Proof. induction a as [|ch a IH]; simpl; [reflexivity | rewrite IH; reflexivity]. Qed.

Lemma list_ascii_of_string_inj (a b : string) :
  list_ascii_of_string a = list_ascii_of_string b -> a = b.
Proof.
  intros H. rewrite <- (string_of_list_ascii_of_string a),
              <- (string_of_list_ascii_of_string b), H.
  reflexivity.
Qed.

Lemma append_inv_tail (a b t : string) : (a ++ t = b ++ t)%string -> a = b.
Proof.
  intros H. apply list_ascii_of_string_inj.
  apply (f_equal list_ascii_of_string) in H.
  rewrite !list_ascii_of_string_append in H.
  apply app_inv_tail in H. exact H.
Qed.

Lemma prefixb_app (x w : list ascii) : prefixb x (x ++ w) = true.
Proof.
  induction x as [|a x IH]; simpl; [reflexivity|].
  rewrite Ascii.eqb_refl. exact IH.
Qed.

(** Two ways to split one list: one of the heads starts the other. *)
Lemma app_eq_prefixb (x u y v : list ascii) :
  x ++ u = y ++ v -> prefixb x y = true \/ prefixb y x = true.
Proof.
  revert y. induction x as [|a x IH]; intros y H.
  - left. reflexivity.
  - destruct y as [|b y]; [right; reflexivity|].
    simpl in H. injection H as Hab H. subst b. simpl.
    rewrite Ascii.eqb_refl. apply IH. exact H.
Qed.

(** Two names with the same text: one of the tags ends with the other. *)
Lemma append_eq_suffix (a t b t' : string) :
  (a ++ t = b ++ t')%string -> isSuffixOf t t' = true \/ isSuffixOf t' t = true.
Proof.
  intros H. apply (f_equal list_ascii_of_string) in H.
  rewrite !list_ascii_of_string_append in H.
  apply (f_equal (@rev ascii)) in H. rewrite !rev_app_distr in H.
  unfold isSuffixOf. eapply app_eq_prefixb. exact H.
Qed.

Lemma SampleCountsSubtests_eqb_eq (a b : SampleCountsSubtests) :
  SampleCountsSubtests_eqb a b = true -> a = b.
Proof. destruct a, b; simpl; congruence. Qed.

Lemma tag_eqb_eq a b : tag_eqb a b = true -> a = b.
Proof.
  destruct a as [s [u v]], b as [s' [u' v']]. unfold tag_eqb. simpl.
  rewrite !andb_true_iff. intros [[Hs Hu] Hv].
  apply String.eqb_eq in Hs. apply Z.eqb_eq in Hu.
  apply SampleCountsSubtests_eqb_eq in Hv. congruence.
Qed.

Lemma variantTags_suffixFree : suffixFree variantTags = true.
Proof. vm_compute. reflexivity. Qed.

(** A name splits in one way only into a prefix and a tag of the table. *)
Lemma variantTags_unique a b tag tag' x x' :
  In (tag, x) variantTags -> In (tag', x') variantTags ->
  (a ++ tag = b ++ tag')%string ->
  a = b /\ tag = tag' /\ x = x'.
Proof.
  intros Hin Hin' Heq.
  pose proof variantTags_suffixFree as Hfree. unfold suffixFree in Hfree.
  rewrite forallb_forall in Hfree.
  assert (Hsame : (tag, x) = (tag', x')).
  { destruct (append_eq_suffix _ _ _ _ Heq) as [Hs|Hs].
    - pose proof (Hfree _ Hin) as H1. rewrite forallb_forall in H1.
      specialize (H1 _ Hin'). simpl in H1. rewrite Hs in H1.
      apply tag_eqb_eq. exact H1.
    - pose proof (Hfree _ Hin') as H1. rewrite forallb_forall in H1.
      specialize (H1 _ Hin). simpl in H1. rewrite Hs in H1.
      symmetry. apply tag_eqb_eq. exact H1. }
  injection Hsame as Ht Hx. subst tag'. split; [|split; [reflexivity | exact Hx]].
  apply (append_inv_tail _ _ _ Heq).
Qed.

Lemma distinctNames_inj {A : Type} (f : A -> string) (l : list A) :
  distinctNames (map f l) = true ->
  forall x y, In x l -> In y l -> f x = f y -> x = y.
Proof.
  induction l as [|a l IH]; simpl; [tauto|].
  rewrite andb_true_iff, negb_true_iff. intros [Hhead Hrest] x y Hx Hy Hxy.
  assert (Hfresh : forall z, In z l -> f a <> f z).
  { intros z Hz E.
    assert (Hex : existsb (String.eqb (f a)) (map f l) = true).
    { apply existsb_exists. exists (f z). split; [apply in_map; exact Hz|].
      apply String.eqb_eq. exact E. }
    congruence. }
  destruct Hx as [<-|Hx], Hy as [<-|Hy].
  - reflexivity.
  - exfalso. apply (Hfresh y Hy). exact Hxy.
  - exfalso. apply (Hfresh x Hx). symmetry. exact Hxy.
  - apply IH; assumption.
Qed.

(** ** Enumerator *)

Lemma fold_left_addChild {A : Type} (f : A -> TestNode) (l : list A)
    (group : list TestNode) :
  fold_left (fun group x => addChild group (f x)) l group = group ++ map f l.
Proof.
  revert group. induction l as [|x l IH]; intros group; simpl.
  - symmetry. apply app_nil_r.
  - rewrite IH. unfold addChild. rewrite <- app_assoc. reflexivity.
Qed.

(** The sixteen combinations of the loop are the sixteen subsets, bit 0 being
    the colour bit. *)
Lemma usageOfCombination_subsets :
  map usageOfCombination
      (upto (Z.to_nat (Z.shiftl 1 (Z.of_nat (List.length usageFlagsArray)))))
  = map usageOfSubset allSubsets.
Proof. reflexivity. Qed.

Lemma usageCaseName_mnemonics (samplesCaseName : string) (b : UsageSubset) :
  usageCaseName samplesCaseName (usageOfSubset b)
  = (samplesCaseName ++ "_USAGE_FLAGS" ++ mnemonics b)%string.
Proof.
  destruct b as [[] [] [] []]; unfold usageCaseName, mnemonics; simpl;
    rewrite ?append_assoc; simpl; rewrite ?append_empty_r; reflexivity.
Qed.

Lemma addUsageFlagsSubtests_subsets (samplesCaseName : string) (caseDef : CaseDef)
    (group : list TestNode) :
  addUsageFlagsSubtests samplesCaseName caseDef group =
  group ++
  map (fun b =>
         TestCase
           (sampleCountTest (samplesCaseName ++ "_USAGE_FLAGS" ++ mnemonics b)
              {| format := format caseDef; imageType := imageType caseDef;
                 imageTiling := imageTiling caseDef; usageFlags := usageOfSubset b |}
              USAGE_FLAGS_SUBTEST))
      allSubsets.
Proof.
  unfold addUsageFlagsSubtests.
  rewrite (fold_left_addChild
             (fun flagsCombination =>
                newSampleCountTest
                  (usageCaseName samplesCaseName (usageOfCombination flagsCombination)) ""
                  {| format := format caseDef; imageType := imageType caseDef;
                     imageTiling := imageTiling caseDef;
                     usageFlags := usageOfCombination flagsCombination |}
                  USAGE_FLAGS_SUBTEST)).
  f_equal.
  rewrite <- (map_map usageOfCombination
                (fun usage =>
                   newSampleCountTest (usageCaseName samplesCaseName usage) ""
                     {| format := format caseDef; imageType := imageType caseDef;
                        imageTiling := imageTiling caseDef; usageFlags := usage |}
                     USAGE_FLAGS_SUBTEST)).
  rewrite usageOfCombination_subsets, map_map.
  apply map_ext. intros b. rewrite usageCaseName_mnemonics. reflexivity.
Qed.

Lemma testCases_TestCase (t : SampleCountTest.t) : testCases (TestCase t) = [t].
Proof. reflexivity. Qed.

Lemma flat_map_testCases (l : list SampleCountTest.t) :
  flat_map testCases (map TestCase l) = l.
Proof.
  induction l as [|t l IH]; [reflexivity|].
  simpl. rewrite IH. reflexivity.
Qed.

Lemma testPaths_cases (name description : string) (l : list SampleCountTest.t) :
  testPaths (TestCaseGroup name description (map TestCase l))
  = map (fun t => ([name; SampleCountTest.name t], t)) l.
Proof.
  simpl. induction l as [|t l IH]; [reflexivity|].
  simpl. rewrite IH. reflexivity.
Qed.

Lemma testPaths_groups {A : Type} (name description : string) (g : A -> TestNode)
    (l : list A) :
  testPaths (TestCaseGroup name description (map g l))
  = flat_map (fun x => map (fun pt => (name :: fst pt, snd pt)) (testPaths (g x))) l.
Proof.
  change (testPaths (TestCaseGroup name description (map g l)))
    with (map (fun pt : list string * SampleCountTest.t => (name :: fst pt, snd pt))
              (flat_map testPaths (map g l))).
  induction l as [|x l IH]; [reflexivity|].
  cbn [map flat_map]. rewrite map_app, IH. reflexivity.
Qed.

Section EnumeratorFacts.

Context {U : FormatUtil}.

(** The loop body adds, behind what the group holds already, the cases of the
    design document for the triple. *)
Lemma addFormatCases_cases ty tl (group : list TestNode) (f : VkFormat) :
  addFormatCases ty tl group f =
  group ++ map TestCase
             (if is2DOptimal (caseDefOf ty tl f 0)
              then optimal2DCases ty tl f
              else linearOrNon2DCases ty tl f).
Proof.
  unfold addFormatCases. fold (caseDefOf ty tl f 0).
  destruct (is2DOptimal (caseDefOf ty tl f 0)).
  - rewrite addUsageFlagsSubtests_subsets.
    unfold optimal2DCases, addChild, newSampleCountTest, sampleCountTest, caseDefOf.
    cbn [format imageType imageTiling usageFlags].
    destruct (isYCbCrFormat f);
      rewrite !map_app, map_map, <- !app_assoc; reflexivity.
  - reflexivity.
Qed.

Lemma emittedCases_cases ty tl (f : VkFormat) :
  emittedCases ty tl f =
  if is2DOptimal (caseDefOf ty tl f 0)
  then optimal2DCases ty tl f
  else linearOrNon2DCases ty tl f.
Proof.
  unfold emittedCases. rewrite addFormatCases_cases. simpl app.
  apply flat_map_testCases.
Qed.

Lemma fold_left_addFormatCases ty tl (formats : list VkFormat) (group : list TestNode) :
  fold_left (addFormatCases ty tl) formats group
  = group ++ map TestCase (flat_map (emittedCases ty tl) formats).
Proof.
  revert group. induction formats as [|f formats IH]; intros group.
  - simpl. symmetry. apply app_nil_r.
  - cbn [fold_left flat_map]. rewrite IH, addFormatCases_cases, <- emittedCases_cases.
    rewrite map_app, app_assoc. reflexivity.
Qed.

Lemma testPaths_createTilingGroup ty tl :
  testPaths (createTilingGroup ty tl)
  = map (fun t => ([getImageTilingName tl; SampleCountTest.name t], t))
        (flat_map (emittedCases ty tl) enumerateAllFormatsToTest).
Proof.
  unfold createTilingGroup. rewrite fold_left_addFormatCases.
  apply testPaths_cases.
Qed.

Lemma testPaths_createImageViewGroup ty :
  testPaths (createImageViewGroup ty)
  = flat_map
      (fun tl =>
         map (fun t => ([getImageTypeName ty; getImageTilingName tl;
                         SampleCountTest.name t], t))
             (flat_map (emittedCases ty tl) enumerateAllFormatsToTest))
      imageTilings.
Proof.
  unfold createImageViewGroup. rewrite fold_left_addChild, app_nil_l.
  rewrite testPaths_groups. apply flat_map_ext. intros tl.
  rewrite testPaths_createTilingGroup, map_map. apply map_ext. intros t.
  reflexivity.
Qed.

(** The whole grid: every case of every triple, under its path. *)
Lemma testPaths_createImageSampleCountsTests :
  testPaths createImageSampleCountsTests
  = flat_map
      (fun ty =>
         flat_map
           (fun tl =>
              map (fun t => (casePath ty tl t, t))
                  (flat_map (emittedCases ty tl) enumerateAllFormatsToTest))
           imageTilings)
      imageTypes.
Proof.
  unfold createImageSampleCountsTests. rewrite fold_left_addChild, app_nil_l.
  rewrite testPaths_groups. apply flat_map_ext. intros ty.
  rewrite testPaths_createImageViewGroup.
  generalize imageTilings. intros tilings.
  induction tilings as [|tl tilings IH]; [reflexivity|].
  cbn [flat_map]. rewrite map_app, IH, map_map. reflexivity.
Qed.

Lemma in_testPaths path t :
  In (path, t) (testPaths createImageSampleCountsTests) <->
  exists ty tl f,
    In f enumerateAllFormatsToTest /\ In t (emittedCases ty tl f)
    /\ path = casePath ty tl t.
Proof.
  rewrite testPaths_createImageSampleCountsTests. split.
  - intros H. apply in_flat_map in H. destruct H as [ty [_ H]].
    apply in_flat_map in H. destruct H as [tl [_ H]].
    apply in_map_iff in H. destruct H as [t' [E H]].
    injection E as E1 E2. subst t'.
    apply in_flat_map in H. destruct H as [f [Hf Ht]].
    exists ty, tl, f. auto.
  - intros [ty [tl [f [Hf [Ht ->]]]]].
    apply in_flat_map. exists ty. split; [destruct ty; simpl; tauto|].
    apply in_flat_map. exists tl. split; [destruct tl; simpl; tauto|].
    apply in_map_iff. exists t. split; [reflexivity|].
    apply in_flat_map. exists f. auto.
Qed.

End EnumeratorFacts.

(** The loop over one range pushes exactly the ids from its first bound to
    its last, both included. *)
Lemma pushRange_in (fuel : nat) (first second : VkFormat) (formats : list VkFormat)
    (f : VkFormat) :
  fuel = Z.to_nat (second - first + 1) ->
  (In f (pushRange fuel first second formats) <->
   In f formats \/ first <= f <= second).
Proof.
  revert first formats. induction fuel as [|fuel IH]; intros first formats Hfuel.
  - simpl. split; [tauto|]. intros [H|H]; [exact H | lia].
  - simpl. destruct (first <=? second) eqn:Hle; [|apply Z.leb_gt in Hle; lia].
    apply Z.leb_le in Hle. rewrite IH by lia. rewrite in_app_iff. simpl.
    split.
    + intros [[H|[H|[]]]|H]; [tauto | right; lia | right; lia].
    + intros [H|H]; [tauto|].
      destruct (Z.eq_dec first f) as [E|E]; [left; right; left; exact E | right; lia].
Qed.

Lemma fold_pushRange_in (ranges : list (VkFormat * VkFormat)) (formats : list VkFormat)
    (f : VkFormat) :
  In f (fold_left
          (fun formats range =>
             pushRange (Z.to_nat (snd range - fst range + 1)) (fst range) (snd range)
                       formats)
          ranges formats) <->
  In f formats \/ exists range, In range ranges /\ fst range <= f <= snd range.
Proof.
  revert formats. induction ranges as [|range ranges IH]; intros formats; simpl.
  - split; [tauto|]. intros [H|[range [[] _]]]. exact H.
  - rewrite IH, pushRange_in by reflexivity. split.
    + intros [[H|H]|[range' [Hin H]]]; [tauto | right; exists range; tauto |].
      right. exists range'. tauto.
    + intros [H|[range' [[<-|Hin] H]]]; [tauto | tauto |].
      right. exists range'. tauto.
Qed.

(** The format universe holds exactly the ids of the six ranges, bounds
    included. *)
Lemma enumerateAllFormatsToTest_in (f : VkFormat) :
  In f enumerateAllFormatsToTest <->
  exists range, In range allFormatsRanges /\ fst range <= f <= snd range.
Proof.
  unfold enumerateAllFormatsToTest. rewrite fold_pushRange_in. simpl In at 1. tauto.
Qed.

(** Every emitted case is named by the format's short name and a variant tag,
    and carries the usage flags and the variant the tag stands for. *)
Lemma emittedCases_tag {U : FormatUtil} ty tl (f : VkFormat) (t : SampleCountTest.t) :
  In t (emittedCases ty tl f) ->
  exists tag usage subtest,
    In (tag, (usage, subtest)) variantTags /\
    t = sampleCountTest (getFormatShortString f ++ tag) (caseDefOf ty tl f usage) subtest.
Proof.
  rewrite emittedCases_cases.
  assert (Hfixed : forall tag subtest,
            In (tag, (0, subtest))
               [ ("_CUBE_COMPATIBLE_SUBTEST", (0, CUBE_COMPATIBLE_SUBTEST));
                 ("_OPTIMAL_TILING_FEATURES_SUBTEST", (0, OPTIMAL_TILING_FEATURES_SUBTEST));
                 ("_YCBCR_CONVERSION_SUBTEST", (0, YCBCR_CONVERSION_SUBTEST));
                 ("_ONE_SAMPLE_COUNT_PRESENT_SUBTEST", (0, ONE_SAMPLE_COUNT_PRESENT_SUBTEST));
                 ("_LINEAR_TILING_AND_NOT_2D_IMAGE_TYPE_SUBTEST",
                  (0, LINEAR_TILING_AND_NOT_2D_IMAGE_TYPE)) ] ->
            In t [sampleCountTest (getFormatShortString f ++ tag)
                    (caseDefOf ty tl f 0) subtest] ->
            exists tag usage subtest,
              In (tag, (usage, subtest)) variantTags /\
              t = sampleCountTest (getFormatShortString f ++ tag)
                    (caseDefOf ty tl f usage) subtest).
  { intros tag subtest Htag [<-|[]]. exists tag, 0, subtest.
    split; [|reflexivity]. unfold variantTags. apply in_or_app. left. exact Htag. }
  destruct (is2DOptimal (caseDefOf ty tl f 0)).
  - unfold optimal2DCases. rewrite !in_app_iff.
    intros [H|[H|[H|H]]].
    + destruct H as [<-|[<-|[]]].
      * eapply Hfixed; [|left; reflexivity]. simpl. tauto.
      * eapply Hfixed; [|left; reflexivity]. simpl. tauto.
    + destruct (isYCbCrFormat f); [|destruct H].
      eapply Hfixed; [|exact H]. simpl. tauto.
    + apply in_map_iff in H. destruct H as [b [<- Hb]].
      exists ("_USAGE_FLAGS" ++ mnemonics b)%string, (usageOfSubset b), USAGE_FLAGS_SUBTEST.
      split; [|reflexivity]. unfold variantTags. apply in_or_app. right.
      apply in_map_iff. exists b. split; [reflexivity | exact Hb].
    + eapply Hfixed; [|exact H]. simpl. tauto.
  - unfold linearOrNon2DCases. intros H.
    eapply Hfixed; [|exact H]. simpl. tauto.
Qed.

Lemma is2DOptimal_true {U : FormatUtil} ty tl (f : VkFormat) usage :
  is2DOptimal (caseDefOf ty tl f usage) = true <->
  mapImageType ty = VK_IMAGE_TYPE_2D /\ tl = VK_IMAGE_TILING_OPTIMAL.
Proof.
  unfold is2DOptimal, caseDefOf. simpl.
  destruct ty, tl; simpl; split; intros H; try discriminate H; try tauto;
    destruct H as [H1 H2]; discriminate.
Qed.

Lemma allSubsets_complete (b : UsageSubset) : In b allSubsets.
Proof. destruct b as [[] [] [] []]; simpl; tauto. Qed.

Lemma usageOfSubset_distinct : NoDup (map usageOfSubset allSubsets).
Proof.
  cbv [map allSubsets flat_map booleans app usageOfSubset withColor withDepth
       withSampled withStorage].
  repeat (apply NoDup_cons; [simpl; intuition discriminate|]).
  apply NoDup_nil.
Qed.

(** C7.  The test cases of the tree are the cases of the triples of the grid,
    image types outermost, then tilings, then the formats of the universe.
    A 2D, optimally tiled triple gets the cases of [optimal2DCases]: one
    CUBE_COMPATIBLE, one OPTIMAL_TILING_FEATURES, one YCBCR_CONVERSION exactly
    for a chroma-subsampled format, sixteen USAGE_FLAGS cases, one per subset
    of the four usage bits and named by the mnemonics of its active flags in
    the order COLOR, DEPTH, SAMPLED, STORAGE, and one ONE_SAMPLE_COUNT_PRESENT.
    Every other triple gets the single linear-tiling-or-not-2D case.  The
    universe holds exactly the format ids between the bounds of the six
    ranges, bounds included. *)
Theorem enumerated_cases {U : FormatUtil} :
  testCases createImageSampleCountsTests
  = flat_map
      (fun ty =>
         flat_map (fun tl => flat_map (emittedCases ty tl) enumerateAllFormatsToTest)
                  imageTilings)
      imageTypes
  /\ (forall ty tl f,
        mapImageType ty = VK_IMAGE_TYPE_2D /\ tl = VK_IMAGE_TILING_OPTIMAL ->
        emittedCases ty tl f = optimal2DCases ty tl f
        /\ countSubtest CUBE_COMPATIBLE_SUBTEST (emittedCases ty tl f) = 1%nat
        /\ countSubtest OPTIMAL_TILING_FEATURES_SUBTEST (emittedCases ty tl f) = 1%nat
        /\ countSubtest YCBCR_CONVERSION_SUBTEST (emittedCases ty tl f)
           = (if isYCbCrFormat f then 1%nat else 0%nat)
        /\ countSubtest USAGE_FLAGS_SUBTEST (emittedCases ty tl f) = 16%nat
        /\ countSubtest ONE_SAMPLE_COUNT_PRESENT_SUBTEST (emittedCases ty tl f) = 1%nat
        /\ countSubtest LINEAR_TILING_AND_NOT_2D_IMAGE_TYPE (emittedCases ty tl f) = 0%nat)
  /\ (forall ty tl f,
        ~ (mapImageType ty = VK_IMAGE_TYPE_2D /\ tl = VK_IMAGE_TILING_OPTIMAL) ->
        emittedCases ty tl f = linearOrNon2DCases ty tl f)
  /\ (List.length allSubsets = 16%nat
      /\ (forall b, In b allSubsets)
      /\ NoDup (map usageOfSubset allSubsets))
  /\ (List.length allFormatsRanges = 6%nat
      /\ forall f,
           In f enumerateAllFormatsToTest <->
           exists range, In range allFormatsRanges /\ fst range <= f <= snd range).
Proof.
  split; [|split; [|split; [|split]]].
  - unfold testCases. rewrite testPaths_createImageSampleCountsTests.
    generalize imageTypes. intros types.
    induction types as [|ty types IH]; [reflexivity|].
    cbn [flat_map]. rewrite map_app, IH. f_equal.
    generalize imageTilings. intros tilings.
    induction tilings as [|tl tilings IH']; [reflexivity|].
    cbn [flat_map]. rewrite map_app, IH', map_map. f_equal.
    apply map_id.
  - intros ty tl f H.
    assert (E : emittedCases ty tl f = optimal2DCases ty tl f).
    { rewrite emittedCases_cases.
      rewrite (proj2 (is2DOptimal_true ty tl f 0) H). reflexivity. }
    rewrite E. split; [reflexivity|].
    unfold optimal2DCases, countSubtest.
    destruct (isYCbCrFormat f); repeat split; reflexivity.
  - intros ty tl f H. rewrite emittedCases_cases.
    destruct (is2DOptimal (caseDefOf ty tl f 0)) eqn:E; [|reflexivity].
    apply is2DOptimal_true in E. contradiction.
  - split; [reflexivity|]. split; [apply allSubsets_complete|].
    apply usageOfSubset_distinct.
  - split; [reflexivity|]. apply enumerateAllFormatsToTest_in.
Qed.

Lemma enumerated_cases_witness :
  emittedCases (U := Sample.util) IMAGE_TYPE_2D VK_IMAGE_TILING_OPTIMAL
    VK_FORMAT_R8G8B8A8_UNORM
  = optimal2DCases (U := Sample.util) IMAGE_TYPE_2D VK_IMAGE_TILING_OPTIMAL
      VK_FORMAT_R8G8B8A8_UNORM
  /\ emittedCases (U := Sample.util) IMAGE_TYPE_3D VK_IMAGE_TILING_OPTIMAL
       VK_FORMAT_R8G8B8A8_UNORM
     = linearOrNon2DCases (U := Sample.util) IMAGE_TYPE_3D VK_IMAGE_TILING_OPTIMAL
         VK_FORMAT_R8G8B8A8_UNORM.
Proof.
  split.
  - apply (proj1 (proj2 (enumerated_cases (U := Sample.util)))
             IMAGE_TYPE_2D VK_IMAGE_TILING_OPTIMAL VK_FORMAT_R8G8B8A8_UNORM).
    split; reflexivity.
  - apply (proj1 (proj2 (proj2 (enumerated_cases (U := Sample.util))))
             IMAGE_TYPE_3D VK_IMAGE_TILING_OPTIMAL VK_FORMAT_R8G8B8A8_UNORM).
    intros [H _]. discriminate H.
Defined.

(** ** Case identifiers *)

Lemma Sample_type_names ty ty' :
  getImageTypeName (FormatUtil := Sample.util) ty
  = getImageTypeName (FormatUtil := Sample.util) ty' -> ty = ty'.
Proof. destruct ty, ty'; simpl; intros H; try reflexivity; discriminate H. Qed.

Lemma Sample_tiling_names tl tl' :
  getImageTilingName (FormatUtil := Sample.util) tl
  = getImageTilingName (FormatUtil := Sample.util) tl' -> tl = tl'.
Proof. destruct tl, tl'; simpl; intros H; try reflexivity; discriminate H. Qed.

Lemma Sample_format_names f f' :
  In f enumerateAllFormatsToTest -> In f' enumerateAllFormatsToTest ->
  getFormatShortString (FormatUtil := Sample.util) f
  = getFormatShortString (FormatUtil := Sample.util) f' -> f = f'.
Proof.
  apply (distinctNames_inj (getFormatShortString (FormatUtil := Sample.util))).
  vm_compute. reflexivity.
Qed.

(** The first format of the universe is in it. *)
Lemma first_format_enumerated : In VK_FORMAT_R4G4_UNORM_PACK8 enumerateAllFormatsToTest.
Proof.
  apply enumerateAllFormatsToTest_in.
  exists (VK_FORMAT_R4G4_UNORM_PACK8, VK_FORMAT_ASTC_12x12_SRGB_BLOCK).
  split; [left; reflexivity|]. simpl. unfold VK_FORMAT_R4G4_UNORM_PACK8,
    VK_FORMAT_ASTC_12x12_SRGB_BLOCK. lia.
Qed.

(** The cube-compatible case of R8G8B8A8_UNORM is a case of the tree, in the
    2D group's optimal-tiling group. *)
Lemma cubeCase_path_enumerated :
  In (casePath (U := Sample.util) IMAGE_TYPE_2D VK_IMAGE_TILING_OPTIMAL
        (Sample.cubeCase VK_FORMAT_R8G8B8A8_UNORM),
      Sample.cubeCase VK_FORMAT_R8G8B8A8_UNORM)
     (testPaths (createImageSampleCountsTests (U := Sample.util))).
Proof.
  apply in_testPaths.
  exists IMAGE_TYPE_2D, VK_IMAGE_TILING_OPTIMAL, VK_FORMAT_R8G8B8A8_UNORM.
  split; [|split; [|reflexivity]].
  - apply enumerateAllFormatsToTest_in.
    exists (VK_FORMAT_R4G4_UNORM_PACK8, VK_FORMAT_ASTC_12x12_SRGB_BLOCK).
    split; [left; reflexivity|]. simpl.
    unfold VK_FORMAT_R4G4_UNORM_PACK8, VK_FORMAT_ASTC_12x12_SRGB_BLOCK,
      VK_FORMAT_R8G8B8A8_UNORM. lia.
  - rewrite emittedCases_cases. left. reflexivity.
Qed.

Lemma cubeCase_enumerated :
  In (Sample.cubeCase VK_FORMAT_R8G8B8A8_UNORM)
     (testCases (createImageSampleCountsTests (U := Sample.util))).
Proof.
  unfold testCases. apply in_map_iff.
  exists (casePath (U := Sample.util) IMAGE_TYPE_2D VK_IMAGE_TILING_OPTIMAL
            (Sample.cubeCase VK_FORMAT_R8G8B8A8_UNORM),
          Sample.cubeCase VK_FORMAT_R8G8B8A8_UNORM).
  split; [reflexivity | apply cubeCase_path_enumerated].
Qed.

(** C8 (as amended).  When the naming helpers give different names to
    different image types, to different tilings and to different formats of
    the universe, the path of a case (image-type group, tiling group, case
    name) determines the case: two cases of the tree with the same path have
    the same format, tiling, image type, usage flags and variant. *)
Theorem case_path_injective {U : FormatUtil} :
  (forall ty ty', getImageTypeName ty = getImageTypeName ty' -> ty = ty') ->
  (forall tl tl', getImageTilingName tl = getImageTilingName tl' -> tl = tl') ->
  (forall f f',
     In f enumerateAllFormatsToTest -> In f' enumerateAllFormatsToTest ->
     getFormatShortString f = getFormatShortString f' -> f = f') ->
  forall path t path' t',
    In (path, t) (testPaths createImageSampleCountsTests) ->
    In (path', t') (testPaths createImageSampleCountsTests) ->
    path = path' ->
    t = t'.
Proof.
  intros Htype Htiling Hformat path t path' t' Hin Hin' Hpath.
  apply in_testPaths in Hin. destruct Hin as [ty [tl [f [Hf [Ht ->]]]]].
  apply in_testPaths in Hin'. destruct Hin' as [ty' [tl' [f' [Hf' [Ht' ->]]]]].
  unfold casePath in Hpath. injection Hpath as Hty Htl Hname.
  apply Htype in Hty. apply Htiling in Htl. subst ty' tl'.
  apply emittedCases_tag in Ht. destruct Ht as [tag [usage [subtest [Htag ->]]]].
  apply emittedCases_tag in Ht'. destruct Ht' as [tag' [usage' [subtest' [Htag' ->]]]].
  simpl in Hname.
  destruct (variantTags_unique _ _ _ _ _ _ Htag Htag' Hname) as [Hstr [Heqtag Hx]].
  apply Hformat in Hstr; [|assumption..]. subst f' tag'.
  injection Hx as -> ->. reflexivity.
Qed.

Lemma case_path_injective_witness :
  In (casePath (U := Sample.util) IMAGE_TYPE_2D VK_IMAGE_TILING_OPTIMAL
        (Sample.cubeCase VK_FORMAT_R8G8B8A8_UNORM),
      Sample.cubeCase VK_FORMAT_R8G8B8A8_UNORM)
     (testPaths (createImageSampleCountsTests (U := Sample.util)))
  /\ Sample.cubeCase VK_FORMAT_R8G8B8A8_UNORM
     = sampleCountTest "format_37_CUBE_COMPATIBLE_SUBTEST"
         {| format := 37; imageType := VK_IMAGE_TYPE_2D;
            imageTiling := VK_IMAGE_TILING_OPTIMAL; usageFlags := 0 |}
         CUBE_COMPATIBLE_SUBTEST.
Proof.
  split; [apply cubeCase_path_enumerated|].
  exact (case_path_injective (U := Sample.util)
           Sample_type_names Sample_tiling_names Sample_format_names
           _ _ _ _ cubeCase_path_enumerated cubeCase_path_enumerated eq_refl).
Defined.

(** C8 (as stated) fails: the case name alone does not determine the tuple.
    Even with naming helpers that give different names to different image
    types, tilings and formats, the first format of the universe gets the
    same case name in the optimally tiled 1D group and in the optimally tiled
    3D group, for two case descriptions that differ in the image type. *)
Lemma case_name_injective_counterexample :
  ~ (forall U : FormatUtil,
       (forall ty ty', getImageTypeName ty = getImageTypeName ty' -> ty = ty') ->
       (forall tl tl', getImageTilingName tl = getImageTilingName tl' -> tl = tl') ->
       (forall f f',
          In f enumerateAllFormatsToTest -> In f' enumerateAllFormatsToTest ->
          getFormatShortString f = getFormatShortString f' -> f = f') ->
       forall path t path' t',
         In (path, t) (testPaths createImageSampleCountsTests) ->
         In (path', t') (testPaths createImageSampleCountsTests) ->
         SampleCountTest.name t = SampleCountTest.name t' ->
         SampleCountTest.m_caseDef t = SampleCountTest.m_caseDef t'
         /\ SampleCountTest.m_subtest t = SampleCountTest.m_subtest t').
Proof.
  intros H.
  specialize (H Sample.util Sample_type_names Sample_tiling_names Sample_format_names).
  pose (case1 := sampleCountTest
                   (getFormatShortString (FormatUtil := Sample.util)
                      VK_FORMAT_R4G4_UNORM_PACK8
                    ++ "_LINEAR_TILING_AND_NOT_2D_IMAGE_TYPE_SUBTEST")
                   (caseDefOf IMAGE_TYPE_1D VK_IMAGE_TILING_OPTIMAL
                      VK_FORMAT_R4G4_UNORM_PACK8 0)
                   LINEAR_TILING_AND_NOT_2D_IMAGE_TYPE).
  pose (case3 := sampleCountTest
                   (getFormatShortString (FormatUtil := Sample.util)
                      VK_FORMAT_R4G4_UNORM_PACK8
                    ++ "_LINEAR_TILING_AND_NOT_2D_IMAGE_TYPE_SUBTEST")
                   (caseDefOf IMAGE_TYPE_3D VK_IMAGE_TILING_OPTIMAL
                      VK_FORMAT_R4G4_UNORM_PACK8 0)
                   LINEAR_TILING_AND_NOT_2D_IMAGE_TYPE).
  assert (H1 : In (casePath (U := Sample.util) IMAGE_TYPE_1D VK_IMAGE_TILING_OPTIMAL case1,
                   case1)
                  (testPaths (createImageSampleCountsTests (U := Sample.util)))).
  { apply in_testPaths.
    exists IMAGE_TYPE_1D, VK_IMAGE_TILING_OPTIMAL, VK_FORMAT_R4G4_UNORM_PACK8.
    split; [apply first_format_enumerated|]. split; [|reflexivity].
    rewrite emittedCases_cases. left. reflexivity. }
  assert (H3 : In (casePath (U := Sample.util) IMAGE_TYPE_3D VK_IMAGE_TILING_OPTIMAL case3,
                   case3)
                  (testPaths (createImageSampleCountsTests (U := Sample.util)))).
  { apply in_testPaths.
    exists IMAGE_TYPE_3D, VK_IMAGE_TILING_OPTIMAL, VK_FORMAT_R4G4_UNORM_PACK8.
    split; [apply first_format_enumerated|]. split; [|reflexivity].
    rewrite emittedCases_cases. left. reflexivity. }
  destruct (H _ _ _ _ H1 H3 eq_refl) as [Hdef _].
  discriminate Hdef.
Qed.

(** C6.  The cube-compatible case of R8G8B8A8_UNORM, a case of the tree, on a
    device that supports every configuration but cube-compatible images: the
    probe, which asks without the cube-compatible flag, raises nothing; the
    check's own query answers that the format is not supported; the check
    fails; and the case is reported as a failure, not skipped. *)
Theorem cube_unsupported_reported_as_failure :
  In (Sample.cubeCase VK_FORMAT_R8G8B8A8_UNORM)
     (testCases (createImageSampleCountsTests (U := Sample.util))) /\
  SampleCountTest.checkSupport (Sample.cubeCase VK_FORMAT_R8G8B8A8_UNORM)
    Sample.deviceWithoutCube = Return tt /\
  fst (subtestQuery Sample.deviceWithoutCube
         (SampleCountTest.m_caseDef (Sample.cubeCase VK_FORMAT_R8G8B8A8_UNORM))
         CUBE_COMPATIBLE_SUBTEST) = VK_ERROR_FORMAT_NOT_SUPPORTED /\
  SampleCountTestInstance.iterate (U := Sample.util)
    (SampleCountTest.createInstance (Sample.cubeCase VK_FORMAT_R8G8B8A8_UNORM)
       Sample.deviceWithoutCube) = fail "FAILED" /\
  runCase (U := Sample.util) Sample.deviceWithoutCube
    (Sample.cubeCase VK_FORMAT_R8G8B8A8_UNORM) = Fail.
Proof.
  split; [apply cubeCase_enumerated|].
  split; [|split; [|split]]; reflexivity.
Qed.

(** * Further properties *)

(** ** Extension entry points *)

Section InitExtensionsFacts.

Import InitExtensions.

Variable loader : FunctionLoader.

(** The fragment is the table run block by block. *)
Lemma initExtensions_extensions (gl : Functions) (extSet : list string) :
  initExtensions gl loader extSet = bindExtensions loader extSet gl extensions.
Proof. reflexivity. Qed.

Lemma bindEntries_app gl (entries entries' : list (string * string)) :
  bindEntries loader (bindEntries loader gl entries) entries'
  = bindEntries loader gl (entries ++ entries').
Proof. unfold bindEntries. symmetry. apply fold_left_app. Qed.

Lemma bindExtensions_boundMembers extSet gl table :
  bindExtensions loader extSet gl table
  = bindEntries loader gl (boundMembers extSet table).
Proof.
  revert gl. induction table as [|extension table IH]; intros gl; [reflexivity|].
  unfold bindExtensions, boundMembers in *. cbn [fold_left flat_map].
  rewrite IH. destruct (contains extSet (fst extension)).
  - apply bindEntries_app.
  - reflexivity.
Qed.

Lemma bindEntries_other gl entries member :
  ~ In member (map fst entries) -> bindEntries loader gl entries member = gl member.
Proof.
  revert gl. induction entries as [|entry entries IH]; intros gl Hnot; [reflexivity|].
  unfold bindEntries in *. cbn [fold_left]. rewrite IH.
  - unfold assign. destruct (String.eqb_spec member (fst entry)) as [E|E]; [|reflexivity].
    exfalso. apply Hnot. left. symmetry. exact E.
  - intros H. apply Hnot. right. exact H.
Qed.

Lemma bindEntries_in gl entries member name :
  NoDup (map fst entries) -> In (member, name) entries ->
  bindEntries loader gl entries member = loader name.
Proof.
  revert gl. induction entries as [|entry entries IH]; intros gl Hnd Hin; [destruct Hin|].
  cbn [map] in Hnd. apply NoDup_cons_iff in Hnd. destruct Hnd as [Hfresh Hnd].
  unfold bindEntries in *. cbn [fold_left]. destruct Hin as [->|Hin].
  - fold (bindEntries loader (assign gl (fst (member, name)) (loader (snd (member, name))))
            entries).
    rewrite bindEntries_other by exact Hfresh.
    unfold assign. cbn [fst snd]. rewrite String.eqb_refl. reflexivity.
  - apply IH; assumption.
Qed.

Lemma boundMembers_incl extSet table entry :
  In entry (boundMembers extSet table) -> In entry (flat_map snd table).
Proof.
  unfold boundMembers. rewrite !in_flat_map.
  intros [extension [Hin H]]. exists extension. split; [exact Hin|].
  destruct (contains extSet (fst extension)); [exact H | destruct H].
Qed.

Lemma NoDup_app_disjoint {A : Type} (l l' : list A) :
  NoDup (l ++ l') -> forall a, In a l -> ~ In a l'.
Proof.
  induction l as [|x l IH]; intros Hnd a Hin; [destruct Hin|].
  cbn [app] in Hnd. apply NoDup_cons_iff in Hnd. destruct Hnd as [Hfresh Hnd].
  destruct Hin as [->|Hin].
  - intros H. apply Hfresh. apply in_or_app. right. exact H.
  - apply IH; assumption.
Qed.

Lemma boundMembers_NoDup extSet table :
  NoDup (map fst (flat_map snd table)) -> NoDup (map fst (boundMembers extSet table)).
Proof.
  induction table as [|extension table IH]; intros Hnd; [constructor|].
  cbn [flat_map] in Hnd. rewrite map_app in Hnd.
  unfold boundMembers in *. cbn [flat_map].
  destruct (contains extSet (fst extension)).
  - rewrite map_app. apply NoDup_app.
    + apply (NoDup_app_remove_r _ _ Hnd).
    + apply IH. apply (NoDup_app_remove_l _ _ Hnd).
    + intros member Hin Hin'. apply (NoDup_app_disjoint _ _ Hnd member Hin).
      apply in_map_iff in Hin'. destruct Hin' as [entry [<- Hentry]].
      apply in_map. apply (boundMembers_incl extSet table). exact Hentry.
  - apply IH. apply (NoDup_app_remove_l _ _ Hnd).
Qed.

(** No member is bound by two lines of the fragment. *)
Lemma extensions_members_distinct : NoDup (map fst (flat_map snd extensions)).
Proof.
  assert (E : nodup string_dec (map fst (flat_map snd extensions))
              = map fst (flat_map snd extensions)) by (vm_compute; reflexivity).
  rewrite <- E. apply NoDup_nodup.
Qed.

Lemma in_boundMembers extSet extension entries entry :
  In (extension, entries) extensions -> contains extSet extension = true ->
  In entry entries -> In entry (boundMembers extSet extensions).
Proof.
  intros Hext Hcontains Hentry. unfold boundMembers. apply in_flat_map.
  exists (extension, entries). split; [exact Hext|].
  cbn [fst snd]. rewrite Hcontains. exact Hentry.
Qed.

(** X1.  When an advertised extension lists a member with an entry-point
    name, the fragment leaves in that member what the loader returns for that
    name: no later line overwrites it. *)
Theorem initExtensions_binds gl extSet extension entries member name :
  In (extension, entries) extensions ->
  contains extSet extension = true ->
  In (member, name) entries ->
  initExtensions gl loader extSet member = loader name.
Proof.
  intros Hext Hcontains Hentry.
  rewrite initExtensions_extensions, bindExtensions_boundMembers.
  apply bindEntries_in.
  - apply boundMembers_NoDup. apply extensions_members_distinct.
  - apply (in_boundMembers extSet extension entries); assumption.
Qed.

(** X2.  A member that no advertised extension lists keeps the pointer it
    had; in particular the fragment changes nothing when none of its ten
    extensions is advertised. *)
Theorem initExtensions_keeps gl extSet member :
  (forall extension entries,
     In (extension, entries) extensions -> contains extSet extension = true ->
     ~ In member (map fst entries)) ->
  initExtensions gl loader extSet member = gl member.
Proof.
  intros Hnot.
  rewrite initExtensions_extensions, bindExtensions_boundMembers.
  apply bindEntries_other. intros Hin.
  apply in_map_iff in Hin. destruct Hin as [entry [<- Hentry]].
  unfold boundMembers in Hentry. apply in_flat_map in Hentry.
  destruct Hentry as [[extension entries] [Hext H]]. cbn [fst snd] in H.
  destruct (contains extSet extension) eqn:Hcontains; [|destruct H].
  apply (Hnot extension entries Hext Hcontains). apply in_map. exact H.
Qed.

(** X3.  Running the fragment again with the same loader and extension set
    changes nothing. *)
Theorem initExtensions_idempotent gl extSet member :
  initExtensions (initExtensions gl loader extSet) loader extSet member
  = initExtensions gl loader extSet member.
Proof.
  rewrite !initExtensions_extensions, !bindExtensions_boundMembers.
  destruct (in_dec string_dec member (map fst (boundMembers extSet extensions)))
    as [Hin|Hnot].
  - apply in_map_iff in Hin. destruct Hin as [[member' name] [E Hentry]].
    cbn [fst] in E. subst member'.
    pose proof (boundMembers_NoDup extSet extensions extensions_members_distinct) as Hnd.
    rewrite !(bindEntries_in _ _ member name Hnd Hentry). reflexivity.
  - rewrite (bindEntries_other _ _ member Hnot). reflexivity.
Qed.

End InitExtensionsFacts.

Lemma initExtensions_binds_witness :
  InitExtensions.initExtensions (fun _ => 0)
    (fun name => Z.of_nat (String.length name)) ["GL_EXT_texture_buffer"] "texBufferRange"
  = 19.
Proof.
  apply (initExtensions_binds (fun name => Z.of_nat (String.length name)) (fun _ => 0)
           ["GL_EXT_texture_buffer"] "GL_EXT_texture_buffer"
           [("texBuffer", "glTexBufferEXT"); ("texBufferRange", "glTexBufferRangeEXT")]
           "texBufferRange" "glTexBufferRangeEXT").
  - simpl. tauto.
  - reflexivity.
  - simpl. tauto.
Defined.

Lemma initExtensions_keeps_witness :
  InitExtensions.initExtensions (fun _ => 7)
    (fun name => Z.of_nat (String.length name)) ["GL_EXT_texture_buffer"] "getPointerv"
  = 7.
Proof.
  apply (initExtensions_keeps (fun name => Z.of_nat (String.length name)) (fun _ => 7)
           ["GL_EXT_texture_buffer"] "getPointerv").
  intros extension entries Hext Hcontains.
  simpl in Hext.
  repeat (destruct Hext as [Hext|Hext];
          [injection Hext as <- <-; first [discriminate Hcontains
                                          | simpl; intuition discriminate]|]).
  destruct Hext.
Defined.

(** ** Sample-count sets *)

Lemma isSuperset_refl (a : VkSampleCountFlags) : isSuperset a a = true.
Proof. unfold isSuperset. rewrite Z.land_diag. apply Z.eqb_refl. Qed.

Lemma isSuperset_trans (a b c : VkSampleCountFlags) :
  isSuperset a b = true -> isSuperset b c = true -> isSuperset a c = true.
Proof.
  rewrite !isSuperset_bits. intros Hab Hbc n Hn Hc.
  apply Hab; [exact Hn|]. apply Hbc; assumption.
Qed.

Lemma isSuperset_antisym (a b : VkSampleCountFlags) :
  isSuperset a b = true -> isSuperset b a = true -> a = b.
Proof.
  rewrite !isSuperset_bits. intros Hab Hba. apply Z.bits_inj'. intros n Hn.
  specialize (Hab n Hn). specialize (Hba n Hn).
  destruct (Z.testbit a n), (Z.testbit b n); try reflexivity.
  - symmetry. apply Hba. reflexivity.
  - apply Hab. reflexivity.
Qed.

Lemma andAll_lower_bound (masks : list VkSampleCountFlags) (m : VkSampleCountFlags) :
  In m masks -> isSuperset m (andAll masks) = true.
Proof.
  intros Hin. apply isSuperset_bits. intros n Hn.
  rewrite andAll_bits by exact Hn. rewrite forallb_forall.
  intros Hall. apply Hall. exact Hin.
Qed.

Lemma andAll_greatest (masks : list VkSampleCountFlags) (m : VkSampleCountFlags) :
  (forall r, In r masks -> isSuperset r m = true) -> isSuperset (andAll masks) m = true.
Proof.
  intros Hall. apply isSuperset_bits. intros n Hn Hm.
  rewrite andAll_bits by exact Hn. apply forallb_forall. intros r Hr.
  specialize (Hall r Hr). rewrite isSuperset_bits in Hall. apply Hall; assumption.
Qed.

Lemma andAll_Permutation (l l' : list VkSampleCountFlags) :
  Permutation l l' -> andAll l = andAll l'.
Proof.
  induction 1 as [|x l l' _ IH|x y l|l l' l'' _ IH _ IH']; simpl.
  - reflexivity.
  - rewrite IH. reflexivity.
  - rewrite !Z.land_assoc, (Z.land_comm y x). reflexivity.
  - rewrite IH. exact IH'.
Qed.

(** X4.  [isSuperset] orders the sample-count sets: it is reflexive,
    transitive and antisymmetric, and it holds exactly when every sample
    count of the second set is one of the first. *)
Theorem isSuperset_partial_order :
  (forall a, isSuperset a a = true) /\
  (forall a b c, isSuperset a b = true -> isSuperset b c = true -> isSuperset a c = true) /\
  (forall a b, isSuperset a b = true -> isSuperset b a = true -> a = b) /\
  (forall a b,
     isSuperset a b = true <->
     forall n, 0 <= n -> Z.testbit b n = true -> Z.testbit a n = true).
Proof.
  split; [exact isSuperset_refl|].
  split; [exact isSuperset_trans|].
  split; [exact isSuperset_antisym | exact isSuperset_bits].
Qed.

Lemma isSuperset_partial_order_witness : isSuperset 15 3 = true.
Proof.
  apply (proj1 (proj2 isSuperset_partial_order) 15 7 3); reflexivity.
Defined.

(** X5.  The loop that intersects the collected masks, started from the first
    of them, gives the same set whatever the order in which the masks were
    collected. *)
Theorem intersectAll_order_independent
    (first first' : VkSampleCountFlags) (rest rest' : list VkSampleCountFlags) :
  Permutation (first :: rest) (first' :: rest') ->
  SampleCountTestInstance.intersectAll (first :: rest) first
  = SampleCountTestInstance.intersectAll (first' :: rest') first'.
Proof.
  intros Hperm. rewrite !intersectAll_head. apply andAll_Permutation. exact Hperm.
Qed.

Lemma intersectAll_order_independent_witness :
  SampleCountTestInstance.intersectAll [15; 7; 5] 15
  = SampleCountTestInstance.intersectAll [5; 15; 7] 5.
Proof.
  apply intersectAll_order_independent.
  apply Permutation_sym. apply (Permutation_cons_append [15; 7] 5).
Defined.

Section ExpectedSet.

Context {U : FormatUtil}.
Variable self : SampleCountTestInstance.t.

Lemma expectedFlags_andAll p p12 :
  contributing self p p12 <> [] ->
  SampleCountTestInstance.expectedFlags self p p12 = andAll (contributing self p p12).
Proof.
  intros Hne. rewrite expectedFlags_combine.
  destruct (contributing self p p12) as [|first rest]; [congruence|].
  apply combine_nonempty.
Qed.

(** X6.  When some usage bit contributes, the expected set is the greatest
    set contained in every contributing result: each contributing result is a
    superset of it, and it is a superset of every set that all of them
    contain. *)
Theorem expectedFlags_greatest_lower_bound p p12 :
  contributing self p p12 <> [] ->
  (forall result, In result (contributing self p p12) ->
     isSuperset result (SampleCountTestInstance.expectedFlags self p p12) = true) /\
  (forall m,
     (forall result, In result (contributing self p p12) -> isSuperset result m = true) ->
     isSuperset (SampleCountTestInstance.expectedFlags self p p12) m = true).
Proof.
  intros Hne. rewrite (expectedFlags_andAll p p12 Hne). split.
  - intros result Hin. apply andAll_lower_bound. exact Hin.
  - intros m Hall. apply andAll_greatest. exact Hall.
Qed.

(** X7.  With a successful query and an attachment feature, the check passes
    as soon as the reported set is a superset of one contributing result:
    with several usage bits the check asks for less than any one of them
    would. *)
Theorem checkUsageFlags_superset_of_one_result (result : VkSampleCountFlags) :
  fst (usageQuery self) = VK_SUCCESS ->
  hasAttachmentFeature self = true ->
  In result (contributing self (deviceProperties self) (deviceProperties12 self)) ->
  isSuperset (reportedSampleCounts self) result = true ->
  SampleCountTestInstance.checkUsageFlags self = true.
Proof.
  intros Hok Hgate Hin Hsup.
  rewrite checkUsageFlags_expected by assumption.
  apply (isSuperset_trans _ result); [exact Hsup|].
  rewrite expectedFlags_andAll.
  - apply andAll_lower_bound. exact Hin.
  - intros E. rewrite E in Hin. destruct Hin.
Qed.

(** A contributing result of 0 makes the check pass. *)
Lemma checkUsageFlags_zero_member :
  fst (usageQuery self) = VK_SUCCESS ->
  hasAttachmentFeature self = true ->
  In 0 (contributing self (deviceProperties self) (deviceProperties12 self)) ->
  SampleCountTestInstance.checkUsageFlags self = true.
Proof.
  intros Hok Hgate Hin.
  rewrite checkUsageFlags_expected by assumption.
  rewrite expectedFlags_andAll.
  - rewrite andAll_zero by exact Hin. apply isSuperset_zero.
  - intros E. rewrite E in Hin. destruct Hin.
Qed.

(** X8.  For a compressed format the colour, depth/stencil and sampled
    derivations are all 0, so, with a successful query and an attachment
    feature, a case whose usage holds the colour-attachment, the
    depth/stencil-attachment or the sampled bit passes whatever set the
    device reports. *)
Theorem checkUsageFlags_compressed_format :
  isCompressedFormat (format (SampleCountTestInstance.m_caseDef self)) = true ->
  fst (usageQuery self) = VK_SUCCESS ->
  hasAttachmentFeature self = true ->
  usageHas self VK_IMAGE_USAGE_COLOR_ATTACHMENT_BIT
  || usageHas self VK_IMAGE_USAGE_DEPTH_STENCIL_ATTACHMENT_BIT
  || usageHas self VK_IMAGE_USAGE_SAMPLED_BIT = true ->
  SampleCountTestInstance.getColorSampleCounts self
    (deviceProperties self) (deviceProperties12 self) = 0
  /\ SampleCountTestInstance.getDepthStencilSampleCounts self (deviceProperties self) = 0
  /\ SampleCountTestInstance.getSampledSampleCounts self (deviceProperties self) = 0
  /\ SampleCountTestInstance.checkUsageFlags self = true.
Proof.
  intros Hc Hok Hgate Hbits.
  assert (Hcolor : SampleCountTestInstance.getColorSampleCounts self
                     (deviceProperties self) (deviceProperties12 self) = 0).
  { unfold SampleCountTestInstance.getColorSampleCounts. rewrite Hc. reflexivity. }
  assert (Hdepth : SampleCountTestInstance.getDepthStencilSampleCounts self
                     (deviceProperties self) = 0).
  { unfold SampleCountTestInstance.getDepthStencilSampleCounts. rewrite Hc. reflexivity. }
  assert (Hsampled : SampleCountTestInstance.getSampledSampleCounts self
                       (deviceProperties self) = 0).
  { unfold SampleCountTestInstance.getSampledSampleCounts. rewrite Hc. reflexivity. }
  split; [exact Hcolor|]. split; [exact Hdepth|]. split; [exact Hsampled|].
  apply checkUsageFlags_zero_member; try assumption.
  unfold contributing, perBitResults. rewrite Hcolor, Hdepth, Hsampled.
  unfold usageHas in Hbits. cbn [filter fst].
  apply orb_true_iff in Hbits. destruct Hbits as [Hbits|Hs].
  - apply orb_true_iff in Hbits. destruct Hbits as [Hcb|Hd].
    + rewrite Hcb. left. reflexivity.
    + rewrite Hd.
      destruct (nonzero (Z.land _ VK_IMAGE_USAGE_COLOR_ATTACHMENT_BIT));
        simpl; tauto.
  - rewrite Hs.
    destruct (nonzero (Z.land _ VK_IMAGE_USAGE_COLOR_ATTACHMENT_BIT));
      destruct (nonzero (Z.land _ VK_IMAGE_USAGE_DEPTH_STENCIL_ATTACHMENT_BIT));
      simpl; tauto.
Qed.

End ExpectedSet.

Lemma expectedFlags_greatest_lower_bound_witness :
  isSuperset 15
    (SampleCountTestInstance.expectedFlags (U := Sample.util)
       (Sample.instance (Sample.device 128 7) VK_FORMAT_R8G8B8A8_UNORM 20)
       Sample.properties2 Sample.properties12) = true.
Proof.
  apply (proj1 (expectedFlags_greatest_lower_bound (U := Sample.util)
                  (Sample.instance (Sample.device 128 7) VK_FORMAT_R8G8B8A8_UNORM 20)
                  Sample.properties2 Sample.properties12
                  ltac:(discriminate))).
  left. reflexivity.
Defined.

Lemma checkUsageFlags_superset_of_one_result_witness :
  SampleCountTestInstance.checkUsageFlags (U := Sample.util)
    (Sample.instance (Sample.device 128 15) VK_FORMAT_R8G8B8A8_UNORM 20) = true.
Proof.
  apply (checkUsageFlags_superset_of_one_result (U := Sample.util)
           (Sample.instance (Sample.device 128 15) VK_FORMAT_R8G8B8A8_UNORM 20) 15).
  - reflexivity.
  - reflexivity.
  - left. reflexivity.
  - reflexivity.
Defined.

Lemma checkUsageFlags_compressed_format_witness :
  SampleCountTestInstance.checkUsageFlags (U := Sample.util)
    (Sample.instance (Sample.device 128 64) VK_FORMAT_BC1_RGB_UNORM_BLOCK 12) = true.
Proof.
  apply (checkUsageFlags_compressed_format (U := Sample.util)
           (Sample.instance (Sample.device 128 64) VK_FORMAT_BC1_RGB_UNORM_BLOCK 12));
    reflexivity.
Defined.

(** ** Per-usage derivations by channel order *)

Section DerivationsByOrder.

Context {U : FormatUtil}.
Variable self : SampleCountTestInstance.t.
Variable p : VkPhysicalDeviceProperties2.

(** X9.  [getSampledSampleCounts] by channel order: 0 for a compressed or
    chroma-subsampled format; otherwise the sampled colour limit for every
    order other than D, DS and S, whatever the numeric class of the format;
    the sampled depth limit for D and DS; and for S the sampled integer limit
    when the format is a signed or unsigned integer format, 0 when not. *)
Theorem getSampledSampleCounts_by_order :
  let f := format (SampleCountTestInstance.m_caseDef self) in
  let order := TextureFormat.order (mapVkFormat f) in
  let result := SampleCountTestInstance.getSampledSampleCounts self p in
  (isCompressedFormat f = true \/ isYCbCrFormat f = true -> result = 0) /\
  (isCompressedFormat f = false -> isYCbCrFormat f = false ->
   (order <> TextureFormat.D /\ order <> TextureFormat.DS /\ order <> TextureFormat.S ->
    result = sampledImageColorSampleCounts (limits (properties p)))
   /\ (order = TextureFormat.D \/ order = TextureFormat.DS ->
       result = sampledImageDepthSampleCounts (limits (properties p)))
   /\ (order = TextureFormat.S ->
       result = if isIntFormat f || isUintFormat f
                then sampledImageIntegerSampleCounts (limits (properties p))
                else 0)).
Proof.
  cbv zeta. rewrite getSampledSampleCounts_cases. split.
  - intros [-> | ->]; [reflexivity|]. rewrite orb_true_r. reflexivity.
  - intros -> ->. cbn [orb]. split; [|split].
    + intros [HD [HDS HS]].
      destruct (TextureFormat.order _); try reflexivity; congruence.
    + intros [-> | ->]; reflexivity.
    + intros ->. reflexivity.
Qed.

(** X10.  [getDepthStencilSampleCounts] by channel order: 0 for a compressed
    format; otherwise the framebuffer depth limit for order D, the
    framebuffer stencil limit for order S, and 0 for every other order. *)
Theorem getDepthStencilSampleCounts_by_order :
  let f := format (SampleCountTestInstance.m_caseDef self) in
  let order := TextureFormat.order (mapVkFormat f) in
  let result := SampleCountTestInstance.getDepthStencilSampleCounts self p in
  (isCompressedFormat f = true -> result = 0) /\
  (isCompressedFormat f = false ->
   (order = TextureFormat.D ->
    result = framebufferDepthSampleCounts (limits (properties p)))
   /\ (order = TextureFormat.S ->
       result = framebufferStencilSampleCounts (limits (properties p)))
   /\ (order <> TextureFormat.D -> order <> TextureFormat.S -> result = 0)).
Proof.
  cbv zeta. rewrite getDepthStencilSampleCounts_cases. split.
  - intros ->. reflexivity.
  - intros ->. split; [|split].
    + intros ->. reflexivity.
    + intros ->. reflexivity.
    + intros HD HS. destruct (TextureFormat.order _); try reflexivity; congruence.
Qed.

End DerivationsByOrder.

Lemma getSampledSampleCounts_by_order_witness :
  SampleCountTestInstance.getSampledSampleCounts (U := Sample.util)
    (Sample.instance (Sample.device 128 1) VK_FORMAT_S8_UINT 4) Sample.properties2 = 1
  /\ SampleCountTestInstance.getSampledSampleCounts (U := Sample.util)
       (Sample.instance (Sample.device 128 1) VK_FORMAT_D16_UNORM 4) Sample.properties2 = 5.
Proof.
  split.
  - apply (proj2 (getSampledSampleCounts_by_order (U := Sample.util)
                    (Sample.instance (Sample.device 128 1) VK_FORMAT_S8_UINT 4)
                    Sample.properties2)); reflexivity.
  - apply (proj2 (getSampledSampleCounts_by_order (U := Sample.util)
                    (Sample.instance (Sample.device 128 1) VK_FORMAT_D16_UNORM 4)
                    Sample.properties2)); try reflexivity.
    left. reflexivity.
Defined.

Lemma getDepthStencilSampleCounts_by_order_witness :
  SampleCountTestInstance.getDepthStencilSampleCounts (U := Sample.util)
    (Sample.instance (Sample.device 512 1) VK_FORMAT_S8_UINT 32) Sample.properties2 = 3
  /\ SampleCountTestInstance.getDepthStencilSampleCounts (U := Sample.util)
       (Sample.instance (Sample.device 512 1) VK_FORMAT_D16_UNORM 32) Sample.properties2 = 7.
Proof.
  split.
  - apply (proj2 (getDepthStencilSampleCounts_by_order (U := Sample.util)
                    (Sample.instance (Sample.device 512 1) VK_FORMAT_S8_UINT 32)
                    Sample.properties2)); reflexivity.
  - apply (proj2 (getDepthStencilSampleCounts_by_order (U := Sample.util)
                    (Sample.instance (Sample.device 512 1) VK_FORMAT_D16_UNORM 32)
                    Sample.properties2)); reflexivity.
Defined.

(** ** Check variants *)

Lemma nonzero_lor (x y : Z) : nonzero (Z.lor x y) = nonzero x || nonzero y.
Proof.
  unfold nonzero. rewrite <- negb_andb. f_equal.
  destruct (Z.eqb_spec (Z.lor x y) 0) as [E|E].
  - apply Z.lor_eq_0_iff in E. destruct E as [-> ->]. reflexivity.
  - symmetry. apply andb_false_iff.
    destruct (Z.eqb_spec x 0) as [Ex|Ex]; [|left; reflexivity].
    destruct (Z.eqb_spec y 0) as [Ey|Ey]; [|right; reflexivity].
    exfalso. apply E. apply Z.lor_eq_0_iff. split; assumption.
Qed.

Lemma land_1_cases (x : Z) : Z.land x 1 = 0 \/ Z.land x 1 = 1.
Proof.
  change 1 with (Z.ones 1) at 1 2. rewrite Z.land_ones by lia.
  change (2 ^ 1) with 2. pose proof (Z.mod_pos_bound x 2). lia.
Qed.

(** Holding the single-sample bit is being a superset of [{1}]. *)
Lemma isSuperset_one (x : VkSampleCountFlags) :
  isSuperset x VK_SAMPLE_COUNT_1_BIT = nonzero (Z.land x VK_SAMPLE_COUNT_1_BIT).
Proof.
  unfold isSuperset, nonzero, VK_SAMPLE_COUNT_1_BIT.
  destruct (land_1_cases x) as [E|E]; rewrite E; reflexivity.
Qed.

Section CheckVariants.

Context {U : FormatUtil}.
Variable self : SampleCountTestInstance.t.

(** The two feature tests of [checkOptimalTilingFeatures] amount to the mask
    test of [checkUsageFlags]. *)
Lemma hasAttachmentFeature_split :
  hasAttachmentFeature self =
  nonzero (Z.land (optimalTilingFeatures
                     (getPhysicalDeviceFormatProperties
                        (SampleCountTestInstance.m_context self)
                        (format (SampleCountTestInstance.m_caseDef self))))
                  VK_FORMAT_FEATURE_COLOR_ATTACHMENT_BIT)
  || nonzero (Z.land (optimalTilingFeatures
                        (getPhysicalDeviceFormatProperties
                           (SampleCountTestInstance.m_context self)
                           (format (SampleCountTestInstance.m_caseDef self))))
                     VK_FORMAT_FEATURE_DEPTH_STENCIL_ATTACHMENT_BIT).
Proof.
  unfold hasAttachmentFeature. rewrite Z.land_lor_distr_r. apply nonzero_lor.
Qed.

Lemma checkYCBCRConversion_verdict :
  SampleCountTestInstance.checkYCBCRConversion self = true <->
  fst (plainQuery self) = VK_SUCCESS
  /\ sampleCounts (snd (plainQuery self)) = VK_SAMPLE_COUNT_1_BIT.
Proof.
  unfold SampleCountTestInstance.checkYCBCRConversion. fold (plainQuery self).
  rewrite <- !Z.eqb_eq.
  destruct (fst (plainQuery self) =? VK_SUCCESS);
    destruct (sampleCounts (snd (plainQuery self)) =? VK_SAMPLE_COUNT_1_BIT);
    simpl; intuition discriminate.
Qed.

Lemma checkOneSampleCountPresent_verdict :
  SampleCountTestInstance.checkOneSampleCountPresent self =
  (fst (plainQuery self) =? VK_SUCCESS)
  && isSuperset (sampleCounts (snd (plainQuery self))) VK_SAMPLE_COUNT_1_BIT.
Proof.
  unfold SampleCountTestInstance.checkOneSampleCountPresent. fold (plainQuery self).
  rewrite isSuperset_one.
  destruct (fst (plainQuery self) =? VK_SUCCESS); [|reflexivity].
  simpl. destruct (nonzero _); reflexivity.
Qed.

Lemma checkOptimalTilingFeatures_verdict_aux :
  fst (plainQuery self) = VK_SUCCESS ->
  sampleCounts (snd (plainQuery self)) = VK_SAMPLE_COUNT_1_BIT ->
  SampleCountTestInstance.checkOptimalTilingFeatures self = true.
Proof.
  intros Hok Hone.
  unfold SampleCountTestInstance.checkOptimalTilingFeatures. fold (plainQuery self).
  rewrite Hok, Hone. simpl. rewrite !andb_false_r. reflexivity.
Qed.

(** X11.  The optimal-tiling-features check passes exactly when the query
    with no usage flags succeeded and either the format has an attachment
    feature (the same condition as the gate of the usage-flags check) or the
    reported set is [{1}]. *)
Theorem checkOptimalTilingFeatures_verdict :
  SampleCountTestInstance.checkOptimalTilingFeatures self = true <->
  fst (plainQuery self) = VK_SUCCESS
  /\ (hasAttachmentFeature self = true
      \/ sampleCounts (snd (plainQuery self)) = VK_SAMPLE_COUNT_1_BIT).
Proof.
  rewrite hasAttachmentFeature_split.
  unfold SampleCountTestInstance.checkOptimalTilingFeatures. fold (plainQuery self).
  rewrite <- !Z.eqb_eq.
  destruct (fst (plainQuery self) =? VK_SUCCESS);
    destruct (sampleCounts (snd (plainQuery self)) =? VK_SAMPLE_COUNT_1_BIT);
    destruct (nonzero (Z.land _ VK_FORMAT_FEATURE_COLOR_ATTACHMENT_BIT));
    destruct (nonzero (Z.land _ VK_FORMAT_FEATURE_DEPTH_STENCIL_ATTACHMENT_BIT));
    simpl; intuition discriminate.
Qed.

(** X12.  On a case without usage flags the usage-flags check is the
    one-sample-count-present check when the format has an attachment
    feature, and the exact-[{1}] check of the YCbCr variant when it has
    none. *)
Theorem checkUsageFlags_without_usage :
  usageFlags (SampleCountTestInstance.m_caseDef self) = 0 ->
  (hasAttachmentFeature self = true ->
   SampleCountTestInstance.checkUsageFlags self
   = SampleCountTestInstance.checkOneSampleCountPresent self)
  /\ (hasAttachmentFeature self = false ->
      SampleCountTestInstance.checkUsageFlags self
      = SampleCountTestInstance.checkYCBCRConversion self).
Proof.
  intros Husage.
  assert (Hq : usageQuery self = plainQuery self).
  { unfold usageQuery, plainQuery. rewrite Husage. reflexivity. }
  split; intros Hgate.
  - rewrite checkOneSampleCountPresent_verdict.
    destruct (Z.eqb_spec (fst (plainQuery self)) VK_SUCCESS) as [Hok|Hfail].
    + rewrite checkUsageFlags_expected by (rewrite ?Hq; assumption).
      unfold reportedSampleCounts. rewrite Hq. simpl. f_equal.
      rewrite expectedFlags_combine. unfold contributing. rewrite Husage. reflexivity.
    + unfold SampleCountTestInstance.checkUsageFlags. fold (usageQuery self).
      rewrite Hq. apply Z.eqb_neq in Hfail. rewrite Hfail. reflexivity.
  - rewrite checkUsageFlags_gate by exact Hgate.
    unfold reportedSampleCounts. rewrite Hq.
    unfold SampleCountTestInstance.checkYCBCRConversion. fold (plainQuery self).
    destruct (fst (plainQuery self) =? VK_SUCCESS);
      destruct (sampleCounts (snd (plainQuery self)) =? VK_SAMPLE_COUNT_1_BIT);
      reflexivity.
Qed.

(** X13.  The exact-[{1}] check is the strictest of the checks that ask with
    no usage flags: where the YCbCr check passes, the
    optimal-tiling-features check and the one-sample-count-present check pass
    as well. *)
Theorem checkYCBCRConversion_strictest :
  SampleCountTestInstance.checkYCBCRConversion self = true ->
  SampleCountTestInstance.checkOptimalTilingFeatures self = true
  /\ SampleCountTestInstance.checkOneSampleCountPresent self = true.
Proof.
  intros H. apply checkYCBCRConversion_verdict in H. destruct H as [Hok Hone].
  split.
  - apply checkOptimalTilingFeatures_verdict_aux; assumption.
  - rewrite checkOneSampleCountPresent_verdict, Hok, Hone. reflexivity.
Qed.

End CheckVariants.

Lemma checkUsageFlags_without_usage_witness :
  SampleCountTestInstance.checkUsageFlags (U := Sample.util)
    (Sample.instance (Sample.device 128 3) VK_FORMAT_R8G8B8A8_UNORM 0)
  = SampleCountTestInstance.checkOneSampleCountPresent
      (Sample.instance (Sample.device 128 3) VK_FORMAT_R8G8B8A8_UNORM 0).
Proof.
  apply (proj1 (checkUsageFlags_without_usage (U := Sample.util)
                  (Sample.instance (Sample.device 128 3) VK_FORMAT_R8G8B8A8_UNORM 0)
                  eq_refl)).
  reflexivity.
Defined.

Lemma checkYCBCRConversion_strictest_witness :
  SampleCountTestInstance.checkOptimalTilingFeatures
    (Sample.instance (Sample.device 0 1) VK_FORMAT_G8B8G8R8_422_UNORM 0) = true
  /\ SampleCountTestInstance.checkOneSampleCountPresent
       (Sample.instance (Sample.device 0 1) VK_FORMAT_G8B8G8R8_422_UNORM 0) = true.
Proof.
  apply (checkYCBCRConversion_strictest
           (Sample.instance (Sample.device 0 1) VK_FORMAT_G8B8G8R8_422_UNORM 0)).
  reflexivity.
Defined.

Section LinearCheck.

Variable self : SampleCountTestInstance.t.

(** X14.  The linear-tiling-or-not-2D check never passes on a 2D, optimally
    tiled case; on every other case it is the exact-[{1}] check of the YCbCr
    variant. *)
Theorem checkLinearTilingAndNot2DImageType_verdict :
  (is2DOptimal (SampleCountTestInstance.m_caseDef self) = true ->
   SampleCountTestInstance.checkLinearTilingAndNot2DImageType self = false)
  /\ (is2DOptimal (SampleCountTestInstance.m_caseDef self) = false ->
      SampleCountTestInstance.checkLinearTilingAndNot2DImageType self
      = SampleCountTestInstance.checkYCBCRConversion self).
Proof.
  unfold is2DOptimal, SampleCountTestInstance.checkLinearTilingAndNot2DImageType,
    SampleCountTestInstance.checkYCBCRConversion.
  fold (plainQuery self).
  destruct (imageType (SampleCountTestInstance.m_caseDef self));
    destruct (imageTiling (SampleCountTestInstance.m_caseDef self));
    destruct (fst (plainQuery self) =? VK_SUCCESS);
    destruct (sampleCounts (snd (plainQuery self)) =? VK_SAMPLE_COUNT_1_BIT);
    simpl; split; intros H; try reflexivity; discriminate H.
Qed.

End LinearCheck.

Lemma checkLinearTilingAndNot2DImageType_verdict_witness :
  SampleCountTestInstance.checkLinearTilingAndNot2DImageType
    (Sample.instance (Sample.device 0 1) VK_FORMAT_R8G8B8A8_UNORM 0) = false.
Proof.
  apply (proj1 (checkLinearTilingAndNot2DImageType_verdict
                  (Sample.instance (Sample.device 0 1) VK_FORMAT_R8G8B8A8_UNORM 0))).
  reflexivity.
Defined.

(** X15.  A case passes only if the query of its own variant succeeded: each
    of the six checks answers false on every other status. *)
Theorem iterate_pass_query_success {U : FormatUtil} (ctx : Context)
    (test : SampleCountTest.t) :
  SampleCountTestInstance.iterate (SampleCountTest.createInstance test ctx) = pass "OK" ->
  fst (subtestQuery ctx (SampleCountTest.m_caseDef test) (SampleCountTest.m_subtest test))
  = VK_SUCCESS.
Proof.
  intros Hpass.
  destruct (Z.eq_dec
              (fst (subtestQuery ctx (SampleCountTest.m_caseDef test)
                      (SampleCountTest.m_subtest test))) VK_SUCCESS) as [E|E];
    [exact E|].
  rewrite (iterate_query_failure ctx test E) in Hpass. discriminate Hpass.
Qed.

Lemma iterate_pass_query_success_witness :
  fst (subtestQuery (Sample.device 128 1)
         (SampleCountTest.m_caseDef (Sample.cubeCase VK_FORMAT_R8G8B8A8_UNORM))
         CUBE_COMPATIBLE_SUBTEST) = VK_SUCCESS.
Proof.
  apply (iterate_pass_query_success (U := Sample.util) (Sample.device 128 1)
           (Sample.cubeCase VK_FORMAT_R8G8B8A8_UNORM)).
  reflexivity.
Defined.

(** ** Enumerated cases *)

Lemma in_testCases {U : FormatUtil} (t : SampleCountTest.t) :
  In t (testCases createImageSampleCountsTests) <->
  exists ty tl f, In f enumerateAllFormatsToTest /\ In t (emittedCases ty tl f).
Proof.
  unfold testCases. rewrite in_map_iff. split.
  - intros [[path t'] [E Hin]]. cbn [snd] in E. subst t'.
    apply (proj1 (in_testPaths path t)) in Hin. destruct Hin as [ty [tl [f [Hf [Ht _]]]]].
    exists ty, tl, f. tauto.
  - intros [ty [tl [f [Hf Ht]]]]. exists (casePath ty tl t, t).
    split; [reflexivity|]. apply in_testPaths. exists ty, tl, f. tauto.
Qed.

Lemma usageOfSubset_mask (b : UsageSubset) :
  Z.land (usageOfSubset b) usageMask = usageOfSubset b.
Proof. destruct b as [[] [] [] []]; reflexivity. Qed.

(** What the enumerator gives each case of a triple. *)
Lemma emittedCases_shape {U : FormatUtil} ty tl (f : VkFormat) (t : SampleCountTest.t) :
  In t (emittedCases ty tl f) ->
  exists usage,
    SampleCountTest.m_caseDef t = caseDefOf ty tl f usage
    /\ SampleCountTest.description t = ""
    /\ (SampleCountTest.m_subtest t = LINEAR_TILING_AND_NOT_2D_IMAGE_TYPE <->
        is2DOptimal (caseDefOf ty tl f 0) = false)
    /\ (SampleCountTest.m_subtest t = YCBCR_CONVERSION_SUBTEST -> isYCbCrFormat f = true)
    /\ (SampleCountTest.m_subtest t = USAGE_FLAGS_SUBTEST \/ usage = 0)
    /\ Z.land usage usageMask = usage.
Proof.
  rewrite emittedCases_cases.
  destruct (is2DOptimal (caseDefOf ty tl f 0)) eqn:E.
  - unfold optimal2DCases. rewrite !in_app_iff. intros [H|[H|[H|H]]].
    + destruct H as [<-|[<-|[]]]; exists 0; simpl;
        repeat split; intros; try discriminate; tauto.
    + destruct (isYCbCrFormat f) eqn:Hy; [|destruct H].
      destruct H as [<-|[]]. exists 0. simpl.
      repeat split; intros; try discriminate; tauto.
    + apply in_map_iff in H. destruct H as [b [<- _]].
      exists (usageOfSubset b). simpl.
      repeat split; intros; try discriminate; try tauto.
      apply usageOfSubset_mask.
    + destruct H as [<-|[]]. exists 0. simpl.
      repeat split; intros; try discriminate; tauto.
  - unfold linearOrNon2DCases. intros [<-|[]]. exists 0. simpl.
    repeat split; intros; try discriminate; tauto.
Qed.

Lemma is2DOptimal_usage {U : FormatUtil} ty tl (f : VkFormat) usage :
  is2DOptimal (caseDefOf ty tl f usage) = is2DOptimal (caseDefOf ty tl f 0).
Proof. reflexivity. Qed.

(** X16.  Every case of the tree carries a variant that fits it: its format
    is a format of the universe, its description is empty, its usage flags
    lie within the four usage bits and are empty unless the variant is
    USAGE_FLAGS, the variant is the linear-tiling-or-not-2D one exactly when
    the case is not 2D and optimally tiled, and the YCbCr variant is given to
    chroma-subsampled formats only. *)
Theorem enumerated_case_invariants {U : FormatUtil} (t : SampleCountTest.t) :
  In t (testCases createImageSampleCountsTests) ->
  In (format (SampleCountTest.m_caseDef t)) enumerateAllFormatsToTest
  /\ SampleCountTest.description t = ""
  /\ Z.land (usageFlags (SampleCountTest.m_caseDef t)) usageMask
     = usageFlags (SampleCountTest.m_caseDef t)
  /\ (SampleCountTest.m_subtest t <> USAGE_FLAGS_SUBTEST ->
      usageFlags (SampleCountTest.m_caseDef t) = 0)
  /\ (SampleCountTest.m_subtest t = LINEAR_TILING_AND_NOT_2D_IMAGE_TYPE <->
      is2DOptimal (SampleCountTest.m_caseDef t) = false)
  /\ (SampleCountTest.m_subtest t = YCBCR_CONVERSION_SUBTEST ->
      isYCbCrFormat (format (SampleCountTest.m_caseDef t)) = true).
Proof.
  intros Hin. apply (proj1 (in_testCases t)) in Hin. destruct Hin as [ty [tl [f [Hf Ht]]]].
  apply emittedCases_shape in Ht.
  destruct Ht as [usage [Hdef [Hdescr [Hlinear [Hycbcr [Husage Hmask]]]]]].
  rewrite Hdef. rewrite is2DOptimal_usage. cbn [caseDefOf format usageFlags].
  repeat split; try assumption; try apply Hlinear.
  intros Hnot. destruct Husage as [Hu|Hu]; [contradiction | exact Hu].
Qed.

(** X17.  For every case of the tree but the cube-compatible ones, the
    support probe and the check of the case's variant issue the same query,
    so they see the same status. *)
Theorem enumerated_probe_matches_query {U : FormatUtil} (t : SampleCountTest.t)
    (ctx : Context) :
  In t (testCases createImageSampleCountsTests) ->
  SampleCountTest.m_subtest t <> CUBE_COMPATIBLE_SUBTEST ->
  subtestQuery ctx (SampleCountTest.m_caseDef t) (SampleCountTest.m_subtest t)
  = probeQuery ctx (SampleCountTest.m_caseDef t).
Proof.
  intros Hin Hcube. apply (proj1 (in_testCases t)) in Hin. destruct Hin as [ty [tl [f [_ Ht]]]].
  apply emittedCases_shape in Ht.
  destruct Ht as [usage [Hdef [_ [_ [_ [Husage _]]]]]].
  unfold probeQuery. rewrite Hdef in *. cbn [caseDefOf usageFlags] in *.
  destruct Husage as [->| ->]; [reflexivity|].
  destruct (SampleCountTest.m_subtest t); try reflexivity. contradiction.
Qed.

(** X18.  A linear-tiling-or-not-2D case of the tree passes exactly when its
    query succeeded and reported the set [{1}]: the tiling and image-type
    condition of the check holds for every such case the enumerator builds. *)
Theorem enumerated_linear_case_verdict {U : FormatUtil} (t : SampleCountTest.t)
    (ctx : Context) :
  In t (testCases createImageSampleCountsTests) ->
  SampleCountTest.m_subtest t = LINEAR_TILING_AND_NOT_2D_IMAGE_TYPE ->
  (SampleCountTestInstance.iterate (SampleCountTest.createInstance t ctx) = pass "OK" <->
   fst (probeQuery ctx (SampleCountTest.m_caseDef t)) = VK_SUCCESS
   /\ sampleCounts (snd (probeQuery ctx (SampleCountTest.m_caseDef t)))
      = VK_SAMPLE_COUNT_1_BIT).
Proof.
  intros Hin Hsub. apply (proj1 (in_testCases t)) in Hin. destruct Hin as [ty [tl [f [_ Ht]]]].
  apply emittedCases_shape in Ht.
  destruct Ht as [usage [Hdef [_ [Hlinear [_ [Husage _]]]]]].
  apply Hlinear in Hsub as H2D.
  assert (Hzero : usage = 0).
  { destruct Husage as [Hu|Hu]; [congruence | exact Hu]. }
  subst usage.
  unfold SampleCountTestInstance.iterate, SampleCountTest.createInstance.
  cbn [SampleCountTestInstance.m_subtest]. rewrite Hsub.
  unfold SampleCountTestInstance.checkLinearTilingAndNot2DImageType, probeQuery.
  cbn [SampleCountTestInstance.m_context SampleCountTestInstance.m_caseDef].
  rewrite Hdef. unfold is2DOptimal in H2D.
  cbn [caseDefOf format imageType imageTiling usageFlags] in *.
  rewrite <- !Z.eqb_eq.
  destruct (fst (getPhysicalDeviceImageFormatProperties ctx f (mapImageType ty) tl 0 0)
            =? VK_SUCCESS);
    destruct (sampleCounts
                (snd (getPhysicalDeviceImageFormatProperties ctx f (mapImageType ty) tl 0 0))
              =? VK_SAMPLE_COUNT_1_BIT);
    destruct (mapImageType ty), tl; simpl in *;
    try discriminate H2D; intuition discriminate.
Qed.

Lemma sampleLinearCase_enumerated :
  In sampleLinearCase (testCases (createImageSampleCountsTests (U := Sample.util))).
Proof.
  apply in_testCases.
  exists IMAGE_TYPE_3D, VK_IMAGE_TILING_LINEAR, VK_FORMAT_R4G4_UNORM_PACK8.
  split; [apply first_format_enumerated|].
  rewrite emittedCases_cases. left. reflexivity.
Qed.

Lemma enumerated_case_invariants_witness :
  usageFlags (SampleCountTest.m_caseDef (Sample.cubeCase VK_FORMAT_R8G8B8A8_UNORM)) = 0.
Proof.
  apply (enumerated_case_invariants (U := Sample.util)
           (Sample.cubeCase VK_FORMAT_R8G8B8A8_UNORM) cubeCase_enumerated).
  discriminate.
Defined.

Lemma enumerated_probe_matches_query_witness :
  subtestQuery Sample.deviceWithoutCube (SampleCountTest.m_caseDef sampleLinearCase)
    (SampleCountTest.m_subtest sampleLinearCase)
  = probeQuery Sample.deviceWithoutCube (SampleCountTest.m_caseDef sampleLinearCase).
Proof.
  apply (enumerated_probe_matches_query (U := Sample.util) sampleLinearCase
           Sample.deviceWithoutCube sampleLinearCase_enumerated).
  discriminate.
Defined.

Lemma enumerated_linear_case_verdict_witness :
  SampleCountTestInstance.iterate (U := Sample.util)
    (SampleCountTest.createInstance sampleLinearCase (Sample.device 0 1)) = pass "OK".
Proof.
  apply (proj2 (enumerated_linear_case_verdict (U := Sample.util) sampleLinearCase
                  (Sample.device 0 1) sampleLinearCase_enumerated eq_refl)).
  split; reflexivity.
Defined.

(** ** Usage-flag combinations and names *)

Lemma shiftr_land_1 (k i : Z) :
  0 <= i -> nonzero (Z.land (Z.shiftr k i) 1) = Z.testbit k i.
Proof.
  intros Hi.
  replace (Z.testbit k i) with (Z.testbit (Z.shiftr k i) 0)
    by (rewrite Z.shiftr_spec by lia; f_equal; lia).
  rewrite Z.bit0_odd.
  change 1 with (Z.ones 1). rewrite Z.land_ones by lia. change (2 ^ 1) with 2.
  rewrite Zmod_odd. destruct (Z.odd (Z.shiftr k i)); reflexivity.
Qed.

Lemma usageOfCombination_unfold (k : Z) :
  usageOfCombination k =
  let usage := 0 in
  let usage := if nonzero (Z.land (Z.shiftr k 0) 1)
               then Z.lor usage VK_IMAGE_USAGE_COLOR_ATTACHMENT_BIT else usage in
  let usage := if nonzero (Z.land (Z.shiftr k 1) 1)
               then Z.lor usage VK_IMAGE_USAGE_DEPTH_STENCIL_ATTACHMENT_BIT else usage in
  let usage := if nonzero (Z.land (Z.shiftr k 2) 1)
               then Z.lor usage VK_IMAGE_USAGE_SAMPLED_BIT else usage in
  let usage := if nonzero (Z.land (Z.shiftr k 3) 1)
               then Z.lor usage VK_IMAGE_USAGE_STORAGE_BIT else usage in
  usage.
Proof. reflexivity. Qed.

(** X19.  The inner loop of [addUsageFlagsSubtests] turns bit [i] of the
    combination number into the [i]-th usage flag, for every number: the
    usage word holds the colour-attachment, depth/stencil-attachment, sampled
    and storage bit exactly when bit 0, 1, 2 and 3 of the number is set, and
    it holds no other bit. *)
Theorem usageOfCombination_bits (flagsCombination : Z) :
  subsetOfUsage (usageOfCombination flagsCombination)
  = {| withColor := Z.testbit flagsCombination 0;
       withDepth := Z.testbit flagsCombination 1;
       withSampled := Z.testbit flagsCombination 2;
       withStorage := Z.testbit flagsCombination 3 |}
  /\ usageOfCombination flagsCombination
     = usageOfSubset (subsetOfUsage (usageOfCombination flagsCombination))
  /\ Z.land (usageOfCombination flagsCombination) usageMask
     = usageOfCombination flagsCombination.
Proof.
  rewrite usageOfCombination_unfold. cbv zeta.
  rewrite !shiftr_land_1 by lia.
  destruct (Z.testbit flagsCombination 0), (Z.testbit flagsCombination 1),
    (Z.testbit flagsCombination 2), (Z.testbit flagsCombination 3);
    repeat split.
Qed.

Lemma append_inv_head (a x y : string) : (a ++ x = a ++ y)%string -> x = y.
Proof.
  induction a as [|ch a IH]; simpl; intros H; [exact H|].
  injection H as H. apply IH. exact H.
Qed.

Lemma usageCaseName_subset (samplesCaseName : string) (usage : VkImageUsageFlags) :
  usageCaseName samplesCaseName usage
  = (samplesCaseName ++ "_USAGE_FLAGS" ++ mnemonics (subsetOfUsage usage))%string.
Proof.
  unfold usageCaseName, mnemonics, subsetOfUsage.
  cbn [withColor withDepth withSampled withStorage].
  destruct (nonzero (Z.land usage VK_IMAGE_USAGE_COLOR_ATTACHMENT_BIT)),
    (nonzero (Z.land usage VK_IMAGE_USAGE_DEPTH_STENCIL_ATTACHMENT_BIT)),
    (nonzero (Z.land usage VK_IMAGE_USAGE_SAMPLED_BIT)),
    (nonzero (Z.land usage VK_IMAGE_USAGE_STORAGE_BIT));
    rewrite ?append_assoc; simpl; rewrite ?append_empty_r; reflexivity.
Qed.

Lemma mnemonics_inj (b b' : UsageSubset) : mnemonics b = mnemonics b' -> b = b'.
Proof.
  destruct b as [[] [] [] []], b' as [[] [] [] []]; simpl; intros H;
    try reflexivity; discriminate H.
Qed.

(** X20.  The name of a usage-flags case tells which of the four usage bits
    its usage word holds, and nothing else of the word: two usage words get
    the same name, under the same format name, exactly when they agree on the
    four bits. *)
Theorem usageCaseName_injective (samplesCaseName : string)
    (usage usage' : VkImageUsageFlags) :
  usageCaseName samplesCaseName usage = usageCaseName samplesCaseName usage' <->
  subsetOfUsage usage = subsetOfUsage usage'.
Proof.
  rewrite !usageCaseName_subset. split.
  - intros H. apply append_inv_head in H. apply append_inv_head in H.
    apply mnemonics_inj. exact H.
  - intros ->. reflexivity.
Qed.

(** X21.  [addUsageFlagsSubtests] keeps the children the group has and adds
    sixteen cases behind them, each a USAGE_FLAGS case with the format, image
    type and tiling of the given case description and usage flags within the
    four usage bits; the usage flags of the given description are not
    used. *)
Theorem addUsageFlagsSubtests_appends (samplesCaseName : string) (caseDef : CaseDef)
    (group : list TestNode) :
  exists added,
    addUsageFlagsSubtests samplesCaseName caseDef group = group ++ added
    /\ List.length added = 16%nat
    /\ (forall usage,
          addUsageFlagsSubtests samplesCaseName
            {| format := format caseDef; imageType := imageType caseDef;
               imageTiling := imageTiling caseDef; usageFlags := usage |} group
          = group ++ added)
    /\ (forall node, In node added ->
          exists t,
            node = TestCase t
            /\ SampleCountTest.m_subtest t = USAGE_FLAGS_SUBTEST
            /\ format (SampleCountTest.m_caseDef t) = format caseDef
            /\ imageType (SampleCountTest.m_caseDef t) = imageType caseDef
            /\ imageTiling (SampleCountTest.m_caseDef t) = imageTiling caseDef
            /\ Z.land (usageFlags (SampleCountTest.m_caseDef t)) usageMask
               = usageFlags (SampleCountTest.m_caseDef t)
            /\ SampleCountTest.name t
               = usageCaseName samplesCaseName (usageFlags (SampleCountTest.m_caseDef t))).
Proof.
  eexists. split; [apply addUsageFlagsSubtests_subsets|].
  split; [reflexivity|].
  split; [intros usage; rewrite addUsageFlagsSubtests_subsets; reflexivity|].
  intros node Hin. apply in_map_iff in Hin. destruct Hin as [b [<- _]].
  eexists. split; [reflexivity|]. cbn.
  repeat split. 
  - apply usageOfSubset_mask.
  - symmetry. apply usageCaseName_mnemonics.
Qed.

(** ** Size and shape of the tree *)

Lemma enumerateAllFormatsToTest_NoDup : NoDup enumerateAllFormatsToTest.
Proof.
  assert (E : nodup Z.eq_dec enumerateAllFormatsToTest = enumerateAllFormatsToTest)
    by (vm_compute; reflexivity).
  rewrite <- E. apply NoDup_nodup.
Qed.

Lemma enumerateAllFormatsToTest_length : List.length enumerateAllFormatsToTest = 246%nat.
Proof. vm_compute. reflexivity. Qed.

(** X22.  The format universe holds 246 formats and no format twice: the six
    ranges do not overlap. *)
Theorem enumerateAllFormatsToTest_distinct :
  NoDup enumerateAllFormatsToTest /\ List.length enumerateAllFormatsToTest = 246%nat.
Proof.
  split; [apply enumerateAllFormatsToTest_NoDup | apply enumerateAllFormatsToTest_length].
Qed.

Lemma flat_map_cons' {A B : Type} (g : A -> list B) (x : A) (l : list A) :
  flat_map g (x :: l) = g x ++ flat_map g l.
Proof. reflexivity. Qed.

Lemma map_flat_map' {A B C : Type} (h : B -> C) (g : A -> list B) (l : list A) :
  map h (flat_map g l) = flat_map (fun x => map h (g x)) l.
Proof.
  induction l as [|x l IH]; [reflexivity|].
  cbn [flat_map]. rewrite map_app, IH. reflexivity.
Qed.

Section TreeSize.

Context {U : FormatUtil}.

Lemma testCases_grid :
  testCases createImageSampleCountsTests
  = flat_map
      (fun ty =>
         flat_map (fun tl => flat_map (emittedCases ty tl) enumerateAllFormatsToTest)
                  imageTilings)
      imageTypes.
Proof.
  unfold testCases. rewrite testPaths_createImageSampleCountsTests.
  rewrite map_flat_map'. apply flat_map_ext. intros ty.
  rewrite map_flat_map'. apply flat_map_ext. intros tl.
  rewrite map_map. apply map_id.
Qed.

Lemma emittedCases_flat_length ty tl (formats : list VkFormat) :
  List.length (flat_map (emittedCases ty tl) formats)
  = if VkImageType_eqb (mapImageType ty) VK_IMAGE_TYPE_2D
       && VkImageTiling_eqb tl VK_IMAGE_TILING_OPTIMAL
    then (19 * List.length formats + List.length (filter isYCbCrFormat formats))%nat
    else List.length formats.
Proof.
  induction formats as [|f formats IH].
  - destruct (_ && _); reflexivity.
  - rewrite flat_map_cons', length_app, IH, emittedCases_cases.
    unfold is2DOptimal. cbn [caseDefOf imageType imageTiling filter].
    destruct (VkImageType_eqb (mapImageType ty) VK_IMAGE_TYPE_2D
              && VkImageTiling_eqb tl VK_IMAGE_TILING_OPTIMAL).
    + unfold optimal2DCases. destruct (isYCbCrFormat f); cbn [List.length app map allSubsets
        flat_map booleans]; lia.
    + cbn [linearOrNon2DCases List.length]. lia.
Qed.

(** X23.  The tree holds 5904 cases and one more for every chroma-subsampled
    format of the universe: one case per format in each of the five groups
    that are not 2D and optimally tiled, and nineteen per format, twenty for
    a chroma-subsampled one, in the 2D optimally tiled group. *)
Theorem testCases_count :
  Z.of_nat (List.length (testCases createImageSampleCountsTests))
  = 5904 + Z.of_nat (List.length (filter isYCbCrFormat enumerateAllFormatsToTest)).
Proof.
  rewrite testCases_grid. unfold imageTypes, imageTilings.
  rewrite !flat_map_cons', !length_app, !emittedCases_flat_length.
  cbn [flat_map List.length mapImageType VkImageType_eqb VkImageTiling_eqb andb].
  rewrite enumerateAllFormatsToTest_length. lia.
Qed.

(** X24.  Every case of the tree sits under the group of its own image type
    and the group of its own tiling: its path is the root, the name of an
    image type, the name of a tiling and the case name, and that image type
    and tiling are the ones of its case description, whose format is a format
    of the universe. *)
Theorem testPaths_groups_match (path : list string) (t : SampleCountTest.t) :
  In (path, t) (testPaths createImageSampleCountsTests) ->
  exists ty tl,
    path = [ "sample_counts"; getImageTypeName ty; getImageTilingName tl;
             SampleCountTest.name t ]
    /\ imageType (SampleCountTest.m_caseDef t) = mapImageType ty
    /\ imageTiling (SampleCountTest.m_caseDef t) = tl
    /\ In (format (SampleCountTest.m_caseDef t)) enumerateAllFormatsToTest.
Proof.
  intros Hin. apply (proj1 (in_testPaths path t)) in Hin.
  destruct Hin as [ty [tl [f [Hf [Ht ->]]]]].
  apply emittedCases_shape in Ht. destruct Ht as [usage [Hdef _]].
  exists ty, tl. rewrite Hdef. cbn [caseDefOf imageType imageTiling format].
  repeat split. exact Hf.
Qed.

End TreeSize.

Lemma testPaths_groups_match_witness :
  exists ty tl,
    casePath (U := Sample.util) IMAGE_TYPE_2D VK_IMAGE_TILING_OPTIMAL
      (Sample.cubeCase VK_FORMAT_R8G8B8A8_UNORM)
    = [ "sample_counts"; getImageTypeName (FormatUtil := Sample.util) ty;
        getImageTilingName (FormatUtil := Sample.util) tl;
        SampleCountTest.name (Sample.cubeCase VK_FORMAT_R8G8B8A8_UNORM) ]
    /\ imageType (SampleCountTest.m_caseDef (Sample.cubeCase VK_FORMAT_R8G8B8A8_UNORM))
       = mapImageType ty
    /\ imageTiling (SampleCountTest.m_caseDef (Sample.cubeCase VK_FORMAT_R8G8B8A8_UNORM))
       = tl
    /\ In (format (SampleCountTest.m_caseDef (Sample.cubeCase VK_FORMAT_R8G8B8A8_UNORM)))
          enumerateAllFormatsToTest.
Proof.
  exact (testPaths_groups_match (U := Sample.util) _ _ cubeCase_path_enumerated).
Defined.

(** ** No path twice *)

Lemma NoDup_flat_map {A B : Type} (g : A -> list B) (l : list A) :
  NoDup l ->
  (forall x, In x l -> NoDup (g x)) ->
  (forall x y b, In x l -> In y l -> In b (g x) -> In b (g y) -> x = y) ->
  NoDup (flat_map g l).
Proof.
  induction l as [|a l IH]; intros Hnd Heach Hcross; [constructor|].
  apply NoDup_cons_iff in Hnd. destruct Hnd as [Hfresh Hnd].
  cbn [flat_map]. apply NoDup_app.
  - apply Heach. left. reflexivity.
  - apply IH.
    + exact Hnd.
    + intros x Hx. apply Heach. right. exact Hx.
    + intros x y b Hx Hy. apply Hcross; right; assumption.
  - intros b Hb Hb'. apply in_flat_map in Hb'. destruct Hb' as [y [Hy Hby]].
    apply Hfresh. rewrite (Hcross a y b); auto; [left; reflexivity | right; exact Hy].
Qed.

Lemma NoDup_map_inj_on {A B : Type} (h : A -> B) (l : list A) :
  NoDup l -> (forall x y, In x l -> In y l -> h x = h y -> x = y) -> NoDup (map h l).
Proof.
  induction l as [|a l IH]; intros Hnd Hinj; [constructor|].
  apply NoDup_cons_iff in Hnd. destruct Hnd as [Hfresh Hnd].
  cbn [map]. constructor.
  - intros Hin. apply in_map_iff in Hin. destruct Hin as [x [E Hx]].
    apply Hfresh. rewrite <- (Hinj x a); auto; [right; exact Hx | left; reflexivity].
  - apply IH; [exact Hnd|]. intros x y Hx Hy. apply Hinj; right; assumption.
Qed.

Lemma tagsOf_NoDup (optimal2D ycbcr : bool) : NoDup (tagsOf optimal2D ycbcr).
Proof.
  assert (E : nodup string_dec (tagsOf optimal2D ycbcr) = tagsOf optimal2D ycbcr)
    by (destruct optimal2D, ycbcr; vm_compute; reflexivity).
  rewrite <- E. apply NoDup_nodup.
Qed.

Section Paths.

Context {U : FormatUtil}.

(** The names of the cases of a triple are the format's short name followed
    by the tags of the triple. *)
Lemma emittedCases_names ty tl (f : VkFormat) :
  map SampleCountTest.name (emittedCases ty tl f)
  = map (String.append (getFormatShortString f))
        (tagsOf (is2DOptimal (caseDefOf ty tl f 0)) (isYCbCrFormat f)).
Proof.
  rewrite emittedCases_cases.
  destruct (is2DOptimal (caseDefOf ty tl f 0)); [|reflexivity].
  unfold optimal2DCases, tagsOf.
  destruct (isYCbCrFormat f); rewrite !map_app, !map_map; reflexivity.
Qed.

Lemma emittedCases_names_NoDup ty tl (f : VkFormat) :
  NoDup (map SampleCountTest.name (emittedCases ty tl f)).
Proof.
  rewrite emittedCases_names. apply NoDup_map_inj_on.
  - apply tagsOf_NoDup.
  - intros x y _ _ H. apply (append_inv_head _ _ _ H).
Qed.

Hypothesis type_names :
  forall ty ty', getImageTypeName ty = getImageTypeName ty' -> ty = ty'.
Hypothesis tiling_names :
  forall tl tl', getImageTilingName tl = getImageTilingName tl' -> tl = tl'.
Hypothesis format_names :
  forall f f',
    In f enumerateAllFormatsToTest -> In f' enumerateAllFormatsToTest ->
    getFormatShortString f = getFormatShortString f' -> f = f'.

(** Within a tiling group no case name occurs twice. *)
Lemma group_names_NoDup ty tl :
  NoDup (map SampleCountTest.name
           (flat_map (emittedCases ty tl) enumerateAllFormatsToTest)).
Proof.
  rewrite map_flat_map'. apply NoDup_flat_map.
  - apply enumerateAllFormatsToTest_NoDup.
  - intros f _. apply emittedCases_names_NoDup.
  - intros f f' n Hf Hf' Hn Hn'.
    apply in_map_iff in Hn. destruct Hn as [t [Ht Hin]].
    apply in_map_iff in Hn'. destruct Hn' as [t' [Ht' Hin']].
    apply emittedCases_tag in Hin. destruct Hin as [tag [usage [subtest [Htag ->]]]].
    apply emittedCases_tag in Hin'. destruct Hin' as [tag' [usage' [subtest' [Htag' ->]]]].
    cbn [sampleCountTest SampleCountTest.name] in Ht, Ht'.
    assert (Hname : (getFormatShortString f ++ tag
                     = getFormatShortString f' ++ tag')%string) by congruence.
    destruct (variantTags_unique _ _ _ _ _ _ Htag Htag' Hname) as [Hstr _].
    apply format_names; assumption.
Qed.

(** X25.  When the naming helpers give different names to different image
    types, tilings and formats of the universe, no path occurs twice in the
    tree: within a tiling group every case name is used once. *)
Theorem testPaths_NoDup :
  NoDup (map fst (testPaths createImageSampleCountsTests)).
Proof.
  rewrite testPaths_createImageSampleCountsTests, map_flat_map'.
  apply NoDup_flat_map.
  - unfold imageTypes. repeat constructor; simpl; intuition discriminate.
  - intros ty _. rewrite map_flat_map'. apply NoDup_flat_map.
    + unfold imageTilings. repeat constructor; simpl; intuition discriminate.
    + intros tl _. rewrite map_map.
      match goal with
      | |- NoDup (map _ ?cases) =>
          replace (map (fun t => fst (casePath ty tl t, t)) cases)
            with (map (fun n => [ "sample_counts"; getImageTypeName ty;
                                  getImageTilingName tl; n ])
                      (map SampleCountTest.name cases))
            by (rewrite map_map; reflexivity)
      end.
      apply NoDup_map_inj_on; [apply group_names_NoDup|].
      intros n n' _ _ H. injection H as H. exact H.
    + intros tl tl' path _ _ Hp Hp'.
      apply in_map_iff in Hp. destruct Hp as [[path1 t] [E Hin]].
      apply in_map_iff in Hp'. destruct Hp' as [[path2 t'] [E' Hin']].
      cbn [fst] in E, E'. subst path1 path2.
      apply in_map_iff in Hin. destruct Hin as [t1 [E1 _]].
      apply in_map_iff in Hin'. destruct Hin' as [t2 [E2 _]].
      apply (f_equal fst) in E1. apply (f_equal fst) in E2. cbn [fst] in E1, E2.
      rewrite <- E2 in E1. unfold casePath in E1.
      apply (f_equal (fun l => nth 2 l ""%string)) in E1. cbn [nth] in E1.
      apply tiling_names. exact E1.
  - intros ty ty' path _ _ Hp Hp'.
    apply in_map_iff in Hp. destruct Hp as [[path1 t] [E Hin]].
    apply in_map_iff in Hp'. destruct Hp' as [[path2 t'] [E' Hin']].
    cbn [fst] in E, E'. subst path1 path2.
    apply in_flat_map in Hin. destruct Hin as [tl [_ Hin]].
    apply in_flat_map in Hin'. destruct Hin' as [tl' [_ Hin']].
    apply in_map_iff in Hin. destruct Hin as [t1 [E1 _]].
    apply in_map_iff in Hin'. destruct Hin' as [t2 [E2 _]].
    apply (f_equal fst) in E1. apply (f_equal fst) in E2. cbn [fst] in E1, E2.
    rewrite <- E2 in E1. unfold casePath in E1.
    apply (f_equal (fun l => nth 1 l ""%string)) in E1. cbn [nth] in E1.
    apply type_names. exact E1.
Qed.

End Paths.

Lemma testPaths_NoDup_witness :
  NoDup (map fst (testPaths (createImageSampleCountsTests (U := Sample.util)))).
Proof.
  exact (testPaths_NoDup (U := Sample.util)
           Sample_type_names Sample_tiling_names Sample_format_names).
Defined.

(** ** Support probe on the cases of the tree *)

(** X26.  For every case of the tree but the cube-compatible ones, a device
    that answers the query of the case's check with "format not supported"
    makes [checkSupport] raise the not-supported error, so the check is not
    reached with that answer. *)
Theorem enumerated_unsupported_raises {U : FormatUtil} (t : SampleCountTest.t)
    (ctx : Context) :
  In t (testCases createImageSampleCountsTests) ->
  SampleCountTest.m_subtest t <> CUBE_COMPATIBLE_SUBTEST ->
  fst (subtestQuery ctx (SampleCountTest.m_caseDef t) (SampleCountTest.m_subtest t))
  = VK_ERROR_FORMAT_NOT_SUPPORTED ->
  SampleCountTest.checkSupport t ctx
  = Throw (NotSupportedError "Format is not supported").
Proof.
  intros Hin Hcube Hq. apply (proj1 (in_testCases t)) in Hin.
  destruct Hin as [ty [tl [f [_ Ht]]]].
  apply emittedCases_shape in Ht.
  destruct Ht as [usage [Hdef [_ [_ [_ [Husage _]]]]]].
  unfold SampleCountTest.checkSupport. rewrite Hdef in *.
  cbn [caseDefOf format imageType imageTiling usageFlags] in *.
  assert (E : fst (getPhysicalDeviceImageFormatProperties ctx f (mapImageType ty) tl
                     usage 0) = VK_ERROR_FORMAT_NOT_SUPPORTED).
  { destruct Husage as [Hu|Hu].
    - rewrite Hu in Hq. exact Hq.
    - subst usage. destruct (SampleCountTest.m_subtest t); try exact Hq. contradiction. }
  rewrite E. reflexivity.
Qed.

Lemma enumerated_unsupported_raises_witness :
  SampleCountTest.checkSupport sampleLinearCase
    {| getPhysicalDeviceFormatProperties _ := {| optimalTilingFeatures := 0 |};
       getPhysicalDeviceProperties2 := (Sample.properties2, Sample.properties12);
       getPhysicalDeviceImageFormatProperties _ _ _ _ _ :=
         (VK_ERROR_FORMAT_NOT_SUPPORTED, {| sampleCounts := 0 |}) |}
  = Throw (NotSupportedError "Format is not supported").
Proof.
  apply (enumerated_unsupported_raises (U := Sample.util) sampleLinearCase _
           sampleLinearCase_enumerated).
  - discriminate.
  - reflexivity.
Defined.

(** ** The range loop *)

Lemma pushRange_interval (fuel : nat) (first second : VkFormat) (formats : list VkFormat) :
  (Z.to_nat (second - first + 1) <= fuel)%nat ->
  pushRange fuel first second formats
  = formats ++ map (fun i => first + Z.of_nat i) (seq 0 (Z.to_nat (second - first + 1))).
Proof.
  revert first formats. induction fuel as [|fuel IH]; intros first formats Hfuel.
  - replace (Z.to_nat (second - first + 1)) with 0%nat by lia.
    simpl. symmetry. apply app_nil_r.
  - simpl. destruct (first <=? second) eqn:Hle.
    + apply Z.leb_le in Hle. rewrite IH by lia.
      replace (Z.to_nat (second - first + 1))
        with (S (Z.to_nat (second - (first + 1) + 1))) by lia.
      cbn [seq map]. rewrite <- seq_shift, map_map, <- app_assoc. cbn [app].
      f_equal. f_equal; [lia|]. apply map_ext. intros i. lia.
    + apply Z.leb_gt in Hle.
      replace (Z.to_nat (second - first + 1)) with 0%nat by lia.
      simpl. symmetry. apply app_nil_r.
Qed.

(** X27.  The loop over a range appends the format ids from the first bound
    to the last in increasing order, each once, and nothing when the first
    bound is above the last; fuel beyond the number of ids changes nothing.
    The format universe is the six ranges' ids, range after range. *)
Theorem pushRange_appends_interval :
  (forall fuel first second formats,
     (Z.to_nat (second - first + 1) <= fuel)%nat ->
     pushRange fuel first second formats
     = formats ++ map (fun i => first + Z.of_nat i)
                      (seq 0 (Z.to_nat (second - first + 1))))
  /\ (forall fuel first second formats,
        second < first -> pushRange fuel first second formats = formats)
  /\ enumerateAllFormatsToTest
     = flat_map (fun range =>
                   map (fun i => fst range + Z.of_nat i)
                       (seq 0 (Z.to_nat (snd range - fst range + 1))))
                allFormatsRanges.
Proof.
  split; [exact pushRange_interval|]. split.
  - intros fuel first second formats Hlt.
    destruct fuel as [|fuel]; [reflexivity|]. simpl.
    apply Z.leb_gt in Hlt. rewrite Hlt. reflexivity.
  - unfold enumerateAllFormatsToTest.
    assert (H : forall ranges formats,
              fold_left
                (fun formats range =>
                   pushRange (Z.to_nat (snd range - fst range + 1)) (fst range)
                             (snd range) formats)
                ranges formats
              = formats ++
                flat_map (fun range =>
                            map (fun i => fst range + Z.of_nat i)
                                (seq 0 (Z.to_nat (snd range - fst range + 1))))
                         ranges).
    { induction ranges as [|range ranges IH]; intros formats.
      - simpl. symmetry. apply app_nil_r.
      - cbn [fold_left flat_map]. rewrite IH, pushRange_interval by lia.
        symmetry. apply app_assoc. }
    apply (H allFormatsRanges []).
Qed.

Lemma pushRange_appends_interval_witness :
  pushRange 10 3 5 [1] = [1; 3; 4; 5] /\ pushRange 10 5 3 [1] = [1].
Proof.
  split.
  - apply (proj1 pushRange_appends_interval 10%nat 3 5 [1]). simpl. lia.
  - apply (proj1 (proj2 pushRange_appends_interval) 10%nat 5 3 [1]). lia.
Defined.
